(** * Supabase migrations consolidator: a shallow embedding and its properties

    The development follows [consolidate_migrations.py].  Python [str] values
    are Rocq strings holding the UTF-8 encoding of the text, file contents
    are Rocq strings holding the file's bytes, the migrations directory is a
    finite map from relative paths to nodes, and the script's functions are
    written in a small state-and-exception monad over a [world] made of the
    file system, the lines still waiting on standard input and the log of
    file-system calls performed so far. *)

From stdpp Require Import gmap strings list fin_maps sorting.
From Stdlib Require Import Ascii.

Set Default Proof Using "Type".

(** ** Python string methods used by the script *)

Module Str.

(** [s.startswith(p)] *)
Fixpoint startswith (s p : string) {struct p} : bool :=
  match p with
  | EmptyString => true
  | String b p' =>
      match s with
      | EmptyString => false
      | String a s' => bool_decide (a = b) && startswith s' p'
      end
  end.

(** [s.endswith(suf)]: [suf] is [s] itself or a suffix of its tail. *)
Fixpoint endswith (s suf : string) : bool :=
  bool_decide (s = suf) ||
  match s with
  | EmptyString => false
  | String _ s' => endswith s' suf
  end.

(** [str.lower()] on the ASCII range; bytes above 127 are left alone, which
    agrees with Python on the only comparison the script makes
    ([confirmation.lower() == 'y']): no non-ASCII character lowers to
    [y]. *)
Definition lower_ascii (c : ascii) : ascii :=
  let n := nat_of_ascii c in
  if (65 <=? n)%nat && (n <=? 90)%nat then ascii_of_nat (n + 32) else c.

Fixpoint lower (s : string) : string :=
  match s with
  | EmptyString => EmptyString
  | String c s' => String (lower_ascii c) (lower s')
  end.

(** [str.strip()] removes the characters for which [str.isspace()] holds.
    A [str] is kept as its UTF-8 encoding, so these are the ASCII bytes 9 to
    13 and 28 to 32, the two-byte encodings of U+0085 and U+00A0, and the
    three-byte encodings of U+1680, U+2000 to U+200A, U+2028, U+2029, U+202F,
    U+205F and U+3000. *)
Definition is_space (c : ascii) : bool :=
  let n := nat_of_ascii c in
  ((9 <=? n)%nat && (n <=? 13)%nat) || ((28 <=? n)%nat && (n <=? 32)%nat).

Definition is_space2 (c d : ascii) : bool :=
  let c := nat_of_ascii c in
  let d := nat_of_ascii d in
  ((c =? 194) && ((d =? 133) || (d =? 160)))%nat.

Definition is_space3 (c d e : ascii) : bool :=
  let c := nat_of_ascii c in
  let d := nat_of_ascii d in
  let e := nat_of_ascii e in
  (((c =? 225) && (d =? 154) && (e =? 128))
   || ((c =? 226) && (d =? 128) &&
       (((128 <=? e) && (e <=? 138)) || (e =? 168) || (e =? 169) || (e =? 175)))
   || ((c =? 226) && (d =? 129) && (e =? 159))
   || ((c =? 227) && (d =? 128) && (e =? 128)))%nat.

Fixpoint lstrip (s : string) : string :=
  match s with
  | EmptyString => EmptyString
  | String c s1 =>
      if is_space c then lstrip s1
      else match s1 with
           | EmptyString => s
           | String d s2 =>
               if is_space2 c d then lstrip s2
               else match s2 with
                    | EmptyString => s
                    | String e s3 => if is_space3 c d e then lstrip s3 else s
                    end
           end
  end.

(** [s] is made of white space only. *)
Definition all_space (s : string) : bool :=
  bool_decide (lstrip s = EmptyString).

Fixpoint rstrip (s : string) : string :=
  match s with
  | EmptyString => EmptyString
  | String c s' => if all_space s then EmptyString else String c (rstrip s')
  end.

(** [s.strip()] *)
Definition strip (s : string) : string := rstrip (lstrip s).

(** Truthiness of a Python string: non-empty. *)
Definition truthy (s : string) : bool :=
  match s with EmptyString => false | String _ _ => true end.

(** Number of newline characters at the very end of [s]. *)
Fixpoint trailing_newlines (s : string) : nat :=
  match s with
  | EmptyString => 0
  | String c s' =>
      let n := trailing_newlines s' in
      if bool_decide (c = "010"%char) && bool_decide (n = String.length s')
      then S n else n
  end.

(** Number of empty lines that end a text: every trailing newline after the
    one that closes the last non-empty line. *)
Definition trailing_blank_lines (s : string) : nat := trailing_newlines s - 1.

(** [c in s] for a one-character [c]. *)
Fixpoint has_char (c : ascii) (s : string) : bool :=
  match s with
  | EmptyString => false
  | String a s' => bool_decide (a = c) || has_char c s'
  end.

Definition newline_free (s : string) : bool := negb (has_char "010"%char s).

(** The lines of a text: the pieces that its newline characters end, and
    the rest after the last newline when it is not empty. *)
Fixpoint splitlines (s : string) : list string :=
  match s with
  | EmptyString => []
  | String c s' =>
      if bool_decide (c = "010"%char) then EmptyString :: splitlines s'
      else match splitlines s' with
           | [] => [String c EmptyString]
           | l :: ls => String c l :: ls
           end
  end.

(** What a text-mode [read()] makes of the decoded text (universal
    newlines): every [\r\n] and every other [\r] becomes [\n]. *)
Fixpoint universal_newlines (s : string) : string :=
  match s with
  | EmptyString => EmptyString
  | String c s1 =>
      if bool_decide (c = "013"%char) then
        match s1 with
        | EmptyString => String "010"%char EmptyString
        | String d s2 =>
            if bool_decide (d = "010"%char)
            then String "010"%char (universal_newlines s2)
            else String "010"%char (universal_newlines s1)
        end
      else String c (universal_newlines s1)
  end.

(** The byte sequences the strict UTF-8 decoder accepts.  [utf8_from k lo hi
    s]: [k] continuation bytes are still due, the next of them between [lo]
    and [hi]. *)
Fixpoint utf8_from (k lo hi : nat) (s : string) : bool :=
  match s with
  | EmptyString => bool_decide (k = 0)
  | String c s' =>
      let n := nat_of_ascii c in
      match k with
      | 0 =>
          if (n <=? 127)%nat then utf8_from 0 128 191 s'
          else if ((194 <=? n) && (n <=? 223))%nat then utf8_from 1 128 191 s'
          else if (n =? 224)%nat then utf8_from 2 160 191 s'
          else if (n =? 237)%nat then utf8_from 2 128 159 s'
          else if ((225 <=? n) && (n <=? 239))%nat then utf8_from 2 128 191 s'
          else if (n =? 240)%nat then utf8_from 3 144 191 s'
          else if ((241 <=? n) && (n <=? 243))%nat then utf8_from 3 128 191 s'
          else if (n =? 244)%nat then utf8_from 3 128 143 s'
          else false
      | S k' => ((lo <=? n) && (n <=? hi))%nat && utf8_from k' 128 191 s'
      end
  end.

Definition utf8_valid (s : string) : bool := utf8_from 0 128 191 s.

(** A text that holds no path separator ([/], and [\] and the drive colon
    of the Windows flavour of [os.path]) and no NUL byte, which every path
    call refuses: used as, or inside, a file name it names one directory
    entry. *)
Definition is_separator (c : ascii) : bool :=
  bool_decide (c = "/"%char) || bool_decide (c = "\"%char) ||
  bool_decide (c = ":"%char) || bool_decide (c = "000"%char).

Fixpoint no_separator (s : string) : bool :=
  match s with
  | EmptyString => true
  | String c s' => negb (is_separator c) && no_separator s'
  end.

End Str.

(** ** File discovery (lines 177-185 of the script) *)

Record options := Options {
  opt_backup : bool;
  opt_delete : bool;
  opt_rename : bool;
  opt_timestamp : string
}.

Definition is_migration (f : string) : bool :=
  Str.endswith f ".sql" && negb (Str.startswith f "consolidated_migration").

Definition is_planned_init (timestamp f : string) : bool :=
  Str.startswith f (timestamp +:+ "_initial_schema").

(** [list.sort()] on file names.  Python compares [str] by code point, which
    is the byte order of the UTF-8 encoding; the names in one directory are
    pairwise distinct, so every correct sort returns the same list. *)
Definition sort_names (l : list string) : list string :=
  merge_sort String.le l.

(** The two comprehensions and the sort, applied to what [os.listdir]
    returned. *)
Definition discover_from (entries : list string) (o : options) : list string :=
  let migration_files := filter (λ f, is_migration f = true) entries in
  let migration_files :=
    if opt_rename o
    then filter (λ f, is_planned_init (opt_timestamp o) f = false) migration_files
    else migration_files in
  sort_names migration_files.

(** ** The file system

    Paths are lists of components relative to the migrations directory
    ([MIGRATIONS_DIR] is the empty path, which always exists and is a
    directory).  A file holds its bytes.  The script is modelled on a POSIX
    system whose locale encoding is UTF-8: a text is kept as its UTF-8
    encoding, a text-mode write stores it as it is, and a text-mode read
    decodes the bytes and translates the line endings. *)

Inductive node :=
  | File (content : string)
  | Dir.

Global Instance node_eq_dec : EqDecision node.
Proof. solve_decision. Defined.

Abbreviation path := (list string).
Abbreviation fs :=
  (@gmap (list string) (@list_eq_dec string String.eq_dec)
         (@list_countable string String.eq_dec String.countable) node).

Inductive exn :=
  | FileNotFoundError
  | FileExistsError
  | IsADirectoryError
  | NotADirectoryError
  | SameFileError
  | UnicodeDecodeError
  | ShutilError            (* shutil.Error: destination path already exists *)
  | EOFError
  | SystemExit (msg : string)
  | DirectoryMove.         (* shutil.move of a directory: outside the embedding *)

Global Instance exn_eq_dec : EqDecision exn.
Proof. solve_decision. Defined.

Module Fs.

Definition node_at (m : fs) (p : path) : option node :=
  match p with
  | [] => Some Dir
  | _ => m !! p
  end.

(** [os.path.exists] and [os.path.isdir] *)
Definition exists_ (m : fs) (p : path) : bool :=
  match node_at m p with Some _ => true | None => false end.

Definition isdir (m : fs) (p : path) : bool :=
  match node_at m p with Some Dir => true | _ => false end.

Definition parent (p : path) : path := removelast p.

(** [os.path.basename] *)
Definition basename (p : path) : string := List.last p "".

(** Creating an entry needs its parent to be a directory. *)
Definition check_parent (m : fs) (p : path) : option exn :=
  match node_at m (parent p) with
  | Some Dir => None
  | Some (File _) => Some NotADirectoryError
  | None => Some FileNotFoundError
  end.

(** [open(p, 'w')]: create or truncate. *)
Definition open_w (p : path) (m : fs) : exn + fs :=
  match check_parent m p with
  | Some e => inl e
  | None =>
      match m !! p with
      | Some Dir => inl IsADirectoryError
      | _ => inr (<[p := File ""]> m)
      end
  end.

Definition append_node (s : string) (n : node) : node :=
  match n with
  | File c => File (c +:+ s)
  | Dir => Dir
  end.

(** [outfile.write(s)] on the handle opened on [p]. *)
Definition write (p : path) (s : string) (m : fs) : fs :=
  alter (append_node s) p m.

(** [open(p, 'rb').read()]: the bytes of a regular file. *)
Definition read_bytes (p : path) (m : fs) : exn + string :=
  match m !! p with
  | Some (File c) => inr c
  | Some Dir => inl IsADirectoryError
  | None => inl FileNotFoundError
  end.

(** [open(p, 'r').read()]: the bytes are decoded, which fails when they are
    not valid UTF-8, and the line endings are translated. *)
Definition read (p : path) (m : fs) : exn + string :=
  match read_bytes p m with
  | inl e => inl e
  | inr c =>
      if Str.utf8_valid c then inr (Str.universal_newlines c)
      else inl UnicodeDecodeError
  end.

(** [os.remove] *)
Definition remove (p : path) (m : fs) : exn + fs :=
  match m !! p with
  | Some (File _) => inr (delete p m)
  | Some Dir => inl IsADirectoryError
  | None => inl FileNotFoundError
  end.

(** [os.mkdir] *)
Definition mkdir (p : path) (m : fs) : exn + fs :=
  if exists_ m p then inl FileExistsError
  else match check_parent m p with
       | Some e => inl e
       | None => inr (<[p := Dir]> m)
       end.

(** Where [shutil.copy2] and [shutil.move] really write: inside [dst]
    when [dst] is an existing directory. *)
Definition dest (m : fs) (src dst : path) : path :=
  if isdir m dst then dst ++ [basename src] else dst.

(** [shutil.copy2]: the source is opened first, then the destination, and
    the bytes are copied as they are. *)
Definition copy2 (src dst : path) (m : fs) : exn + fs :=
  let dst := dest m src dst in
  if bool_decide (src = dst) then inl SameFileError
  else match read_bytes src m with
       | inl e => inl e
       | inr c =>
           match open_w dst m with
           | inl e => inl e
           | inr m' => inr (write dst c m')
           end
       end.

(** [shutil.move] of a regular file: [os.rename] replaces a file that is
    already at the destination. *)
Definition move (src dst : path) (m : fs) : exn + fs :=
  let real_dst := dest m src dst in
  if isdir m dst && exists_ m real_dst then inl ShutilError
  else match m !! src with
       | None => inl FileNotFoundError
       | Some Dir => inl DirectoryMove
       | Some (File c) =>
           match check_parent m real_dst with
           | Some e => inl e
           | None => inr (<[real_dst := File c]> (delete src m))
           end
       end.

(** The names [os.listdir(MIGRATIONS_DIR)] returns, in the order the map
    enumerates them. *)
Definition listdir (m : fs) : list string :=
  omap (λ e : list string * node,
          match e.1 with [name] => Some name | _ => None end)
       (map_to_list m).

(** A well-formed file system: every entry sits in a directory. *)
Definition wf (m : fs) : Prop :=
  map_Forall (λ p _, p ≠ [] ∧ isdir m (parent p) = true) m.

Global Instance wf_dec (m : fs) : Decision (wf m).
Proof. unfold wf. apply _. Defined.

End Fs.

(** ** The world and the monad of the script

    An exception keeps the world reached so far: nothing is rolled back. *)

Inductive event :=
  | EvMkdir (p : path)
  | EvOpenW (p : path)
  | EvWrite (p : path) (s : string)
  | EvCopy (src dst : path)
  | EvRemove (p : path)
  | EvMove (src dst : path)
  | EvInput (line : string).

Global Instance event_eq_dec : EqDecision event.
Proof. solve_decision. Defined.

Record world := World {
  w_fs : fs;
  w_stdin : list string;
  w_trace : list event
}.

Implicit Types (w : world) (m : fs) (q src dst : path)
  (files entries lines : list string) (f name acc content timestamp : string).

Inductive result (A : Type) :=
  | Ok (a : A)
  | Raise (e : exn).
Arguments Ok {A} a.
Arguments Raise {A} e.

Definition M (A : Type) : Type := world → result A * world.

Definition ret {A} (a : A) : M A := λ w, (Ok a, w).

Definition raise {A} (e : exn) : M A := λ w, (Raise e, w).

Definition bind {A B} (m : M A) (k : A → M B) : M B :=
  λ w, match m w with
       | (Ok a, w') => k a w'
       | (Raise e, w') => (Raise e, w')
       end.

Notation "'do' x <- m ; k" := (bind m (λ x, k))
  (at level 10, x name, m at level 100, k at level 200,
   format "'[v' 'do'  x  <-  m ; '/' k ']'").
Notation "m ;; k" := (bind m (λ _, k))
  (at level 100, k at level 200, right associativity).

Definition when (b : bool) (m : M unit) : M unit := if b then m else ret tt.

(** [for x in l: body(x)] *)
Fixpoint for_each {A} (l : list A) (body : A → M unit) : M unit :=
  match l with
  | [] => ret tt
  | x :: l' => body x ;; for_each l' body
  end.

(** A file-system call that changes the file system: on success the call
    is logged. *)
Definition fs_call (ev : event) (f : fs → exn + fs) : M unit :=
  λ w, match f (w_fs w) with
       | inl e => (Raise e, w)
       | inr m => (Ok tt, World m (w_stdin w) (w_trace w ++ [ev]))
       end.

Module Os.

Definition path_exists (p : path) : M bool := λ w, (Ok (Fs.exists_ (w_fs w) p), w).

Definition listdir : M (list string) := λ w, (Ok (Fs.listdir (w_fs w)), w).

Definition mkdir (p : path) : M unit := fs_call (EvMkdir p) (Fs.mkdir p).

(** [try: m  except FileExistsError: pass] *)
Definition pass_FileExistsError (m : M unit) : M unit :=
  λ w, match m w with
       | (Raise FileExistsError, w') => (Ok tt, w')
       | r => r
       end.

(** [os.makedirs(p)] with [exist_ok=False], on the reversed path: missing
    ancestors are created first; a [FileExistsError] from that recursive
    call is passed over, as in the library. *)
Fixpoint makedirs_rev (rp : list string) : M unit :=
  match rp with
  | [] => raise FileNotFoundError
  | _ :: rhead =>
      (do head_exists <- path_exists (rev rhead);
       when (negb head_exists) (pass_FileExistsError (makedirs_rev rhead))) ;;
      mkdir (rev rp)
  end.

Definition makedirs (p : path) : M unit := makedirs_rev (rev p).

Definition remove (p : path) : M unit := fs_call (EvRemove p) (Fs.remove p).

Definition open_w (p : path) : M unit := fs_call (EvOpenW p) (Fs.open_w p).

Definition write (p : path) (s : string) : M unit :=
  fs_call (EvWrite p s) (λ m, inr (Fs.write p s m)).

Definition read (p : path) : M string :=
  λ w, match Fs.read p (w_fs w) with
       | inl e => (Raise e, w)
       | inr c => (Ok c, w)
       end.

Definition copy2 (src dst : path) : M unit :=
  λ w, fs_call (EvCopy src (Fs.dest (w_fs w) src dst)) (Fs.copy2 src dst) w.

Definition move (src dst : path) : M unit :=
  λ w, fs_call (EvMove src (Fs.dest (w_fs w) src dst)) (Fs.move src dst) w.

(** [input(prompt)]: the next line of standard input. *)
Definition input : M string :=
  λ w, match w_stdin w with
       | [] => (Raise EOFError, w)
       | line :: rest =>
           (Ok line, World (w_fs w) rest (w_trace w ++ [EvInput line]))
       end.

End Os.

(** ** The script *)

(** What [datetime.datetime.now()] reads at the four places the script
    formats it. *)
Record clock := Clock {
  now_Ymd : string;        (* strftime("%Y%m%d"), the default timestamp *)
  now_backup : string;     (* strftime("%Y%m%d_%H%M%S") in backup_migrations *)
  now_header : string;     (* strftime('%Y-%m-%d %H:%M:%S') in the header *)
  now_artifact : string    (* strftime("%Y%m%d_%H%M%S") for the old artifact *)
}.

Definition MIGRATIONS_DIR : path := [].

(** [os.path.join(d, name)] for a [name] that is one path component: the
    entry [name] of the directory [d].  The names [os.listdir] returns, the
    script's constants and the names it builds from [strftime] are such
    names; the init file's name is one when the timestamp, which is free
    text, satisfies [Str.no_separator], and the properties that depend on
    where [rename_to_init] works are stated for such timestamps. *)
Definition join (d : path) (name : string) : path := d ++ [name].
Definition OUTPUT_FILE : path := join MIGRATIONS_DIR "consolidated_migration.sql".
Definition TEMP_FILE : path := join MIGRATIONS_DIR "consolidated_migration.sql.tmp".
Definition BACKUP_DIR : path := join MIGRATIONS_DIR "backups".

Definition NL : string := String "010"%char "".

(** The script is modelled with the Rich library installed; [log] and the
    progress display only print and are left out. *)

Definition create_backup_dir : M unit :=
  do present <- Os.path_exists BACKUP_DIR;
  when (negb present) (Os.makedirs BACKUP_DIR).

Definition backup_subdir_name (clk : clock) : string :=
  "migrations_backup_" +:+ now_backup clk.

Definition backup_migrations (clk : clock) (migration_files : list string) : M path :=
  let backup_subdir := join BACKUP_DIR (backup_subdir_name clk) in
  Os.makedirs backup_subdir ;;
  for_each migration_files (λ filename,
    let src_path := join MIGRATIONS_DIR filename in
    let dst_path := join backup_subdir filename in
    Os.copy2 src_path dst_path) ;;
  ret backup_subdir.

Definition delete_migrations (migration_files : list string) : M unit :=
  for_each migration_files (λ filename,
    let file_path := join MIGRATIONS_DIR filename in
    Os.remove file_path).

Definition init_filename (timestamp : string) : string :=
  timestamp +:+ "_initial_schema.sql".

Definition rename_to_init (clk : clock) (timestamp : option string) : M unit :=
  let timestamp := default (now_Ymd clk) timestamp in
  let init_file_path := join MIGRATIONS_DIR (init_filename timestamp) in
  (do present <- Os.path_exists init_file_path;
   when present (
     let backup_path := join BACKUP_DIR (init_filename timestamp +:+ ".bak") in
     Os.copy2 init_file_path backup_path ;;
     Os.remove init_file_path)) ;;
  Os.copy2 OUTPUT_FILE init_file_path.

(** The interactive menu (lines 119-164).  The loop only reads standard
    input, so it is written over the pending lines and returns the lines it
    did not consume. *)

Definition set_backup (b : bool) (o : options) : options :=
  Options b (opt_delete o) (opt_rename o) (opt_timestamp o).
Definition set_delete (b : bool) (o : options) : options :=
  Options (opt_backup o) b (opt_rename o) (opt_timestamp o).
Definition set_rename (b : bool) (o : options) : options :=
  Options (opt_backup o) (opt_delete o) b (opt_timestamp o).
Definition set_timestamp (t : string) (o : options) : options :=
  Options (opt_backup o) (opt_delete o) (opt_rename o) t.

Definition default_options (clk : clock) : options :=
  Options true false false (now_Ymd clk).

Fixpoint menu_loop (lines : list string) (opts : options)
  : result options * list string :=
  match lines with
  | [] => (Raise EOFError, [])
  | line :: rest =>
      let choice := Str.strip line in
      if bool_decide (choice = "5") then
        (Raise (SystemExit "Operation cancelled by user"), rest)
      else if bool_decide (choice = "4") then
        (Ok opts, rest)
      else if bool_decide (choice = "1") then
        let opts := set_backup (negb (opt_backup opts)) opts in
        if opt_delete opts && negb (opt_backup opts) then
          let opts := set_backup true opts in
          match rest with
          | [] => (Raise EOFError, [])
          | _ :: rest' => menu_loop rest' opts
          end
        else menu_loop rest opts
      else if bool_decide (choice = "2") then
        let opts := set_delete (negb (opt_delete opts)) opts in
        if opt_delete opts && negb (opt_backup opts) then
          let opts := set_backup true opts in
          match rest with
          | [] => (Raise EOFError, [])
          | _ :: rest' => menu_loop rest' opts
          end
        else menu_loop rest opts
      else if bool_decide (choice = "3") then
        let opts := set_rename (negb (opt_rename opts)) opts in
        if opt_rename opts then
          match rest with
          | [] => (Raise EOFError, [])
          | timestamp :: rest' =>
              menu_loop rest'
                (if Str.truthy (Str.strip timestamp)
                 then set_timestamp (Str.strip timestamp) opts
                 else opts)
          end
        else menu_loop rest opts
      else menu_loop rest opts
  end.

Definition show_menu (clk : clock) : M options :=
  λ w, let '(r, rest) := menu_loop (w_stdin w) (default_options clk) in
       let consumed := take (length (w_stdin w) - length rest) (w_stdin w) in
       (r, World (w_fs w) rest (w_trace w ++ (EvInput <$> consumed))).

(** The artifact's text (lines 202-205 and 219-231). *)

Definition SEPARATOR : string :=
  "-- =============================================" +:+ NL.

Definition header_lines (clk : clock) (first last : string) : list string :=
  [ "-- CONSOLIDATED MIGRATION FILE" +:+ NL;
    "-- This file combines all migrations from " +:+ first +:+ " through "
      +:+ last +:+ NL;
    "-- Created on " +:+ now_header clk +:+ NL;
    "-- Created for easier management while preserving original migrations"
      +:+ NL +:+ NL ].

Definition write_section (filename : string) : M unit :=
  let file_path := join MIGRATIONS_DIR filename in
  Os.write TEMP_FILE SEPARATOR ;;
  Os.write TEMP_FILE ("-- " +:+ filename +:+ NL) ;;
  Os.write TEMP_FILE SEPARATOR ;;
  do content <- Os.read file_path;
  Os.write TEMP_FILE content ;;
  when (negb (Str.endswith content NL)) (Os.write TEMP_FILE NL) ;;
  Os.write TEMP_FILE NL.

(** The [with open(TEMP_FILE, 'w') as outfile] block. *)
Definition write_temp_file (clk : clock) (migration_files : list string) : M unit :=
  Os.open_w TEMP_FILE ;;
  for_each (header_lines clk (List.hd "" migration_files)
                             (List.last migration_files ""))
           (Os.write TEMP_FILE) ;;
  for_each migration_files write_section.

Definition consolidated_backup_name (clk : clock) : string :=
  "consolidated_migration_" +:+ now_artifact clk +:+ ".sql".

Definition consolidate_migrations (clk : clock) (options : option options) : M unit :=
  let options := default (default_options clk) options in
  do entries <- Os.listdir;
  let migration_files := discover_from entries options in
  if bool_decide (migration_files = []) then ret tt
  else
    when (opt_backup options) (
      create_backup_dir ;;
      do backup_dir <- backup_migrations clk migration_files;
      ret tt) ;;
    write_temp_file clk migration_files ;;
    (do present <- Os.path_exists OUTPUT_FILE;
     when present (
       create_backup_dir ;;
       let backup_consolidated := join BACKUP_DIR (consolidated_backup_name clk) in
       Os.copy2 OUTPUT_FILE backup_consolidated)) ;;
    Os.move TEMP_FILE OUTPUT_FILE ;;
    when (opt_rename options) (rename_to_init clk (Some (opt_timestamp options))) ;;
    if opt_delete options then
      if negb (opt_backup options) then ret tt
      else
        do confirmation <- Os.input;
        if bool_decide (Str.lower confirmation = "y")
        then delete_migrations migration_files
        else ret tt
    else ret tt.

(** Command line (lines 279-300). *)
Record args := Args {
  arg_backup : bool;
  arg_delete : bool;
  arg_rename : bool;
  arg_timestamp : option string;
  arg_interactive : bool
}.

Definition truthy_opt (t : option string) : bool :=
  match t with Some s => Str.truthy s | None => false end.

Definition options_of_args (clk : clock) (a : args) : options :=
  Options (arg_backup a) (arg_delete a) (arg_rename a)
          (if truthy_opt (arg_timestamp a)
           then default "" (arg_timestamp a) else now_Ymd clk).

Definition wants_menu (a : args) : bool :=
  arg_interactive a ||
  negb (arg_backup a || arg_delete a || arg_rename a || truthy_opt (arg_timestamp a)).

Definition build_options (clk : clock) (a : args) : M options :=
  if wants_menu a then show_menu clk else ret (options_of_args clk a).

Definition main (clk : clock) (a : args) : M unit :=
  do options <- build_options clk a;
  consolidate_migrations clk (Some options).

(** ** A concrete directory, used to run the model *)

Definition ex_clock : clock :=
  Clock "20240105" "20240105_101010" "2024-01-05 10:10:11" "20240105_101012".

Definition ex_fs : fs :=
  <[ ["20240102_b.sql"] := File "create table b();" ]>
  (<[ ["20240101_a.sql"] := File "create table a();" ]> ∅).

Definition ex_plain : options := Options false false false "20240105".
Definition ex_delete_only : options := Options false true false "20240105".
Definition ex_backup_delete : options := Options true true false "20240105".




Definition ex_run (m : fs) (o : options) (stdin : list string) : result unit * world :=
  consolidate_migrations ex_clock (Some o) (World m stdin []).

(** * Definitions used to state the properties *)

(** ** The run as a chain of stages *)

Definition discover (w : world) (o : options) : list string :=
  discover_from (Fs.listdir (w_fs w)) o.

(** The blocks of [consolidate_migrations] once the files are known: lines
    194-197, 236-242 and 255-264; [stages] chains them with the
    [with open(TEMP_FILE)] block, the move and the rename as the function
    does. *)
Definition backup_stage (clk : clock) (o : options) (files : list string) : M unit :=
  when (opt_backup o) (
    create_backup_dir ;;
    do backup_dir <- backup_migrations clk files;
    ret tt).

Definition save_old_artifact (clk : clock) : M unit :=
  do present <- Os.path_exists OUTPUT_FILE;
  when present (
    create_backup_dir ;;
    Os.copy2 OUTPUT_FILE (join BACKUP_DIR (consolidated_backup_name clk))).

Definition delete_stage (o : options) (files : list string) : M unit :=
  if opt_delete o then
    if negb (opt_backup o) then ret tt
    else
      do confirmation <- Os.input;
      if bool_decide (Str.lower confirmation = "y")
      then delete_migrations files
      else ret tt
  else ret tt.

Definition stages (clk : clock) (o : options) (files : list string) : M unit :=
  backup_stage clk o files ;;
  write_temp_file clk files ;;
  save_old_artifact clk ;;
  Os.move TEMP_FILE OUTPUT_FILE ;;
  when (opt_rename o) (rename_to_init clk (Some (opt_timestamp o))) ;;
  delete_stage o files.

(** [after r m]: run [m] if the previous stage returned, stay put if it
    raised.  It lets every run, complete or not, be described by the same
    chain of worlds. *)
Definition after {A} (r : result A) (m : M unit) : M unit :=
  match r with
  | Ok _ => m
  | Raise e => raise e
  end.

(** The world after some file-system calls: a new file system and a longer
    log; standard input is untouched. *)
Definition upd (w : world) (m : fs) (t : list event) : world :=
  World m (w_stdin w) (w_trace w ++ t).

(** ** The text of the artifact *)

Definition concat_strings (l : list string) : string := foldr String.append "" l.

(** What follows a file's content: a newline if the content lacks one, then
    one more newline (lines 229-231). *)
Definition padding (content : string) : string :=
  (if Str.endswith content NL then "" else NL) +:+ NL.

(** The three comment lines that open a section (lines 219-221). *)
Definition delimiter (filename : string) : string :=
  SEPARATOR +:+ ("-- " +:+ filename +:+ NL) +:+ SEPARATOR.

Definition section_text (filename content : string) : string :=
  delimiter filename +:+ content +:+ padding content.

Definition header_text (clk : clock) (first last : string) : string :=
  concat_strings (header_lines clk first last).

(** The text that a text-mode read of a file of the migrations directory
    returns. *)
Definition file_text (m : fs) (f : string) : string :=
  match m !! [f] with Some (File c) => Str.universal_newlines c | _ => "" end.

Definition sections (m : fs) (files : list string) : list string :=
  map (λ f, section_text f (file_text m f)) files.

Definition artifact_text (clk : clock) (m : fs) (files : list string) : string :=
  header_text clk (List.hd "" files) (List.last files "")
  +:+ concat_strings (sections m files).

(** The file system is [m0] except that the temporary file holds [acc]. *)
Definition temp_holds (acc : string) (m0 : fs) (w : world) : Prop :=
  w_fs w = <[TEMP_FILE := File acc]> m0.

Definition regular (m : fs) (f : string) : Prop := ∃ c, m !! [f] = Some (File c).

(** A regular file whose bytes decode. *)
Definition readable (m : fs) (f : string) : Prop :=
  ∃ c, m !! [f] = Some (File c) ∧ Str.utf8_valid c = true.

(** ** Footprints

    [within P T m] says that, whatever [m] returns or raises, it leaves every
    path outside [P] as it was, logs only events in [T], and has read from
    standard input exactly the lines its [EvInput] events show. *)

Definition unchanged_outside (P : path → Prop) (w w' : world) : Prop :=
  ∀ p, ¬ P p → w_fs w' !! p = w_fs w !! p.

(** The lines that a stretch of the log read from standard input. *)
Definition inputs (t : list event) : list string :=
  omap (λ e, match e with EvInput line => Some line | _ => None end) t.

Definition trace_grows (T : event → Prop) (w w' : world) : Prop :=
  ∃ t, w_trace w' = w_trace w ++ t ∧ Forall T t ∧
       w_stdin w = inputs t ++ w_stdin w'.

Definition within (P : path → Prop) (T : event → Prop) {A} (m : M A) : Prop :=
  ∀ w r w', m w = (r, w') → unchanged_outside P w w' ∧ trace_grows T w w'.

(** The two places [shutil.copy2] or [shutil.move] may write to. *)
Definition copy_targets (src dst : path) (q : path) : Prop :=
  q = dst ∨ q = dst ++ [Fs.basename src].

Definition under_backups (q : path) : Prop := ∃ rest, q = "backups" :: rest.


(** Where [rename_to_init] saves an init file that is in the way, and where
    the previous artifact is saved. *)
Definition bak_path (timestamp : string) : path :=
  join BACKUP_DIR (init_filename timestamp +:+ ".bak").

Definition old_backup_path (clk : clock) : path :=
  join BACKUP_DIR (consolidated_backup_name clk).

(** Events of the two backup steps, of the [with open(TEMP_FILE)] block, of
    [rename_to_init] and of [delete_migrations]. *)
Definition backup_event (e : event) : Prop :=
  match e with
  | EvMkdir p => under_backups p
  | EvCopy _ d => under_backups d
  | _ => False
  end.

Definition temp_event (e : event) : Prop :=
  match e with
  | EvOpenW p | EvWrite p _ => p = TEMP_FILE
  | _ => False
  end.

Definition rename_event (timestamp : string) (e : event) : Prop :=
  match e with
  | EvCopy src d =>
      (src = [init_filename timestamp] ∧
       copy_targets [init_filename timestamp] (bak_path timestamp) d) ∨
      (src = OUTPUT_FILE ∧ copy_targets OUTPUT_FILE [init_filename timestamp] d)
  | EvRemove p => p = [init_filename timestamp]
  | _ => False
  end.

Definition delete_event (files : list string) (e : event) : Prop :=
  ∃ f, f ∈ files ∧ e = EvRemove [f].

(** Paths of [rename_to_init] and of [delete_migrations]. *)
Definition rename_paths (timestamp : string) (q : path) : Prop :=
  copy_targets [init_filename timestamp] (bak_path timestamp) q ∨
  copy_targets OUTPUT_FILE [init_filename timestamp] q.

Definition delete_paths (files : list string) (q : path) : Prop :=
  ∃ f, f ∈ files ∧ q = [f].

(** Before the move, after the move, and over a whole run. *)
Definition pre_move_paths (q : path) : Prop := q = TEMP_FILE ∨ under_backups q.

Definition pre_move_event (e : event) : Prop := backup_event e ∨ temp_event e.

Definition post_move_paths (o : options) (files : list string) (q : path) : Prop :=
  (opt_rename o = true ∧ rename_paths (opt_timestamp o) q) ∨
  (opt_delete o = true ∧ opt_backup o = true ∧ delete_paths files q).

Definition post_move_event (o : options) (files : list string) (e : event) : Prop :=
  (opt_rename o = true ∧ rename_event (opt_timestamp o) e) ∨
  (opt_delete o = true ∧ opt_backup o = true ∧
   ((∃ line, e = EvInput line) ∨ delete_event files e)).

Definition run_paths (o : options) (files : list string) (q : path) : Prop :=
  q = TEMP_FILE ∨ copy_targets TEMP_FILE OUTPUT_FILE q ∨ under_backups q ∨
  (opt_rename o = true ∧
   copy_targets OUTPUT_FILE [init_filename (opt_timestamp o)] q) ∨
  (opt_delete o = true ∧ opt_backup o = true ∧ delete_paths files q).

Definition run_event (o : options) (files : list string) (e : event) : Prop :=
  match e with
  | EvMkdir p => under_backups p
  | EvOpenW p | EvWrite p _ => p = TEMP_FILE
  | EvCopy src d =>
      under_backups d ∨
      (opt_rename o = true ∧ src = OUTPUT_FILE ∧
       copy_targets OUTPUT_FILE [init_filename (opt_timestamp o)] d)
  | EvRemove p =>
      (opt_rename o = true ∧ p = [init_filename (opt_timestamp o)]) ∨
      (opt_delete o = true ∧ opt_backup o = true ∧ delete_paths files p)
  | EvMove src d => src = TEMP_FILE ∧ copy_targets TEMP_FILE OUTPUT_FILE d
  | EvInput _ => opt_delete o = true ∧ opt_backup o = true
  end.

(** [never_raises e0 m]: no run of [m] ends with the exception [e0]. *)
Definition never_raises (e0 : exn) {A} (m : M A) : Prop :=
  ∀ w w', m w ≠ (Raise e0, w').

(** ** The options invariant *)

Definition safe_options (o : options) : Prop :=
  opt_delete o = true → opt_backup o = true.

(** ** Further definitions: the backup directory, the menu, the outcomes *)

(** The fifth path of the configuration block (line 42). *)
Definition BACKUP_FILE : path := join MIGRATIONS_DIR "consolidated_migration.sql.bak".

(** The directory [backup_migrations] creates and returns, and the place
    of a file's copy in it (lines 64 and 77). *)
Definition backup_subdir (clk : clock) : path :=
  join BACKUP_DIR (backup_subdir_name clk).

Definition backup_copy (clk : clock) (f : string) : path :=
  join (backup_subdir clk) f.

(** The backup directory is there and none of its entries is a directory,
    so that [shutil.copy2] writes each copy at [backup_copy]. *)
Definition subdir_ready (clk : clock) (m : fs) : Prop :=
  m !! backup_subdir clk = Some Dir ∧ ∀ g, m !! backup_copy clk g ≠ Some Dir.

(** The log of the copy loop of [backup_migrations]. *)
Definition backup_copies (clk : clock) (files : list string) : list event :=
  (λ f, EvCopy [f] (backup_copy clk f)) <$> files.

(** What the stages between the backup and the deletion may touch. *)
Definition mid_paths (clk : clock) (o : options) (q : path) : Prop :=
  q = TEMP_FILE ∨ q = BACKUP_DIR ∨
  copy_targets OUTPUT_FILE (old_backup_path clk) q ∨
  copy_targets TEMP_FILE OUTPUT_FILE q ∨
  (opt_rename o = true ∧ rename_paths (opt_timestamp o) q).

(** The lines the menu acts on: once stripped, one of its five choices. *)
Definition is_choice (line : string) : bool :=
  bool_decide (Str.strip line ∈ ["1"; "2"; "3"; "4"; "5"]).


(** [raises_only E m]: every exception that comes out of [m] is in [E]. *)
Definition raises_only (E : exn → Prop) {A} (m : M A) : Prop :=
  ∀ w e w', m w = (Raise e, w') → E e.

(** The exceptions of the file-system calls, of the decoding of a text file
    and of [input]. *)
Definition os_error (e : exn) : Prop :=
  e = FileNotFoundError ∨ e = FileExistsError ∨ e = IsADirectoryError ∨
  e = NotADirectoryError ∨ e = UnicodeDecodeError ∨ e = EOFError.

(** More concrete directories and options, used to run the model. *)
Definition ex_backup : options := Options true false false "20240105".
Definition ex_rename : options := Options false false true "20240103".
Definition ex_all : options := Options true true true "20240103".

(** A backup of this very second is already there. *)
Definition ex_backed_up_fs : fs :=
  <[ backup_subdir ex_clock := Dir ]> (<[ BACKUP_DIR := Dir ]> ex_fs).

(** A file that is no migration, a stale temporary file, and a directory
    whose name ends with [.sql]. *)
Definition ex_notes_fs : fs := <[ ["notes.txt"] := File "todo" ]> ex_fs.
Definition ex_stale_fs : fs := <[ TEMP_FILE := File "stale" ]> ex_fs.
Definition ex_dir_entry_fs : fs := <[ ["20240103_c.sql"] := Dir ]> ex_fs.

(** * Properties *)

(** The string functions on a few inputs: white space of one, two and three
    bytes around a menu choice; the three line endings; bytes that decode
    and bytes that do not (a Latin-1 byte, a truncated sequence, an overlong
    form, a surrogate); lines; timestamps with and without separator. *)
Example strip_ex :
  Str.strip (" " +:+ String "194" (String "160" "") +:+ "4" +:+ String "009" ""
             +:+ String "226" (String "128" (String "168" "")) +:+ NL) = "4"
  ∧ Str.strip (" 2024 01 " +:+ String "227" (String "128" (String "128" "")))
    = "2024 01".
Proof. split; reflexivity. Qed.

Example universal_newlines_ex :
  Str.universal_newlines
    ("a" +:+ String "013" (String "010" "") +:+ "b" +:+ String "013" ""
     +:+ "c" +:+ NL +:+ String "013" "")
  = "a" +:+ NL +:+ "b" +:+ NL +:+ "c" +:+ NL +:+ NL.
Proof. reflexivity. Qed.

Example utf8_valid_ex :
  Str.utf8_valid ("caf" +:+ String "195" (String "169" "")) = true
  ∧ Str.utf8_valid ("caf" +:+ String "233" "") = false
  ∧ Str.utf8_valid (String "226" (String "130" "")) = false
  ∧ Str.utf8_valid (String "192" (String "128" "")) = false
  ∧ Str.utf8_valid (String "237" (String "160" (String "128" ""))) = false
  ∧ Str.utf8_valid (String "240" (String "159" (String "152" (String "128" ""))))
    = true.
Proof. split_and!; reflexivity. Qed.

Example splitlines_ex :
  Str.splitlines ("a" +:+ NL +:+ NL +:+ "b") = ["a"; ""; "b"]
  ∧ Str.splitlines ("a" +:+ NL) = ["a"]
  ∧ Str.splitlines "" = [].
Proof. split_and!; reflexivity. Qed.

Example no_separator_ex :
  Str.no_separator "20240103" = true
  ∧ Str.no_separator "./foo" = false
  ∧ Str.no_separator "sub/20240103" = false
  ∧ Str.no_separator "/tmp/x" = false.
Proof. split_and!; reflexivity. Qed.

Example discover_from_ex :
  discover_from ["20240102_b.sql"; "backups"; "consolidated_migration.sql";
                 "20240101_a.sql"; "notes.txt"; "20240103_initial_schema.sql"]
                (Options false false true "20240103")
  = ["20240101_a.sql"; "20240102_b.sql"].
Proof. vm_compute. reflexivity. Qed.

(** ** Strings *)

Section string_facts.

Implicit Types s p r : string.

Lemma append_nil_l s : "" +:+ s = s.
Proof. reflexivity. Qed.

Lemma append_cons c s p : String c s +:+ p = String c (s +:+ p).
Proof. reflexivity. Qed.

Lemma append_nil_r s : s +:+ "" = s.
Proof. induction s as [|c s IH]; [done|]. by rewrite append_cons, IH. Qed.

Lemma append_assoc s p r : (s +:+ p) +:+ r = s +:+ (p +:+ r).
Proof. induction s as [|c s IH]; [done|]. by rewrite !append_cons, IH. Qed.

Lemma length_append s p :
  String.length (s +:+ p) = String.length s + String.length p.
Proof. induction s as [|c s IH]; [done|]. rewrite append_cons. simpl. by rewrite IH. Qed.

Lemma startswith_spec s p :
  Str.startswith s p = true ↔ ∃ r, s = p +:+ r.
Proof.
  revert s. induction p as [|b p IH]; intros s; simpl.
  - split; [intros _; by exists s | done].
  - destruct s as [|a s].
    + split; [done | intros [r ?]; discriminate].
    + rewrite andb_true_iff, bool_decide_eq_true, IH. split.
      * intros [-> [r ->]]. by exists r.
      * intros [r Hr]. rewrite append_cons in Hr. injection Hr as -> ->. eauto.
Qed.

Lemma startswith_append p r : Str.startswith (p +:+ r) p = true.
Proof. apply startswith_spec. by exists r. Qed.

Lemma endswith_spec s suf :
  Str.endswith s suf = true ↔ ∃ pre, s = pre +:+ suf.
Proof.
  induction s as [|c s IH]; simpl.
  - rewrite orb_false_r, bool_decide_eq_true. split.
    + intros <-. by exists "".
    + intros [[|??] H]; [done | discriminate].
  - rewrite orb_true_iff, bool_decide_eq_true, IH. split.
    + intros [<- | [pre ->]]; [by exists "" | by exists (String c pre)].
    + intros [[|c' pre] H]; [by left|].
      rewrite append_cons in H. injection H as -> ->. right. by exists pre.
Qed.

Lemma endswith_append pre suf : Str.endswith (pre +:+ suf) suf = true.
Proof. apply endswith_spec. by exists pre. Qed.



Lemma trailing_newlines_le s : Str.trailing_newlines s ≤ String.length s.
Proof.
  induction s as [|c s IH]; simpl; [done|].
  destruct (_ && _); lia.
Qed.

Lemma trailing_newlines_append s p :
  Str.trailing_newlines (s +:+ p) =
    if bool_decide (Str.trailing_newlines p = String.length p)
    then Str.trailing_newlines s + String.length p
    else Str.trailing_newlines p.
Proof.
  induction s as [|c s IH].
  - rewrite append_nil_l. simpl. case_bool_decide; lia.
  - rewrite append_cons. simpl.
    rewrite IH, length_append.
    pose proof (trailing_newlines_le s). pose proof (trailing_newlines_le p).
    repeat case_bool_decide; simpl; lia.
Qed.

Lemma endswith_NL_trailing s :
  Str.endswith s NL = true ↔ 0 < Str.trailing_newlines s.
Proof.
  rewrite endswith_spec. split.
  - intros [pre ->]. rewrite trailing_newlines_append. simpl. lia.
  - induction s as [|c s IH]; [simpl; lia|].
    intros Hn. destruct s as [|c' s'].
    + simpl in Hn. case_bool_decide; simpl in Hn; [|lia].
      subst c. by exists "".
    + destruct IH as [pre Hpre].
      { change (Str.trailing_newlines (String c (String c' s')))
          with (let n := Str.trailing_newlines (String c' s') in
                if bool_decide (c = "010"%char)
                   && bool_decide (n = String.length (String c' s'))
                then S n else n) in Hn.
        simpl in Hn |- *.
        destruct (bool_decide (c = _) && _) eqn:E in Hn; [|done].
        apply andb_true_iff in E as [_ E%bool_decide_eq_true].
        rewrite E. lia. }
      exists (String c pre). by rewrite append_cons, Hpre.
Qed.

Lemma has_char_append c s p :
  Str.has_char c (s +:+ p) = Str.has_char c s || Str.has_char c p.
Proof.
  induction s as [|a s IH]; [done|].
  rewrite append_cons. simpl. by rewrite IH, orb_assoc.
Qed.

Lemma newline_free_append s p :
  Str.newline_free (s +:+ p) = Str.newline_free s && Str.newline_free p.
Proof. unfold Str.newline_free. by rewrite has_char_append, negb_orb. Qed.

(** A text that occurs inside another one brings its characters along. *)
Lemma has_char_infix c pre s post :
  Str.has_char c s = true → Str.has_char c (pre +:+ s +:+ post) = true.
Proof. intros H. rewrite !has_char_append, H. apply orb_true_iff. right. done. Qed.

(** A line and its newline, in front of a text. *)
Lemma splitlines_line s rest :
  Str.newline_free s = true →
  Str.splitlines (s +:+ String "010"%char rest) = s :: Str.splitlines rest.
Proof.
  unfold Str.newline_free. induction s as [|c s IH]; intros Hs; [done|].
  simpl in Hs. apply negb_true_iff, orb_false_iff in Hs as [Hc Hs].
  rewrite append_cons. simpl. rewrite Hc.
  rewrite IH by (by apply negb_true_iff). done.
Qed.

End string_facts.

(** ** Discovery *)

Section discovery.

Implicit Types (o : options).

Lemma elem_of_sort_names l f : f ∈ sort_names l ↔ f ∈ l.
Proof. unfold sort_names. by rewrite merge_sort_Permutation. Qed.

Lemma sort_names_sorted l : Sorted String.le (sort_names l).
Proof. apply (Sorted_merge_sort String.le). Qed.


(** Membership in the discovered list, as the two comprehensions decide it. *)
Lemma elem_of_discover_from entries o f :
  f ∈ discover_from entries o ↔
    f ∈ entries ∧ is_migration f = true ∧
    (opt_rename o = true → is_planned_init (opt_timestamp o) f = false).
Proof.
  unfold discover_from. rewrite elem_of_sort_names.
  destruct (opt_rename o); rewrite ?list_elem_of_filter.
  - split; [intros (? & ? & ?) | intros (? & ? & ?)]; auto.
  - split; [intros [? ?] | intros (? & ? & _)]; auto; done.
Qed.


Lemma discover_from_NoDup entries o :
  NoDup entries → NoDup (discover_from entries o).
Proof.
  intros Hnd. unfold discover_from, sort_names.
  rewrite merge_sort_Permutation.
  destruct (opt_rename o); repeat apply NoDup_filter; done.
Qed.

(** The names the discovery can never return. *)
Lemma is_migration_not_output f :
  is_migration f = true → f ≠ "consolidated_migration.sql".
Proof. intros H ->. vm_compute in H. discriminate. Qed.

Lemma is_migration_not_temp f :
  is_migration f = true → f ≠ "consolidated_migration.sql.tmp".
Proof. intros H ->. vm_compute in H. discriminate. Qed.

Lemma is_migration_not_backups f :
  is_migration f = true → f ≠ "backups".
Proof. intros H ->. vm_compute in H. discriminate. Qed.

Lemma planned_init_is_init timestamp :
  is_planned_init timestamp (init_filename timestamp) = true.
Proof.
  unfold is_planned_init, init_filename.
  change "_initial_schema.sql" with ("_initial_schema" +:+ ".sql").
  rewrite <-append_assoc. apply startswith_append.
Qed.

Lemma not_planned_init_not_init timestamp f :
  is_planned_init timestamp f = false → f ≠ init_filename timestamp.
Proof. intros H ->. by rewrite planned_init_is_init in H. Qed.

End discovery.

(** ** Reasoning about the monad *)

Section monad_facts.

Context {A B : Type}.

Lemma bind_inv (m : M A) (k : A → M B) w r w' :
  bind m k w = (r, w') →
  (∃ a w1, m w = (Ok a, w1) ∧ k a w1 = (r, w')) ∨
  (∃ e, m w = (Raise e, w') ∧ r = Raise e).
Proof.
  unfold bind. destruct (m w) as [[a|e] w1]; intros H.
  - left. eauto.
  - right. injection H as <- <-. eauto.
Qed.

Lemma bind_ok (m : M A) (k : A → M B) w a w1 :
  m w = (Ok a, w1) → bind m k w = k a w1.
Proof. unfold bind. by intros ->. Qed.

Lemma bind_raise (m : M A) (k : A → M B) w e w1 :
  m w = (Raise e, w1) → bind m k w = (Raise e, w1).
Proof. unfold bind. by intros ->. Qed.

End monad_facts.

Section within_facts.

Implicit Types (P : path → Prop) (T : event → Prop).

Lemma unchanged_refl P w : unchanged_outside P w w.
Proof. by intros p _. Qed.

Lemma unchanged_trans P w1 w2 w3 :
  unchanged_outside P w1 w2 → unchanged_outside P w2 w3 →
  unchanged_outside P w1 w3.
Proof. intros H1 H2 p Hp. rewrite H2, H1; done. Qed.

Lemma trace_grows_refl T w : trace_grows T w w.
Proof. exists []. by rewrite app_nil_r. Qed.

Lemma inputs_app t1 t2 : inputs (t1 ++ t2) = inputs t1 ++ inputs t2.
Proof. apply omap_app. Qed.

Lemma trace_grows_trans T w1 w2 w3 :
  trace_grows T w1 w2 → trace_grows T w2 w3 → trace_grows T w1 w3.
Proof.
  intros (t1 & E1 & F1 & I1) (t2 & E2 & F2 & I2). exists (t1 ++ t2).
  rewrite E2, E1, app_assoc. split_and!; [done|by apply Forall_app|].
  by rewrite I1, I2, inputs_app, app_assoc.
Qed.

Lemma within_mono P P' T T' {A} (m : M A) :
  (∀ p, P p → P' p) → (∀ e, T e → T' e) → within P T m → within P' T' m.
Proof.
  intros HP HT Hm w r w' Hrun.
  destruct (Hm _ _ _ Hrun) as [Hf (t & Et & Ft & It)].
  split.
  - intros p Hp. apply Hf. auto.
  - exists t. split_and!; [done| |done]. eapply Forall_impl; eauto.
Qed.

Lemma within_ret P T {A} (a : A) : within P T (ret a).
Proof.
  intros w r w' [= <- <-]. split; [apply unchanged_refl | apply trace_grows_refl].
Qed.

Lemma within_raise P T {A} e : within P T (@raise A e).
Proof.
  intros w r w' [= <- <-]. split; [apply unchanged_refl | apply trace_grows_refl].
Qed.

Lemma within_bind P T {A B} (m : M A) (k : A → M B) :
  within P T m → (∀ a, within P T (k a)) → within P T (bind m k).
Proof.
  intros Hm Hk w r w' [(a & w1 & H1 & H2) | (e & H1 & ->)]%bind_inv.
  - destruct (Hm _ _ _ H1) as [? ?], (Hk a _ _ _ H2) as [? ?].
    split; [by eapply unchanged_trans | by eapply trace_grows_trans].
  - by apply (Hm _ _ _ H1).
Qed.

Lemma within_when P T (b : bool) (m : M unit) :
  (b = true → within P T m) → within P T (when b m).
Proof. destruct b; simpl; [auto | intros _; apply within_ret]. Qed.

Lemma within_for_each P T {A} (l : list A) (body : A → M unit) :
  (∀ x, x ∈ l → within P T (body x)) → within P T (for_each l body).
Proof.
  induction l as [|x l IH]; intros Hbody; simpl.
  - apply within_ret.
  - apply within_bind; [apply Hbody; left|].
    intros _. apply IH. intros y Hy. apply Hbody. by right.
Qed.

(** A read-only call. *)
Lemma within_pure P T {A} (m : M A) :
  (∀ w, (m w).2 = w) → within P T m.
Proof.
  intros Hm w r w' Hrun. specialize (Hm w). rewrite Hrun in Hm. simpl in Hm.
  subst w'. split; [apply unchanged_refl | apply trace_grows_refl].
Qed.

Lemma within_fs_call P T (ev : event) (f : fs → exn + fs) :
  T ev → inputs [ev] = [] →
  (∀ m m' p, f m = inr m' → ¬ P p → m' !! p = m !! p) →
  within P T (fs_call ev f).
Proof.
  intros Hev Hin Hf w r w'. unfold fs_call.
  destruct (f (w_fs w)) as [e|m'] eqn:E; intros [= <- <-].
  - split; [apply unchanged_refl | apply trace_grows_refl].
  - split.
    + intros p Hp. simpl. by eapply Hf.
    + exists [ev]. split_and!; [done|by apply Forall_singleton|].
      by rewrite Hin.
Qed.

End within_facts.

(** ** The file-system calls *)

Section fs_facts.

Implicit Types (p : path).

Lemma fs_call_inv (ev : event) (f : fs → exn + fs) w r w' :
  fs_call ev f w = (r, w') →
  (∃ m', f (w_fs w) = inr m' ∧ r = Ok tt ∧
         w' = World m' (w_stdin w) (w_trace w ++ [ev])) ∨
  (∃ e, f (w_fs w) = inl e ∧ r = Raise e ∧ w' = w).
Proof.
  unfold fs_call. destruct (f (w_fs w)) as [e|m'] eqn:E; intros [= <- <-].
  - right. eauto.
  - left. eauto.
Qed.

Lemma open_w_inr p m m' : Fs.open_w p m = inr m' → m' = <[p := File ""]> m.
Proof.
  unfold Fs.open_w. destruct (Fs.check_parent m p); [done|].
  destruct (m !! p) as [[c|]|]; congruence.
Qed.

Lemma write_after_open p c m : Fs.write p c (<[p := File ""]> m) = <[p := File c]> m.
Proof.
  unfold Fs.write. apply map_eq. intros q.
  rewrite lookup_alter, !lookup_insert.
  repeat case_decide; done.
Qed.

Lemma lookup_write p s m q :
  Fs.write p s m !! q =
    if decide (p = q) then Fs.append_node s <$> m !! p else m !! q.
Proof.
  unfold Fs.write. rewrite lookup_alter. case_decide; by subst.
Qed.

(** A successful copy puts the source's text at the destination that
    [Fs.dest] resolves, and changes nothing else. *)
Lemma copy2_inr src dst m m' :
  Fs.copy2 src dst m = inr m' →
  ∃ c, m !! src = Some (File c) ∧ src ≠ Fs.dest m src dst ∧
       m' = <[Fs.dest m src dst := File c]> m.
Proof.
  unfold Fs.copy2, Fs.read_bytes. case_bool_decide; [done|].
  destruct (m !! src) as [[c|]|]; [|done..].
  destruct (Fs.open_w _ m) as [e|m1] eqn:E; [done|].
  intros [= <-]. apply open_w_inr in E as ->.
  exists c. by rewrite write_after_open.
Qed.


Lemma dest_cases m src dst :
  Fs.dest m src dst = dst ∨ Fs.dest m src dst = dst ++ [Fs.basename src].
Proof. unfold Fs.dest. destruct (Fs.isdir m dst); auto. Qed.

Lemma remove_inr p m m' :
  Fs.remove p m = inr m' → ∃ c, m !! p = Some (File c) ∧ m' = delete p m.
Proof.
  unfold Fs.remove. destruct (m !! p) as [[c|]|]; [|done..].
  intros [= <-]. eauto.
Qed.

Lemma remove_file p c m : m !! p = Some (File c) → Fs.remove p m = inr (delete p m).
Proof. unfold Fs.remove. by intros ->. Qed.

Lemma mkdir_inr p m m' : Fs.mkdir p m = inr m' → m' = <[p := Dir]> m.
Proof.
  unfold Fs.mkdir. destruct (Fs.exists_ m p); [done|].
  destruct (Fs.check_parent m p); congruence.
Qed.

Lemma move_inr src dst m m' :
  Fs.move src dst m = inr m' →
  ∃ c, m !! src = Some (File c) ∧
       m' = <[Fs.dest m src dst := File c]> (delete src m).
Proof.
  unfold Fs.move. destruct (_ && _); [done|].
  destruct (m !! src) as [[c|]|]; [|done..].
  destruct (Fs.check_parent _ _); [done|]. intros [= <-]. eauto.
Qed.

End fs_facts.

Section os_facts.

Implicit Types (P : path → Prop) (T : event → Prop) (p : path).

Lemma dest_target m src dst : copy_targets src dst (Fs.dest m src dst).
Proof. apply dest_cases. Qed.

Lemma within_path_exists P T p : within P T (Os.path_exists p).
Proof. by apply within_pure. Qed.

Lemma within_read P T p : within P T (Os.read p).
Proof.
  apply within_pure. intros w. unfold Os.read.
  by destruct (Fs.read p (w_fs w)).
Qed.

Lemma within_input P T : (∀ line, T (EvInput line)) → within P T Os.input.
Proof.
  intros HT w r w'. unfold Os.input.
  destruct (w_stdin w) as [|line rest] eqn:E; intros [= <- <-].
  - split; [apply unchanged_refl | apply trace_grows_refl].
  - split; [by intros p _|]. exists [EvInput line].
    split_and!; [done|by apply Forall_singleton|by rewrite E].
Qed.

Lemma within_mkdir P T p : P p → T (EvMkdir p) → within P T (Os.mkdir p).
Proof.
  intros HP HT. apply within_fs_call; [done..|].
  intros m m' q ->%mkdir_inr Hq. apply lookup_insert_ne. by intros ->.
Qed.

Lemma within_open_w P T p : P p → T (EvOpenW p) → within P T (Os.open_w p).
Proof.
  intros HP HT. apply within_fs_call; [done..|].
  intros m m' q ->%open_w_inr Hq. apply lookup_insert_ne. by intros ->.
Qed.

Lemma within_write P T p s : P p → T (EvWrite p s) → within P T (Os.write p s).
Proof.
  intros HP HT. apply within_fs_call; [done..|].
  intros m m' q [= <-] Hq. rewrite lookup_write. case_decide; [by subst|done].
Qed.

Lemma within_remove P T p : P p → T (EvRemove p) → within P T (Os.remove p).
Proof.
  intros HP HT. apply within_fs_call; [done..|].
  intros m m' q (c & _ & ->)%remove_inr Hq. apply lookup_delete_ne. by intros ->.
Qed.

Lemma within_copy2 P T src dst :
  (∀ d, copy_targets src dst d → P d ∧ T (EvCopy src d)) →
  within P T (Os.copy2 src dst).
Proof.
  intros H w r w' Hrun. unfold Os.copy2 in Hrun.
  destruct (H _ (dest_target (w_fs w) src dst)) as [HP HT].
  eapply (within_fs_call P T); [exact HT|done| |exact Hrun].
  intros m m' q (c & _ & _ & ->)%copy2_inr Hq.
  apply lookup_insert_ne. intros <-. apply Hq, H, dest_target.
Qed.

Lemma within_move P T src dst :
  P src → (∀ d, copy_targets src dst d → P d ∧ T (EvMove src d)) →
  within P T (Os.move src dst).
Proof.
  intros Hsrc H w r w' Hrun. unfold Os.move in Hrun.
  destruct (H _ (dest_target (w_fs w) src dst)) as [HP HT].
  eapply (within_fs_call P T); [exact HT|done| |exact Hrun].
  intros m m' q (c & _ & ->)%move_inr Hq.
  rewrite lookup_insert_ne, lookup_delete_ne; [done|by intros ->|].
  intros <-. apply Hq, H, dest_target.
Qed.

Lemma within_pass_FileExistsError P T (m : M unit) :
  within P T m → within P T (Os.pass_FileExistsError m).
Proof.
  intros Hm w r w'. unfold Os.pass_FileExistsError.
  destruct (m w) as [[[]|e] w1] eqn:E; intros Hrun.
  - injection Hrun as <- <-. by eapply Hm.
  - destruct (Hm _ _ _ E). destruct e; by injection Hrun as <- <-.
Qed.

(** [os.makedirs] creates the path and, when missing, its ancestors. *)
Lemma within_makedirs_rev P T rp :
  (∀ k, k < length rp → P (rev (drop k rp)) ∧ T (EvMkdir (rev (drop k rp)))) →
  within P T (Os.makedirs_rev rp).
Proof.
  induction rp as [|name rhead IH]; intros H; simpl.
  - apply within_raise.
  - apply within_bind.
    + apply within_bind; [apply within_path_exists|].
      intros b. apply within_when. intros _.
      apply within_pass_FileExistsError, IH.
      intros k Hk. apply (H (S k)). simpl. lia.
    + intros _. destruct (H 0) as [HP HT]; [simpl; lia|].
      by apply within_mkdir.
Qed.

Lemma copy2_run src dst w r w' :
  Os.copy2 src dst w = (r, w') →
  (∃ c, w_fs w !! src = Some (File c) ∧ r = Ok tt ∧
        w' = World (<[Fs.dest (w_fs w) src dst := File c]> (w_fs w))
                   (w_stdin w)
                   (w_trace w ++ [EvCopy src (Fs.dest (w_fs w) src dst)])) ∨
  (∃ e, r = Raise e ∧ w' = w).
Proof.
  unfold Os.copy2.
  intros [(m' & Hm & -> & ->) | (e & _ & -> & ->)]%fs_call_inv; [|eauto].
  apply copy2_inr in Hm as (c & Hc & _ & ->). left. eauto.
Qed.

Lemma remove_run p w r w' :
  Os.remove p w = (r, w') →
  (∃ c, w_fs w !! p = Some (File c) ∧ r = Ok tt ∧
        w' = World (delete p (w_fs w)) (w_stdin w) (w_trace w ++ [EvRemove p])) ∨
  (∃ e, r = Raise e ∧ w' = w ∧ ∀ c, w_fs w !! p ≠ Some (File c)).
Proof.
  unfold Os.remove.
  intros [(m' & Hm & -> & ->) | (e & He & -> & ->)]%fs_call_inv.
  - apply remove_inr in Hm as (c & Hc & ->). left. eauto.
  - right. exists e. split_and!; [done..|]. intros c Hc.
    by rewrite (remove_file _ _ _ Hc) in He.
Qed.

End os_facts.

(** ** Footprints of the stages *)

Section stage_footprints.

Variable clk : clock.

Lemma join_root name : join MIGRATIONS_DIR name = [name].
Proof. reflexivity. Qed.

Lemma under_backups_app q r : under_backups q → under_backups (q ++ r).
Proof. intros [rest ->]. by exists (rest ++ r). Qed.

Lemma under_backups_target src dst d :
  under_backups dst → copy_targets src dst d → under_backups d.
Proof. intros H [-> | ->]; [done | by apply under_backups_app]. Qed.

Lemma under_backups_dir : under_backups BACKUP_DIR.
Proof. by exists []. Qed.

Lemma under_backups_join name : under_backups (join BACKUP_DIR name).
Proof. by exists [name]. Qed.

Lemma makedirs_backup_dir w : Os.makedirs BACKUP_DIR w = Os.mkdir BACKUP_DIR w.
Proof.
  unfold Os.makedirs. simpl. unfold bind, Os.path_exists. simpl.
  by destruct (Os.mkdir _ w) as [[[]|e] w1].
Qed.

Lemma within_create_backup_dir : within under_backups backup_event create_backup_dir.
Proof.
  unfold create_backup_dir.
  apply within_bind; [apply within_path_exists|]. intros b.
  apply within_when. intros _ w r w'. rewrite makedirs_backup_dir.
  apply within_mkdir; [apply under_backups_dir | apply under_backups_dir].
Qed.

Lemma within_backup_migrations files :
  within under_backups backup_event (backup_migrations clk files).
Proof.
  unfold backup_migrations. apply within_bind.
  - apply within_makedirs_rev. simpl. intros k Hk.
    destruct k as [|[|k]]; simpl in *; [| |lia].
    + split; apply under_backups_join.
    + split; apply under_backups_dir.
  - intros _. apply within_bind; [|intros _; apply within_ret].
    apply within_for_each. intros f _. apply within_copy2.
    intros d Hd.
    assert (under_backups d); [|done].
    eapply under_backups_target; [|exact Hd].
    apply under_backups_app, under_backups_join.
Qed.

Lemma within_write_section f :
  within (λ q, q = TEMP_FILE) temp_event (write_section f).
Proof.
  unfold write_section.
  repeat first
    [ apply within_write; [done..]
    | apply within_read
    | apply within_when; intros _
    | apply within_bind; [|intros ?] ].
Qed.

Lemma within_write_temp_file files :
  within (λ q, q = TEMP_FILE) temp_event (write_temp_file clk files).
Proof.
  unfold write_temp_file.
  apply within_bind; [by apply within_open_w|]. intros _.
  apply within_bind; [|intros _].
  - apply within_for_each. intros line _. by apply within_write.
  - apply within_for_each. intros f _. apply within_write_section.
Qed.

Lemma within_rename_to_init timestamp :
  within (rename_paths timestamp) (rename_event timestamp)
         (rename_to_init clk (Some timestamp)).
Proof.
  unfold rename_to_init. simpl. rewrite join_root.
  apply within_bind; [|intros _].
  - apply within_bind; [apply within_path_exists|]. intros b.
    apply within_when. intros _. apply within_bind; [|intros _].
    + apply within_copy2. intros d Hd. split; [by left | simpl; auto].
    + apply within_remove; [|done]. right. by left.
  - apply within_copy2. intros d Hd. split; [by right | simpl; auto].
Qed.

Lemma within_delete_migrations files :
  within (delete_paths files) (delete_event files) (delete_migrations files).
Proof.
  unfold delete_migrations. apply within_for_each. intros f Hf.
  rewrite join_root. apply within_remove; by exists f.
Qed.

End stage_footprints.

(** ** Footprint of a whole run *)

Section run_footprint.

Variable clk : clock.

(** [consolidate_migrations] is discovery followed by the stages. *)
Lemma consolidate_unfold o w :
  consolidate_migrations clk (Some o) w =
    if bool_decide (discover w o = []) then (Ok tt, w)
    else stages clk o (discover w o) w.
Proof.
  unfold consolidate_migrations, discover.
  rewrite (bind_ok _ _ _ _ _ (eq_refl : Os.listdir w = (Ok _, w))). simpl.
  by case_bool_decide.
Qed.

Lemma within_save_old_artifact :
  within under_backups backup_event (save_old_artifact clk).
Proof.
  unfold save_old_artifact.
  apply within_bind; [apply within_path_exists|]. intros b.
  apply within_when. intros _.
  apply within_bind; [apply within_create_backup_dir|]. intros _.
  apply within_copy2. intros d Hd.
  assert (under_backups d); [|done].
  eapply under_backups_target; [|exact Hd]. apply under_backups_join.
Qed.

Lemma within_backup_stage o files :
  within under_backups backup_event (backup_stage clk o files).
Proof.
  unfold backup_stage. apply within_when. intros _.
  apply within_bind; [apply within_create_backup_dir|]. intros _.
  apply within_bind; [apply within_backup_migrations|]. intros _.
  apply within_ret.
Qed.

Lemma within_delete_stage o files :
  within (λ q, opt_delete o = true ∧ opt_backup o = true ∧ delete_paths files q)
         (λ e, opt_delete o = true ∧ opt_backup o = true ∧
               ((∃ line, e = EvInput line) ∨ delete_event files e))
         (delete_stage o files).
Proof.
  unfold delete_stage.
  destruct (opt_delete o); [|apply within_ret].
  destruct (opt_backup o); [|apply within_ret]. simpl.
  apply within_bind; [apply within_input; eauto|]. intros line.
  case_bool_decide; [|apply within_ret].
  eapply within_mono; [| |apply within_delete_migrations]; simpl; eauto.
Qed.

Lemma backup_event_run o files e : backup_event e → run_event o files e.
Proof. destruct e; simpl; auto; done. Qed.

Lemma within_stages o files :
  within (run_paths o files) (run_event o files) (stages clk o files).
Proof.
  unfold stages.
  apply within_bind; [|intros _].
  { eapply within_mono; [| |apply within_backup_stage].
    - unfold run_paths. auto.
    - apply backup_event_run. }
  apply within_bind; [|intros _].
  { eapply within_mono; [| |apply within_write_temp_file].
    - unfold run_paths. auto.
    - intros [] He; simpl in *; done. }
  apply within_bind; [|intros _].
  { eapply within_mono; [| |apply within_save_old_artifact].
    - unfold run_paths. auto.
    - apply backup_event_run. }
  apply within_bind; [|intros _].
  { apply within_move; unfold run_paths; [auto|]. intros d Hd. simpl. auto. }
  apply within_bind; [|intros _].
  { apply within_when. intros Hren.
    eapply within_mono; [| |apply within_rename_to_init].
    - unfold run_paths, rename_paths. intros q [?|?]; [|auto 10].
      do 2 right. left. eapply under_backups_target; [|done].
      apply under_backups_join.
    - intros [] He; simpl in *; try done; [|auto].
      destruct He as [[_ ?]|[? ?]]; [|auto]. left.
      eapply under_backups_target; [|done]. apply under_backups_join. }
  eapply within_mono; [| |apply within_delete_stage].
  - unfold run_paths. intros q ?. auto 10.
  - intros e (Hd & Hb & [[line ->] | (f & Hf & ->)]); simpl; [done|].
    right. split_and!; [done..|]. by exists f.
Qed.

(** Every run, whatever its outcome, stays within these paths and events. *)
Lemma consolidate_within o w r w' :
  consolidate_migrations clk (Some o) w = (r, w') →
  unchanged_outside (run_paths o (discover w o)) w w' ∧
  trace_grows (run_event o (discover w o)) w w'.
Proof.
  rewrite consolidate_unfold. case_bool_decide.
  - intros [= <- <-]. split; [apply unchanged_refl | apply trace_grows_refl].
  - apply within_stages.
Qed.

End run_footprint.

(** ** The text of the artifact *)

Section temp_file.

Variable clk : clock.

Lemma write_run p s w :
  Os.write p s w =
    (Ok tt, World (Fs.write p s (w_fs w)) (w_stdin w) (w_trace w ++ [EvWrite p s])).
Proof. reflexivity. Qed.

Lemma write_insert (p : path) (s acc : string) (m : fs) :
  Fs.write p s (<[p := File acc]> m) = <[p := File (acc +:+ s)]> m.
Proof.
  unfold Fs.write. apply map_eq. intros q.
  rewrite lookup_alter, !lookup_insert. repeat case_decide; done.
Qed.

Lemma write_temp_holds s acc m0 w :
  temp_holds acc m0 w →
  ∃ w', Os.write TEMP_FILE s w = (Ok tt, w') ∧ temp_holds (acc +:+ s) m0 w'.
Proof.
  intros Hw. eexists. split; [apply write_run|].
  unfold temp_holds in *. simpl. by rewrite Hw, write_insert.
Qed.

Lemma for_each_write_temp lines acc m0 w :
  temp_holds acc m0 w →
  ∃ w', for_each lines (Os.write TEMP_FILE) w = (Ok tt, w') ∧
        temp_holds (acc +:+ concat_strings lines) m0 w'.
Proof.
  revert acc w. induction lines as [|s lines IH]; intros acc w Hw; simpl.
  - exists w. by rewrite append_nil_r.
  - destruct (write_temp_holds s _ _ _ Hw) as (w1 & E1 & H1).
    destruct (IH _ _ H1) as (w2 & E2 & H2).
    exists w2. split; [by rewrite (bind_ok _ _ _ _ _ E1)|].
    by rewrite <-append_assoc.
Qed.

Lemma read_temp_holds f acc m0 w :
  temp_holds acc m0 w → [f] ≠ TEMP_FILE →
  Os.read [f] w = match m0 !! [f] with
                  | Some (File c) =>
                      if Str.utf8_valid c then (Ok (Str.universal_newlines c), w)
                      else (Raise UnicodeDecodeError, w)
                  | Some Dir => (Raise IsADirectoryError, w)
                  | None => (Raise FileNotFoundError, w)
                  end.
Proof.
  intros Hw Hne. unfold Os.read, Fs.read, Fs.read_bytes.
  rewrite Hw, lookup_insert_ne by done.
  destruct (m0 !! [f]) as [[c|]|]; [|done..]. by destruct (Str.utf8_valid c).
Qed.

Lemma readable_regular m f : readable m f → regular m f.
Proof. intros (c & Hc & _). by exists c. Qed.

Lemma Forall_readable_regular m files :
  Forall (readable m) files → Forall (regular m) files.
Proof. intros H. eapply Forall_impl; [exact H|]. apply readable_regular. Qed.

(** One section: either the source is a regular file whose bytes decode
    and its section is appended whole, or the read fails after the delimiter
    was written. *)
Lemma write_section_run f acc m0 w r w' :
  temp_holds acc m0 w → [f] ≠ TEMP_FILE →
  write_section f w = (r, w') →
  (∃ b, m0 !! [f] = Some (File b) ∧ Str.utf8_valid b = true ∧ r = Ok tt ∧
        temp_holds (acc +:+ section_text f (Str.universal_newlines b)) m0 w') ∨
  (¬ readable m0 f ∧ (∃ e, r = Raise e) ∧
   temp_holds (acc +:+ delimiter f) m0 w').
Proof.
  intros Hw Hne. unfold write_section. rewrite join_root.
  destruct (write_temp_holds SEPARATOR _ _ _ Hw) as (w1 & E1 & H1).
  rewrite (bind_ok _ _ _ _ _ E1).
  destruct (write_temp_holds ("-- " +:+ f +:+ NL) _ _ _ H1) as (w2 & E2 & H2).
  rewrite (bind_ok _ _ _ _ _ E2).
  destruct (write_temp_holds SEPARATOR _ _ _ H2) as (w3 & E3 & H3).
  rewrite (bind_ok _ _ _ _ _ E3).
  pose proof (read_temp_holds f _ _ _ H3 Hne) as Hread.
  unfold temp_holds, section_text, delimiter, padding in *.
  destruct (m0 !! [f]) as [[b|]|] eqn:Hf;
    [destruct (Str.utf8_valid b) eqn:Hb|..].
  - rewrite (bind_ok _ _ _ _ _ Hread).
    destruct (write_temp_holds (Str.universal_newlines b) _ _ _ H3)
      as (w4 & E4 & H4).
    rewrite (bind_ok _ _ _ _ _ E4).
    intros Hrun. left. exists b. do 2 (split; [done|]).
    destruct (write_temp_holds NL _ _ _ H4) as (w5 & E5 & H5).
    unfold temp_holds in *.
    destruct (Str.endswith (Str.universal_newlines b) NL); simpl in Hrun.
    + rewrite (bind_ok _ _ _ _ _ (eq_refl : ret tt w4 = (Ok tt, w4))) in Hrun.
      rewrite E5 in Hrun. injection Hrun as <- <-. split; [done|].
      rewrite H5. by rewrite append_nil_l, !append_assoc.
    + rewrite (bind_ok _ _ _ _ _ E5) in Hrun.
      destruct (write_temp_holds NL _ _ _ H5) as (w6 & E6 & H6).
      rewrite E6 in Hrun. injection Hrun as <- <-. split; [done|].
      unfold temp_holds in H6. rewrite H6. by rewrite !append_assoc.
  - rewrite (bind_raise _ _ _ _ _ Hread). intros [= <- <-]. right.
    split_and!; [intros (c & ? & ?); congruence | eauto |].
    rewrite H3. by rewrite !append_assoc.
  - rewrite (bind_raise _ _ _ _ _ Hread). intros [= <- <-]. right.
    split_and!; [intros (c & ? & ?); congruence | eauto |].
    rewrite H3. by rewrite !append_assoc.
  - rewrite (bind_raise _ _ _ _ _ Hread). intros [= <- <-]. right.
    split_and!; [intros (c & ? & ?); congruence | eauto |].
    rewrite H3. by rewrite !append_assoc.
Qed.

(** The loop over the files: it either appends every section, or stops at
    the first entry that cannot be read. *)
Lemma sections_loop files (acc : string) (m0 : fs) w r w' :
  temp_holds acc m0 w → (∀ f, f ∈ files → [f] ≠ TEMP_FILE) →
  for_each files write_section w = (r, w') →
  (r = Ok tt ∧ Forall (readable m0) files ∧
   temp_holds (acc +:+ concat_strings (sections m0 files)) m0 w') ∨
  ((∃ e, r = Raise e) ∧ ¬ Forall (readable m0) files ∧
   ∃ acc', temp_holds acc' m0 w').
Proof.
  revert acc w. induction files as [|f files IH]; intros acc w Hw Hne; simpl.
  - intros [= <- <-]. left. split_and!; [done|constructor|].
    by rewrite append_nil_r.
  - assert ([f] ≠ TEMP_FILE) as Hf by (apply Hne; left).
    assert (∀ g, g ∈ files → [g] ≠ TEMP_FILE) as Hne'
      by (intros g Hg; apply Hne; by right).
    intros [(a & w1 & H1 & H2) | (e & H1 & ->)]%bind_inv.
    + destruct (write_section_run f acc m0 w _ _ Hw Hf H1)
        as [(c & Hc & Hv & _ & Hw1) | (_ & [e He] & _)]; [|done].
      destruct (IH _ _ Hw1 Hne' H2) as [(-> & Hreg & Hw') | (He & Hreg & Hw')].
      * left. split_and!; [done| |].
        -- constructor; [by exists c|done].
        -- unfold file_text at 1. by rewrite Hc, <-append_assoc.
      * right. split_and!; [done| |done].
        intros Hall. apply Hreg. by inversion Hall.
    + destruct (write_section_run f acc m0 w _ _ Hw Hf H1)
        as [(c & _ & _ & [=] & _) | (Hreg & _ & Hw1)].
      right. split_and!; [eauto| |eauto].
      intros Hall. apply Hreg. by inversion Hall.
Qed.

Lemma open_temp_run w r w' :
  Os.open_w TEMP_FILE w = (r, w') →
  (w_fs w !! TEMP_FILE = Some Dir ∧ r = Raise IsADirectoryError ∧ w' = w) ∨
  (w_fs w !! TEMP_FILE ≠ Some Dir ∧ r = Ok tt ∧ temp_holds "" (w_fs w) w').
Proof.
  unfold Os.open_w, fs_call, Fs.open_w. simpl.
  destruct (w_fs w !! TEMP_FILE) as [[c|]|] eqn:E; intros [= <- <-];
    [right|left|right]; done.
Qed.

(** The [with open(TEMP_FILE, 'w')] block.  It fails at once when the
    temporary path is a directory; otherwise it either writes the whole
    artifact, read from regular files that decode, or stops at an entry
    that cannot be read and leaves a partial temporary file. *)
Lemma write_temp_file_run files w r w' :
  (∀ f, f ∈ files → [f] ≠ TEMP_FILE) →
  write_temp_file clk files w = (r, w') →
  (w_fs w !! TEMP_FILE = Some Dir ∧ r = Raise IsADirectoryError ∧ w' = w) ∨
  (w_fs w !! TEMP_FILE ≠ Some Dir ∧ r = Ok tt ∧
   Forall (readable (w_fs w)) files ∧
   temp_holds (artifact_text clk (w_fs w) files) (w_fs w) w') ∨
  (w_fs w !! TEMP_FILE ≠ Some Dir ∧ (∃ e, r = Raise e) ∧
   ¬ Forall (readable (w_fs w)) files ∧
   ∃ acc, temp_holds acc (w_fs w) w').
Proof.
  intros Hne. unfold write_temp_file.
  intros [(a & w1 & H1 & H2) | (e & H1 & ->)]%bind_inv.
  - apply open_temp_run in H1 as [(_ & [=] & _) | (Hnd & _ & Hw1)].
    destruct (for_each_write_temp
                (header_lines clk (List.hd "" files) (List.last files ""))
                _ _ _ Hw1) as (w2 & E2 & Hw2).
    rewrite (bind_ok _ _ _ _ _ E2) in H2. rewrite append_nil_l in Hw2.
    destruct (sections_loop _ _ _ _ _ _ Hw2 Hne H2)
      as [(-> & Hreg & Hw') | (He & Hreg & Hw')]; right; [left|right]; done.
  - apply open_temp_run in H1 as [(? & [= ->] & ->) | (_ & [=] & _)]. by left.
Qed.

End temp_file.

(** ** The run, stage by stage *)

Section stage_runs.

Variable clk : clock.

Lemma after_within P T {A} (r : result A) (m : M unit) :
  within P T m → within P T (after r m).
Proof. destruct r; simpl; [done | intros _; apply within_raise]. Qed.

Lemma after_ok {A} (r : result A) (m : M unit) w w' :
  after r m w = (Ok tt, w') → (∃ a, r = Ok a) ∧ m w = (Ok tt, w').
Proof. destruct r; simpl; [eauto | done]. Qed.

Lemma stages_inv o files w r w' :
  stages clk o files w = (r, w') →
  ∃ r1 w1 r2 w2 r3 w3 r4 w4 r5 w5,
    backup_stage clk o files w = (r1, w1) ∧
    after r1 (write_temp_file clk files) w1 = (r2, w2) ∧
    after r2 (save_old_artifact clk) w2 = (r3, w3) ∧
    after r3 (Os.move TEMP_FILE OUTPUT_FILE) w3 = (r4, w4) ∧
    after r4 (when (opt_rename o)
                (rename_to_init clk (Some (opt_timestamp o)))) w4 = (r5, w5) ∧
    after r5 (delete_stage o files) w5 = (r, w').
Proof.
  unfold stages, bind.
  destruct (backup_stage clk o files w) as [[[]|e1] w1] eqn:E1;
    [|intros [= <- <-]; by repeat eexists].
  destruct (write_temp_file clk files w1) as [[[]|e2] w2] eqn:E2;
    [|intros [= <- <-]; by repeat eexists].
  destruct (save_old_artifact clk w2) as [[[]|e3] w3] eqn:E3;
    [|intros [= <- <-]; by repeat eexists].
  destruct (Os.move TEMP_FILE OUTPUT_FILE w3) as [[[]|e4] w4] eqn:E4;
    [|intros [= <- <-]; by repeat eexists].
  destruct (when (opt_rename o) _ w4) as [[[]|e5] w5] eqn:E5;
    [|intros [= <- <-]; by repeat eexists].
  intros Hrun. by repeat eexists.
Qed.

(** [create_backup_dir] cannot fail: the parent of the backup root is the
    migrations directory itself. *)
Lemma create_backup_dir_run w :
  create_backup_dir w =
    (Ok tt, if Fs.exists_ (w_fs w) BACKUP_DIR then w
            else World (<[BACKUP_DIR := Dir]> (w_fs w)) (w_stdin w)
                       (w_trace w ++ [EvMkdir BACKUP_DIR])).
Proof.
  unfold create_backup_dir, bind, Os.path_exists.
  destruct (Fs.exists_ (w_fs w) BACKUP_DIR) eqn:E; simpl; [done|].
  rewrite makedirs_backup_dir. unfold Os.mkdir, fs_call, Fs.mkdir.
  by rewrite E.
Qed.

Lemma create_backup_dir_lookup w w' q :
  create_backup_dir w = (Ok tt, w') → q ≠ BACKUP_DIR →
  w_fs w' !! q = w_fs w !! q.
Proof.
  rewrite create_backup_dir_run. intros [= <-] Hq.
  destruct (Fs.exists_ _ _); simpl; [done|]. by rewrite lookup_insert_ne.
Qed.

Lemma exists_lookup m p : p ≠ [] → Fs.exists_ m p = bool_decide (is_Some (m !! p)).
Proof.
  intros Hp. unfold Fs.exists_, Fs.node_at. destruct p; [done|].
  destruct (m !! _) eqn:E; symmetry.
  - by apply bool_decide_eq_true.
  - apply bool_decide_eq_false. by intros [? ?].
Qed.

(** Saving the previous artifact: nothing to do when there is none;
    otherwise the stage returns only after the previous text has been copied
    to one of the two places [shutil.copy2] can resolve inside the backup
    root, and that copy is the last thing it did. *)
Lemma save_old_artifact_run w r w' :
  save_old_artifact clk w = (r, w') →
  (w_fs w !! OUTPUT_FILE = None ∧ r = Ok tt ∧ w' = w) ∨
  (is_Some (w_fs w !! OUTPUT_FILE) ∧ (∃ e, r = Raise e)) ∨
  (∃ c d t, w_fs w !! OUTPUT_FILE = Some (File c) ∧ r = Ok tt ∧
     copy_targets OUTPUT_FILE (old_backup_path clk) d ∧
     w_fs w' !! d = Some (File c) ∧
     w_trace w' = w_trace w ++ t ++ [EvCopy OUTPUT_FILE d] ∧
     Forall backup_event t).
Proof.
  unfold save_old_artifact.
  intros [(b & w0 & [= <- <-] & H2) | (e & [=] & _)]%bind_inv.
  rewrite exists_lookup in H2 by done.
  case_bool_decide as Hout; simpl in H2.
  - apply bind_inv in H2 as [([] & w1 & H1 & H2) | (e & H1 & ->)].
    + apply copy2_run in H2 as [(c & Hc & -> & ->) | (e & -> & ->)];
        [|right; left; eauto].
      right. right.
      rewrite (create_backup_dir_lookup _ _ _ H1) in Hc by done.
      rewrite create_backup_dir_run in H1. injection H1 as <-.
      eexists c, _, _. split_and!; [done|done|apply dest_target| | |].
      * simpl. apply lookup_insert_eq.
      * simpl. instantiate (1 := if Fs.exists_ (w_fs w) BACKUP_DIR then []
                                 else [EvMkdir BACKUP_DIR]).
        destruct (Fs.exists_ (w_fs w) BACKUP_DIR); simpl;
          by rewrite <-?app_assoc.
      * destruct (Fs.exists_ (w_fs w) BACKUP_DIR); repeat constructor.
        apply under_backups_dir.
    + rewrite create_backup_dir_run in H1. done.
  - injection H2 as <- <-. left. split; [|done].
    by apply eq_None_not_Some.
Qed.

Lemma move_temp_run w art :
  w_fs w !! TEMP_FILE = Some (File art) →
  w_fs w !! OUTPUT_FILE ≠ Some Dir →
  Os.move TEMP_FILE OUTPUT_FILE w =
    (Ok tt, World (<[OUTPUT_FILE := File art]> (delete TEMP_FILE (w_fs w)))
                  (w_stdin w) (w_trace w ++ [EvMove TEMP_FILE OUTPUT_FILE])).
Proof.
  intros Ht Ho. unfold Os.move, fs_call, Fs.move, Fs.dest, Fs.isdir. simpl.
  destruct (w_fs w !! OUTPUT_FILE) as [[c|]|] eqn:E; [|done|]; simpl;
    by rewrite Ht.
Qed.

End stage_runs.

(** ** [rename_to_init], case by case *)

Section rename_runs.

Variable clk : clock.

Lemma init_not_output timestamp : [init_filename timestamp] ≠ OUTPUT_FILE.
Proof.
  intros [= H].
  assert (Str.endswith "consolidated_migration.sql" "_initial_schema.sql" = true)
    as Hs by (rewrite <-H; apply endswith_append).
  vm_compute in Hs. discriminate.
Qed.

Lemma init_not_temp timestamp : [init_filename timestamp] ≠ TEMP_FILE.
Proof.
  intros [= H].
  assert (Str.endswith "consolidated_migration.sql.tmp" "_initial_schema.sql" = true)
    as Hs by (rewrite <-H; apply endswith_append).
  vm_compute in Hs. discriminate.
Qed.


Lemma bak_target_under timestamp d :
  copy_targets [init_filename timestamp] (bak_path timestamp) d → under_backups d.
Proof. apply under_backups_target, under_backups_join. Qed.

Lemma init_not_under_backups timestamp : ¬ under_backups [init_filename timestamp].
Proof.
  intros [rest [= H _]].
  assert (Str.endswith "backups" "_initial_schema.sql" = true)
    as Hs by (rewrite <-H; apply endswith_append).
  vm_compute in Hs. discriminate.
Qed.

Lemma output_not_under_backups : ¬ under_backups OUTPUT_FILE.
Proof. by intros [rest [=]]. Qed.

Lemma rename_to_init_run (timestamp : option string) w r w' :
  let ts := default (now_Ymd clk) timestamp in
  let init := [init_filename ts] in
  let bak := Fs.dest (w_fs w) init (bak_path ts) in
  rename_to_init clk timestamp w = (r, w') →
  match w_fs w !! init with
  | None =>
      ((∃ e, r = Raise e) ∧ w' = w) ∨
      (∃ a, w_fs w !! OUTPUT_FILE = Some (File a) ∧ r = Ok tt ∧
            w' = upd w (<[init := File a]> (w_fs w)) [EvCopy OUTPUT_FILE init])
  | Some n =>
      ((∃ e, r = Raise e) ∧ w' = w) ∨
      (∃ c, n = File c ∧
         let m1 := delete init (<[bak := File c]> (w_fs w)) in
         ((∃ e, r = Raise e) ∧
          w' = upd w m1 [EvCopy init bak; EvRemove init]) ∨
         (∃ a, w_fs w !! OUTPUT_FILE = Some (File a) ∧ r = Ok tt ∧
               w' = upd w (<[init := File a]> m1)
                      [EvCopy init bak; EvRemove init; EvCopy OUTPUT_FILE init]))
  end.
Proof.
  intros ts init bak. unfold rename_to_init. fold ts. rewrite join_root.
  fold init. fold (bak_path ts).
  assert (init ≠ bak) as Hib.
  { intros E. apply (init_not_under_backups ts). fold init. rewrite E.
    apply (bak_target_under ts), dest_target. }
  assert (OUTPUT_FILE ≠ bak) as Hob.
  { intros E. apply output_not_under_backups. rewrite E.
    apply (bak_target_under ts), dest_target. }
  pose proof (init_not_output ts) as Hio. fold init in Hio.
  intros [([] & w1 & H1 & H2) | (e & H1 & ->)]%bind_inv.
  - (* the collision block returned *)
    apply bind_inv in H1 as [(b & w0 & [= <- <-] & H1) | (e & [=] & _)].
    rewrite exists_lookup in H1 by done.
    case_bool_decide as Hinit; simpl in H1.
    + destruct Hinit as [n Hn]. rewrite Hn. right.
      apply bind_inv in H1 as [([] & w2 & H1 & H3) | (e & H1 & [=])].
      apply copy2_run in H1 as [(c & Hc & _ & ->) | (e & [=] & _)].
      fold init bak in Hc |- *. rewrite Hn in Hc. injection Hc as ->.
      exists c. split; [done|].
      apply remove_run in H3 as [(c' & _ & _ & ->) | (e & [=] & _)].
      simpl in H2.
      apply copy2_run in H2 as [(a & Ha & -> & ->) | (e & -> & ->)]; simpl in *.
      * right. exists a.
        rewrite lookup_delete_ne, lookup_insert_ne in Ha by done.
        split_and!; [done..|]. unfold upd. simpl.
        unfold Fs.dest, Fs.isdir, Fs.node_at. fold init.
        rewrite lookup_delete_eq. by rewrite <-!app_assoc.
      * left. split; [eauto|]. unfold upd. by rewrite <-!app_assoc.
    + injection H1 as <-. apply eq_None_not_Some in Hinit. rewrite Hinit.
      apply copy2_run in H2 as [(a & Ha & -> & ->) | (e & -> & ->)];
        [right|left; eauto].
      exists a. split_and!; [done..|].
      unfold upd, Fs.dest, Fs.isdir, Fs.node_at. fold init. by rewrite Hinit.
  - (* the collision block raised: the backup copy failed *)
    apply bind_inv in H1 as [(b & w0 & [= <- <-] & H1) | (e' & [=] & _)].
    rewrite exists_lookup in H1 by done.
    case_bool_decide as Hinit; simpl in H1; [|done].
    destruct Hinit as [n Hn]. rewrite Hn.
    apply bind_inv in H1 as [([] & w2 & H1 & H3) | (e' & H1 & [= <-])].
    + apply copy2_run in H1 as [(c & Hc & _ & ->) | (e' & [=] & _)].
      apply remove_run in H3 as [(c' & _ & [=] & _) | (e' & _ & _ & Hno)].
      exfalso. apply (Hno c). simpl. fold init bak.
      rewrite lookup_insert_ne by done. fold init in Hc. done.
    + apply copy2_run in H1 as [(c & _ & [=] & _) | (e' & _ & ->)].
      left. eauto.
Qed.

End rename_runs.

(** * The claims *)

(** ** The text of a section and of the header *)

Section padding_claim.

Lemma trailing_newlines_delimiter f : Str.trailing_newlines (delimiter f) = 1.
Proof.
  unfold delimiter. rewrite <-append_assoc, trailing_newlines_append.
  reflexivity.
Qed.

Lemma padding_cases content :
  padding content = if Str.endswith content NL then NL else NL +:+ NL.
Proof. unfold padding. by destruct (Str.endswith content NL). Qed.

Lemma trailing_newlines_section f content :
  Str.trailing_newlines (section_text f content) =
    (if bool_decide (Str.trailing_newlines content = String.length content)
     then 1 else 0)
    + Str.trailing_newlines content
    + (if Str.endswith content NL then 1 else 2).
Proof.
  unfold section_text.
  rewrite trailing_newlines_append, trailing_newlines_delimiter.
  rewrite trailing_newlines_append, length_append, padding_cases.
  pose proof (trailing_newlines_le content).
  destruct (Str.endswith content NL); simpl;
    repeat case_bool_decide; simpl in *; lia.
Qed.

(** The blank lines that end a section: [max 1 k] for a content with [k]
    trailing newlines, and one more when the content is nothing but
    newlines. *)
Lemma blank_lines_section f content :
  let k := Str.trailing_newlines content in
  Str.trailing_blank_lines (section_text f content) =
      k `max` 1 + (if bool_decide (k = String.length content) then 1 else 0)
  ∧ (k ≠ String.length content ∧ k ≤ 1 ↔
     Str.trailing_blank_lines (section_text f content) = 1).
Proof.
  intros k.
  unfold Str.trailing_blank_lines. rewrite trailing_newlines_section.
  fold k. pose proof (endswith_NL_trailing content) as Hnl. fold k in Hnl.
  destruct (Str.endswith content NL).
  - assert (0 < k) by by apply Hnl. case_bool_decide; lia.
  - assert (¬ 0 < k) by (intros ?%Hnl; done). case_bool_decide; lia.
Qed.

(** The texts of a section and of the header, written out. *)
Lemma section_text_spelled f c :
  section_text f c =
    ("-- =============================================" +:+ NL +:+
     "-- " +:+ f +:+ NL +:+
     "-- =============================================" +:+ NL)
    +:+ c +:+ (if Str.endswith c NL then NL else NL +:+ NL).
Proof.
  unfold section_text, delimiter, SEPARATOR. rewrite padding_cases.
  rewrite !append_assoc. reflexivity.
Qed.

Lemma header_text_spelled clk first last :
  header_text clk first last =
    "-- CONSOLIDATED MIGRATION FILE" +:+ NL +:+
    "-- This file combines all migrations from " +:+ first +:+
      " through " +:+ last +:+ NL +:+
    "-- Created on " +:+ now_header clk +:+ NL +:+
    "-- Created for easier management while preserving original migrations"
      +:+ NL +:+
    NL.
Proof.
  unfold header_text, header_lines, concat_strings. simpl.
  rewrite !append_assoc, append_nil_r. reflexivity.
Qed.

(** The header is four comment lines and an empty line, and the delimiter
    three comment lines, as long as the texts put into them hold no
    newline. *)
Lemma header_splitlines clk first last :
  Str.newline_free first = true → Str.newline_free last = true →
  Str.newline_free (now_header clk) = true →
  Str.splitlines
    ("-- CONSOLIDATED MIGRATION FILE" +:+ NL +:+
     "-- This file combines all migrations from " +:+ first +:+
       " through " +:+ last +:+ NL +:+
     "-- Created on " +:+ now_header clk +:+ NL +:+
     "-- Created for easier management while preserving original migrations"
       +:+ NL +:+
     NL) =
    [ "-- CONSOLIDATED MIGRATION FILE";
      "-- This file combines all migrations from " +:+ first +:+
        " through " +:+ last;
      "-- Created on " +:+ now_header clk;
      "-- Created for easier management while preserving original migrations";
      "" ].
Proof.
  intros H1 H2 H3.
  set (l1 := "-- CONSOLIDATED MIGRATION FILE").
  set (l2 := "-- This file combines all migrations from " +:+ first +:+
               " through " +:+ last).
  set (l3 := "-- Created on " +:+ now_header clk).
  set (l4 := "-- Created for easier management while preserving original migrations").
  assert (Str.newline_free l2 = true) as N2.
  { unfold l2. by rewrite !newline_free_append, H1, H2. }
  assert (Str.newline_free l3 = true) as N3.
  { unfold l3. by rewrite !newline_free_append, H3. }
  transitivity
    (Str.splitlines
       (l1 +:+ String "010"%char
          (l2 +:+ String "010"%char
             (l3 +:+ String "010"%char
                (l4 +:+ String "010"%char (String "010"%char "")))))).
  { f_equal. unfold l1, l2, l3, l4. rewrite !append_assoc. reflexivity. }
  rewrite !splitlines_line by done. reflexivity.
Qed.

Lemma delimiter_splitlines f :
  Str.newline_free f = true →
  Str.splitlines
    ("-- =============================================" +:+ NL +:+
     "-- " +:+ f +:+ NL +:+
     "-- =============================================" +:+ NL) =
    [ "-- ============================================="; "-- " +:+ f;
      "-- =============================================" ].
Proof.
  intros Hf.
  assert (Str.newline_free ("-- " +:+ f) = true) as N
    by (by rewrite newline_free_append, Hf).
  transitivity
    (Str.splitlines
       ("-- =============================================" +:+ String "010"%char
          (("-- " +:+ f) +:+ String "010"%char
             ("-- =============================================" +:+
                String "010"%char "")))).
  { rewrite !append_assoc. reflexivity. }
  rewrite !splitlines_line by done. reflexivity.
Qed.

End padding_claim.

(** ** Discovery (C7) *)

Section discovery_claim.

Lemma elem_of_listdir m name : name ∈ Fs.listdir m ↔ is_Some (m !! [name]).
Proof.
  unfold Fs.listdir. rewrite list_elem_of_omap. split.
  - intros ([p n] & Hin & Hp). apply elem_of_map_to_list in Hin. simpl in Hp.
    destruct p as [|x [|??]]; simplify_eq. eauto.
  - intros [n Hn]. exists ([name], n). split; [|done].
    by apply elem_of_map_to_list.
Qed.

Lemma NoDup_listdir m : NoDup (Fs.listdir m).
Proof.
  unfold Fs.listdir.
  apply (NoDup_fmap_1 (λ name : string, [name])).
  pose proof (NoDup_fst_map_to_list m) as Hnd.
  induction (map_to_list m) as [|[p n] l IH]; simpl in *; [constructor|].
  inversion Hnd as [|?? Hnotin Hnd']; subst.
  destruct p as [|x [|??]]; simpl; auto.
  constructor; [|auto]. intros Hin. apply Hnotin.
  apply list_elem_of_fmap in Hin as (y & -> & Hy).
  apply list_elem_of_omap in Hy as ([p' n'] & Hl & Hp'). simpl in Hp'.
  destruct p' as [|x' [|??]]; simplify_eq.
  apply list_elem_of_fmap. by exists ([y], n').
Qed.



End discovery_claim.

(** ** The options invariant (C4) *)

Section options_claim.

Variable clk : clock.

Lemma menu_loop_safe n :
  ∀ lines opts o' rest,
    length lines ≤ n → safe_options opts →
    menu_loop lines opts = (Ok o', rest) → safe_options o'.
Proof.
  unfold safe_options.
  induction n as [|n IH]; intros [|line lines] opts o' rest Hlen Hsafe;
    simpl in *; try done; [lia|].
  destruct opts as [b d rn t]; simpl in *.
  repeat case_bool_decide.
  - done.
  - intros [= <- <-]. done.
  - destruct b, d; simpl in *;
      try (by apply IH; [lia|done]);
      destruct lines as [|l2 lines]; try done;
      apply IH; simpl in *; [lia|done].
  - destruct b, d; simpl in *;
      try (by apply IH; [lia|done]);
      try (by apply IH; [lia|simpl; auto]);
      destruct lines as [|l2 lines]; try done;
      apply IH; simpl in *; [lia|done].
  - destruct rn; simpl in *.
    + by apply IH; [lia|done].
    + destruct lines as [|l2 lines]; [done|].
      destruct (Str.truthy _); apply IH; simpl in *; first [lia|done].
  - by apply IH; [lia|done].
Qed.

(** C4, counterexample: the command line [-d] alone builds options with
    delete set and backup unset. *)
Lemma cli_options_break_invariant :
  ¬ (∀ clk a w o w',
       build_options clk a w = (Ok o, w') → safe_options o).
Proof.
  intros H.
  specialize (H (Clock "20240105" "" "" "")
                (Args false true false None false)
                (World ∅ [] []) _ _ eq_refl).
  by specialize (H eq_refl).
Qed.

Lemma show_menu_safe w o w' : show_menu clk w = (Ok o, w') → safe_options o.
Proof.
  unfold show_menu.
  destruct (menu_loop (w_stdin w) (default_options clk)) as [r rest] eqn:E.
  intros [= -> _]. eapply (menu_loop_safe _ _ _ _ _ (Nat.le_refl _)); [|exact E].
  by intros [=].
Qed.

(** With delete set and backup unset, a run is the run without delete. *)
Lemma refused_delete_is_no_delete o w :
  opt_delete o = true → opt_backup o = false →
  consolidate_migrations clk (Some o) w =
    consolidate_migrations clk (Some (set_delete false o)) w.
Proof.
  intros Hd Hb. rewrite !consolidate_unfold.
  destruct o as [b d rn t]; simpl in *; subst. reflexivity.
Qed.

(** C4, amended: options built by the interactive menu always satisfy
    "delete implies backup"; options built from the command-line flags copy
    the backup and delete flags as given, so the invariant is not
    established there; for such options the check is made by
    [consolidate_migrations] at the deletion step, where delete without
    backup makes the run behave as a run without delete. *)
Theorem options_invariant_by_path :
  (∀ w o w', show_menu clk w = (Ok o, w') → safe_options o)
  ∧ (∀ a w o w', wants_menu a = true →
       build_options clk a w = (Ok o, w') → safe_options o)
  ∧ (∀ a w, wants_menu a = false →
       build_options clk a w = (Ok (options_of_args clk a), w) ∧
       opt_backup (options_of_args clk a) = arg_backup a ∧
       opt_delete (options_of_args clk a) = arg_delete a)
  ∧ (∀ o w, opt_delete o = true → opt_backup o = false →
       consolidate_migrations clk (Some o) w =
         consolidate_migrations clk (Some (set_delete false o)) w).
Proof.
  split_and!.
  - apply show_menu_safe.
  - intros a w o w' Hm. unfold build_options. rewrite Hm. apply show_menu_safe.
  - intros a w Hm. unfold build_options. by rewrite Hm.
  - apply refused_delete_is_no_delete.
Qed.

End options_claim.

(** ** From discovery to the move *)

Section pipeline.

Variable clk : clock.

Lemma after_raise {A} e (m : M unit) w r w' :
  after (@Raise A e) m w = (r, w') → r = Raise e ∧ w' = w.
Proof. by intros [= <- <-]. Qed.

Lemma artifact_text_ext m1 m2 files :
  (∀ f, f ∈ files → m1 !! [f] = m2 !! [f]) →
  artifact_text clk m1 files = artifact_text clk m2 files.
Proof.
  intros H. unfold artifact_text, sections. do 2 f_equal.
  apply list_eq_Forall2, Forall2_fmap, Forall_Forall2_diag, Forall_forall.
  intros f Hf. unfold file_text. by rewrite (H f Hf).
Qed.

Lemma regular_ext m1 m2 files :
  (∀ f, f ∈ files → m1 !! [f] = m2 !! [f]) →
  Forall (regular m1) files → Forall (regular m2) files.
Proof.
  intros H. rewrite !Forall_forall. intros Hreg f Hf.
  destruct (Hreg f Hf) as [c Hc]. exists c. by rewrite <-(H f Hf).
Qed.

Lemma readable_ext m1 m2 files :
  (∀ f, f ∈ files → m1 !! [f] = m2 !! [f]) →
  Forall (readable m1) files → Forall (readable m2) files.
Proof.
  intros H. rewrite !Forall_forall. intros Hreg f Hf.
  destruct (Hreg f Hf) as (c & Hc & Hv). exists c. by rewrite <-(H f Hf).
Qed.

(** Discovered names are not the temporary file, not the artifact, not in
    the backup root, and, when rename is requested, not the init file. *)
Lemma discovered_not_temp w o f : f ∈ discover w o → [f] ≠ TEMP_FILE.
Proof.
  intros (_ & Hm & _)%elem_of_discover_from [= ->].
  by apply is_migration_not_temp in Hm.
Qed.

Lemma discovered_not_output w o f : f ∈ discover w o → [f] ≠ OUTPUT_FILE.
Proof.
  intros (_ & Hm & _)%elem_of_discover_from [= ->].
  by apply is_migration_not_output in Hm.
Qed.

Lemma discovered_not_under_backups w o f : f ∈ discover w o → ¬ under_backups [f].
Proof.
  intros (_ & Hm & _)%elem_of_discover_from [rest [= -> _]].
  by apply is_migration_not_backups in Hm.
Qed.

Lemma discovered_not_init w o f :
  opt_rename o = true → f ∈ discover w o → f ≠ init_filename (opt_timestamp o).
Proof.
  intros Hren (_ & _ & Hi)%elem_of_discover_from.
  by apply not_planned_init_not_init, Hi.
Qed.

(** Whatever happens before the move touches only the temporary file and
    the backup root. *)
Lemma pre_move_within o files w r1 w1 r2 w2 r3 w3 :
  backup_stage clk o files w = (r1, w1) →
  after r1 (write_temp_file clk files) w1 = (r2, w2) →
  after r2 (save_old_artifact clk) w2 = (r3, w3) →
  unchanged_outside pre_move_paths w w3 ∧ trace_grows pre_move_event w w3.
Proof.
  intros H1 H2 H3.
  assert (within pre_move_paths pre_move_event (backup_stage clk o files)) as W1.
  { eapply within_mono; [| |apply within_backup_stage];
      unfold pre_move_paths, pre_move_event; auto. }
  assert (within pre_move_paths pre_move_event
            (after r1 (write_temp_file clk files))) as W2.
  { apply after_within. eapply within_mono; [| |apply within_write_temp_file];
      unfold pre_move_paths, pre_move_event; auto. }
  assert (within pre_move_paths pre_move_event
            (after r2 (save_old_artifact clk))) as W3.
  { apply after_within. eapply within_mono; [| |apply within_save_old_artifact];
      unfold pre_move_paths, pre_move_event; auto. }
  destruct (W1 _ _ _ H1), (W2 _ _ _ H2), (W3 _ _ _ H3).
  split; [eauto using unchanged_trans | eauto using trace_grows_trans].
Qed.

(** When the first three stages return, the temporary file holds the whole
    artifact, built from the files as they were when the run started; the
    previous artifact, if any, is a regular file that has just been copied
    into the backup root as the last logged call. *)
Lemma pre_move_ok o files w r1 w1 r2 w2 w3 :
  (∀ f, f ∈ files → [f] ≠ TEMP_FILE ∧ ¬ under_backups [f]) →
  backup_stage clk o files w = (r1, w1) →
  after r1 (write_temp_file clk files) w1 = (r2, w2) →
  after r2 (save_old_artifact clk) w2 = (Ok tt, w3) →
  Forall (readable (w_fs w)) files
  ∧ w_fs w3 !! TEMP_FILE = Some (File (artifact_text clk (w_fs w) files))
  ∧ w_fs w3 !! OUTPUT_FILE = w_fs w !! OUTPUT_FILE
  ∧ w_fs w !! OUTPUT_FILE ≠ Some Dir
  ∧ (∀ c, w_fs w !! OUTPUT_FILE = Some (File c) →
       ∃ t b, w_trace w3 = w_trace w ++ t ++ [EvCopy OUTPUT_FILE b] ∧
              Forall pre_move_event t ∧
              copy_targets OUTPUT_FILE (old_backup_path clk) b ∧
              w_fs w3 !! b = Some (File c)).
Proof.
  intros Hfiles H1 H2 H3.
  apply after_ok in H3 as [[[] ->] H3]. apply after_ok in H2 as [[[] ->] H2].
  destruct (within_backup_stage clk o files _ _ _ H1) as [F1 (t1 & T1 & E1 & _)].
  destruct (within_save_old_artifact clk _ _ _ H3) as [F3 _].
  assert (∀ f, f ∈ files → w_fs w1 !! [f] = w_fs w !! [f]) as Hsame.
  { intros f Hf. apply F1, Hfiles, Hf. }
  assert (∀ f, f ∈ files → [f] ≠ TEMP_FILE) as Hnt by (intros f Hf; by apply Hfiles).
  destruct (write_temp_file_run clk files w1 _ _ Hnt H2)
    as [(_ & [=] & _) | [(_ & _ & Hreg & Htemp) | (_ & [e [=]] & _)]].
  assert (¬ under_backups TEMP_FILE) as Htb by (by intros [rest [=]]).
  assert (w_fs w3 !! TEMP_FILE = Some (File (artifact_text clk (w_fs w) files)))
    as Ht3.
  { rewrite (F3 _ Htb), Htemp, lookup_insert_eq.
    by rewrite (artifact_text_ext _ _ _ Hsame). }
  assert (w_fs w2 !! OUTPUT_FILE = w_fs w !! OUTPUT_FILE) as Ho2.
  { rewrite Htemp, lookup_insert_ne by done.
    apply F1, output_not_under_backups. }
  assert (w_fs w3 !! OUTPUT_FILE = w_fs w !! OUTPUT_FILE) as Ho3.
  { by rewrite (F3 _ output_not_under_backups). }
  split_and!; [by eapply readable_ext|done|done| |].
  - destruct (save_old_artifact_run clk _ _ _ H3)
      as [(Hn & _) | [(_ & [e [=]]) | (c & d & t & Hc & _)]]; congruence.
  - intros c Hc.
    destruct (save_old_artifact_run clk _ _ _ H3)
      as [(Hn & _) | [(_ & [e [=]]) | (c' & d & t & Hc' & _ & Hd & Hw3 & Ht & Hbt)]];
      [congruence|].
    assert (c' = c) as -> by congruence.
    destruct (within_write_temp_file clk files _ _ _ H2) as [_ (t2 & T2 & E2 & _)].
    exists (t1 ++ t2 ++ t), d. split_and!; [| |done..].
    + rewrite Ht, T2, T1. by rewrite <-!app_assoc.
    + rewrite !Forall_app.
      split_and!; (eapply Forall_impl; [eassumption|]);
        unfold pre_move_event; auto.
Qed.

(** What follows the move touches only the init file, its backup, and, when
    deletion is allowed, the discovered files. *)
Lemma post_move_within o files (r4 r5 : result unit) w4 w5 r w' :
  after r4 (when (opt_rename o)
              (rename_to_init clk (Some (opt_timestamp o)))) w4 = (r5, w5) →
  after r5 (delete_stage o files) w5 = (r, w') →
  unchanged_outside (post_move_paths o files) w4 w' ∧
  trace_grows (post_move_event o files) w4 w'.
Proof.
  intros H5 H6.
  assert (within (post_move_paths o files) (post_move_event o files)
            (after r4 (when (opt_rename o)
                         (rename_to_init clk (Some (opt_timestamp o)))))) as W5.
  { apply after_within, within_when. intros Hren.
    eapply within_mono; [| |apply within_rename_to_init];
      unfold post_move_paths, post_move_event; auto. }
  assert (within (post_move_paths o files) (post_move_event o files)
            (after r5 (delete_stage o files))) as W6.
  { apply after_within.
    eapply within_mono; [| |apply within_delete_stage];
      unfold post_move_paths, post_move_event; auto. }
  destruct (W5 _ _ _ H5), (W6 _ _ _ H6).
  split; [eauto using unchanged_trans | eauto using trace_grows_trans].
Qed.

Lemma output_not_rename_path timestamp : ¬ rename_paths timestamp OUTPUT_FILE.
Proof.
  intros [H | [H | H]].
  - by apply output_not_under_backups, (bak_target_under timestamp).
  - by apply (init_not_output timestamp).
  - discriminate H.
Qed.

Lemma output_not_post_move_path w o :
  ¬ post_move_paths o (discover w o) OUTPUT_FILE.
Proof.
  intros [[_ H] | (_ & _ & f & Hf & H)].
  - by apply output_not_rename_path in H.
  - by apply (discovered_not_output w o f).
Qed.

Lemma discovered_pre_move w o f :
  f ∈ discover w o → [f] ≠ TEMP_FILE ∧ ¬ under_backups [f].
Proof.
  intros Hf. split;
    [by eapply discovered_not_temp | by eapply discovered_not_under_backups].
Qed.

End pipeline.

(** ** [shutil.move] is only asked to move a regular file

    The embedding of [shutil.move] covers regular files only and answers
    [DirectoryMove] for a directory.  No run ever gets that answer: the one
    call moves the temporary file, which the [with] block has just written. *)

Section directory_move.

Variable clk : clock.

Lemma never_ret e0 {A} (a : A) : never_raises e0 (ret a).
Proof. by intros w w' [=]. Qed.

Lemma never_bind e0 {A B} (m : M A) (k : A → M B) :
  never_raises e0 m → (∀ a, never_raises e0 (k a)) → never_raises e0 (bind m k).
Proof.
  intros Hm Hk w w' [(a & w1 & _ & H2) | (e & H1 & [= <-])]%bind_inv.
  - by apply Hk in H2.
  - by apply Hm in H1.
Qed.

Lemma never_when e0 (b : bool) (m : M unit) :
  never_raises e0 m → never_raises e0 (when b m).
Proof. destruct b; simpl; [done | intros _; apply never_ret]. Qed.

Lemma never_for_each e0 {A} (l : list A) (body : A → M unit) :
  (∀ x, never_raises e0 (body x)) → never_raises e0 (for_each l body).
Proof.
  intros Hbody. induction l as [|x l IH]; simpl; [apply never_ret|].
  apply never_bind; [apply Hbody | by intros _].
Qed.

Lemma never_fs_call e0 (ev : event) (f : fs → exn + fs) :
  (∀ m, f m ≠ inl e0) → never_raises e0 (fs_call ev f).
Proof.
  intros Hf w w'. unfold fs_call.
  destruct (f (w_fs w)) as [e|m'] eqn:E; [|done].
  intros [= -> _]. by apply Hf in E.
Qed.

Lemma check_parent_cases m p :
  Fs.check_parent m p = None ∨
  Fs.check_parent m p = Some NotADirectoryError ∨
  Fs.check_parent m p = Some FileNotFoundError.
Proof.
  unfold Fs.check_parent. destruct (Fs.node_at m (Fs.parent p)) as [[c|]|]; auto.
Qed.

Lemma open_w_not_directory_move p m : Fs.open_w p m ≠ inl DirectoryMove.
Proof.
  unfold Fs.open_w.
  destruct (check_parent_cases m p) as [-> | [-> | ->]]; [|done..].
  by destruct (m !! p) as [[c|]|].
Qed.

Lemma never_mkdir p : never_raises DirectoryMove (Os.mkdir p).
Proof.
  apply never_fs_call. intros m. unfold Fs.mkdir.
  destruct (Fs.exists_ m p); [done|].
  by destruct (check_parent_cases m p) as [-> | [-> | ->]].
Qed.

Lemma never_copy2 src dst : never_raises DirectoryMove (Os.copy2 src dst).
Proof.
  intros w w'. unfold Os.copy2. apply never_fs_call.
  intros m. unfold Fs.copy2, Fs.read_bytes. case_bool_decide; [done|].
  destruct (m !! src) as [[c|]|]; [|done..].
  pose proof (open_w_not_directory_move (Fs.dest m src dst) m).
  by destruct (Fs.open_w _ m) as [[]|].
Qed.

Lemma never_remove p : never_raises DirectoryMove (Os.remove p).
Proof.
  apply never_fs_call. intros m. unfold Fs.remove.
  by destruct (m !! p) as [[c|]|].
Qed.

Lemma never_makedirs_rev rp : never_raises DirectoryMove (Os.makedirs_rev rp).
Proof.
  induction rp as [|name rhead IH]; simpl; [by intros w w' [=]|].
  apply never_bind; [|intros _; apply never_mkdir].
  apply never_bind; [by intros w w' [=]|]. intros b. apply never_when.
  intros w w'. unfold Os.pass_FileExistsError.
  destruct (Os.makedirs_rev rhead w) as [[[]|e] w1] eqn:E; [done|].
  destruct e; try done. intros [= <-]. by apply IH in E.
Qed.

Lemma never_create_backup_dir : never_raises DirectoryMove create_backup_dir.
Proof. intros w w'. by rewrite create_backup_dir_run. Qed.

Lemma never_backup_stage o files :
  never_raises DirectoryMove (backup_stage clk o files).
Proof.
  unfold backup_stage. apply never_when.
  apply never_bind; [apply never_create_backup_dir|]. intros _.
  apply never_bind; [|intros _; apply never_ret].
  unfold backup_migrations.
  apply never_bind; [apply never_makedirs_rev|]. intros _.
  apply never_bind; [|intros _; apply never_ret].
  apply never_for_each. intros f. apply never_copy2.
Qed.

Lemma never_save_old_artifact : never_raises DirectoryMove (save_old_artifact clk).
Proof.
  unfold save_old_artifact. apply never_bind; [by intros w w' [=]|].
  intros b. apply never_when.
  apply never_bind; [apply never_create_backup_dir|]. intros _.
  apply never_copy2.
Qed.

Lemma never_rename_to_init (ts : option string) :
  never_raises DirectoryMove (rename_to_init clk ts).
Proof.
  unfold rename_to_init. apply never_bind; [|intros _; apply never_copy2].
  apply never_bind; [by intros w w' [=]|]. intros b. apply never_when.
  apply never_bind; [apply never_copy2 | intros _; apply never_remove].
Qed.

Lemma never_delete_stage o files : never_raises DirectoryMove (delete_stage o files).
Proof.
  unfold delete_stage. destruct (opt_delete o); [|apply never_ret].
  destruct (opt_backup o); simpl; [|apply never_ret].
  apply never_bind.
  - intros w w'. unfold Os.input. by destruct (w_stdin w).
  - intros line. case_bool_decide; [|apply never_ret].
    apply never_for_each. intros f. apply never_remove.
Qed.

Lemma after_never e0 {A} (r0 : result A) (m : M unit) w r w' :
  r0 ≠ Raise e0 → never_raises e0 m → after r0 m w = (r, w') → r ≠ Raise e0.
Proof.
  intros Hr0 Hm. destruct r0 as [a|e]; simpl.
  - intros H ->. by apply Hm in H.
  - unfold raise. intros [= <- _] [= ->]. by apply Hr0.
Qed.

Lemma run_never_moves_directory (o : options) w r w' :
  consolidate_migrations clk (Some o) w = (r, w') → r ≠ Raise DirectoryMove.
Proof.
  rewrite consolidate_unfold. case_bool_decide; [by intros [= <- _]|].
  intros (r1 & w1 & r2 & w2 & r3 & w3 & r4 & w4 & r5 & w5 &
          H1 & H2 & H3 & H4 & H5 & H6)%stages_inv.
  assert (r1 ≠ Raise DirectoryMove) as N1.
  { intros ->. by apply never_backup_stage in H1. }
  assert (r2 ≠ Raise DirectoryMove) as N2.
  { destruct r1 as [[]|e1]; simpl in H2; [|by injection H2 as <- _].
    destruct (write_temp_file_run clk _ _ _ _
                (λ f Hf, discovered_not_temp w o f Hf) H2)
      as [(_ & -> & _) | [(_ & -> & _) | (_ & [e He] & _ & acc & Hacc)]];
      [done..|].
    intros ->.
    unfold write_temp_file in H2.
    apply bind_inv in H2 as [([] & w1' & Ho & H2) | (e' & Ho & [= <-])].
    - apply bind_inv in H2 as [([] & w2' & Hh & H2) | (e' & Hh & [= <-])].
      + revert H2. apply never_for_each. intros f. unfold write_section.
        repeat first
          [ apply never_fs_call; by intros m
          | apply never_when
          | apply never_bind; [|intros ?] ].
        intros w0 w0'. unfold Os.read, Fs.read, Fs.read_bytes.
        destruct (w_fs w0 !! _) as [[c|]|]; [|done..].
        by destruct (Str.utf8_valid c).
      + revert Hh. apply never_for_each. intros line.
        apply never_fs_call. by intros m.
    - revert Ho. apply never_fs_call, open_w_not_directory_move. }
  assert (r3 ≠ Raise DirectoryMove) as N3
    by (eapply after_never; [exact N2|apply never_save_old_artifact|exact H3]).
  assert (r4 ≠ Raise DirectoryMove) as N4.
  { destruct r3 as [[]|e3]; [|simpl in H4; by injection H4 as <- _].
    destruct (pre_move_ok clk o _ w _ _ _ _ _ (discovered_pre_move w o) H1 H2 H3)
      as (_ & Htemp & Hout & Hnd & _).
    simpl in H4. rewrite (move_temp_run _ _ Htemp) in H4 by (by rewrite Hout).
    by injection H4 as <- _. }
  assert (r5 ≠ Raise DirectoryMove) as N5.
  { eapply after_never; [exact N4| |exact H5].
    apply never_when, never_rename_to_init. }
  eapply after_never; [exact N5|apply never_delete_stage|exact H6].
Qed.

End directory_move.

(** ** [rename_to_init] (C5, C9) *)

Section rename_claims.

Variable clk : clock.










End rename_claims.

(** ** The artifact (C1) *)

Section artifact_claim.

Variable clk : clock.

(** A run has produced its artifact when it returned, or at least logged
    the move of the temporary file. *)
Lemma produced_reaches_move (o : options) w r w' :
  let files := discover w o in
  files ≠ [] →
  consolidate_migrations clk (Some o) w = (r, w') →
  r = Ok tt ∨ (∃ t src d, w_trace w' = w_trace w ++ t ∧ EvMove src d ∈ t) →
  Forall (readable (w_fs w)) files ∧
  w_fs w' !! OUTPUT_FILE = Some (File (artifact_text clk (w_fs w) files)).
Proof.
  intros files Hne. rewrite consolidate_unfold.
  rewrite bool_decide_eq_false_2 by done. fold files.
  intros (r1 & w1 & r2 & w2 & r3 & w3 & r4 & w4 & r5 & w5 &
          H1 & H2 & H3 & H4 & H5 & H6)%stages_inv Hprod.
  destruct r3 as [[]|e3].
  - destruct (pre_move_ok clk o files w _ _ _ _ _ (discovered_pre_move w o) H1 H2 H3)
      as (Hreg & Htemp & Hout & Hnd & _).
    simpl in H4. rewrite (move_temp_run _ _ Htemp) in H4 by (by rewrite Hout).
    injection H4 as <- <-.
    destruct (post_move_within clk o files _ _ _ _ _ _ H5 H6) as [F _].
    split; [done|].
    rewrite (F _ (output_not_post_move_path w o)). simpl.
    apply lookup_insert_eq.
  - destruct (pre_move_within clk o files _ _ _ _ _ _ _ H1 H2 H3)
      as [_ (tpre & Tpre & Epre & _)].
    apply after_raise in H4 as [-> ->]. apply after_raise in H5 as [-> ->].
    apply after_raise in H6 as [-> ->].
    destruct Hprod as [[=] | (t & src & d & Ht & Hmv)].
    rewrite Tpre in Ht. apply app_inv_head in Ht as ->.
    rewrite Forall_forall in Epre. by destruct (Epre _ Hmv) as [[] | []].
Qed.

(** The artifact is produced whenever the discovered entries are regular
    files that decode and nothing stands in the way: no backup to take, no
    previous artifact to save, and the temporary path is not a directory. *)
Lemma artifact_is_produced (o : options) w :
  opt_backup o = false →
  w_fs w !! OUTPUT_FILE = None → w_fs w !! TEMP_FILE ≠ Some Dir →
  discover w o ≠ [] → Forall (readable (w_fs w)) (discover w o) →
  ∃ r w' t, consolidate_migrations clk (Some o) w = (r, w') ∧
            w_trace w' = w_trace w ++ t ∧
            EvMove TEMP_FILE OUTPUT_FILE ∈ t.
Proof.
  intros Hbk Hout Htmp Hne Hreg.
  destruct (consolidate_migrations clk (Some o) w) as [r w'] eqn:Hrun.
  exists r, w'. rewrite consolidate_unfold in Hrun.
  rewrite bool_decide_eq_false_2 in Hrun by done.
  apply stages_inv in Hrun
    as (r1 & w1 & r2 & w2 & r3 & w3 & r4 & w4 & r5 & w5 &
        H1 & H2 & H3 & H4 & H5 & H6).
  unfold backup_stage in H1. rewrite Hbk in H1. injection H1 as <- <-.
  simpl in H2.
  assert (∀ f, f ∈ discover w o → [f] ≠ TEMP_FILE) as Hnt
    by (intros f Hf; by eapply discovered_not_temp).
  destruct (within_write_temp_file clk _ _ _ _ H2) as [_ (t2 & T2 & _)].
  destruct (write_temp_file_run clk _ w _ _ Hnt H2)
    as [(Hdir & _) | [(_ & -> & _ & Htemp) | (_ & _ & Hnreg & _)]];
    [done| |done].
  simpl in H3.
  assert (w_fs w2 !! OUTPUT_FILE = None) as Hout2
    by (by rewrite Htemp, lookup_insert_ne).
  destruct (save_old_artifact_run clk _ _ _ H3)
    as [(_ & -> & ->) | [([n Hn] & _) | (c' & d & t & Hc' & _)]];
    [|congruence..].
  simpl in H4.
  rewrite (move_temp_run w2 (artifact_text clk (w_fs w) (discover w o))) in H4;
    [|by rewrite Htemp, lookup_insert_eq|by rewrite Hout2].
  injection H4 as <- <-.
  destruct (post_move_within clk o _ _ _ _ _ _ _ H5 H6)
    as [_ (tpost & Tpost & _)]. simpl in Tpost.
  exists (t2 ++ EvMove TEMP_FILE OUTPUT_FILE :: tpost). split_and!; [done| |].
  - rewrite Tpost, T2. by rewrite <-!app_assoc.
  - apply elem_of_app. right. left.
Qed.

Lemma sections_lookup m files i f b :
  files !! i = Some f → m !! [f] = Some (File b) →
  sections m files !! i = Some (section_text f (Str.universal_newlines b)).
Proof.
  intros Hi Hb. unfold sections. rewrite list_lookup_fmap, Hi. simpl.
  unfold file_text. by rewrite Hb.
Qed.

(** C1, counterexample: a migration file with Windows line endings.  The
    run returns, and its artifact holds the two lines with [\n] endings: the
    bytes of the source file occur nowhere in it.  The header is followed by
    an empty line.  And for a migration file whose name holds a newline,
    the header takes six lines and the delimiter four. *)
Lemma artifact_not_byte_for_byte :
  let cr := String "013"%char "" in
  let nl := String "010"%char "" in
  let sep := "-- =============================================" in
  let bytes := "create table a();" +:+ cr +:+ nl +:+
               "create index i on a(x);" +:+ cr +:+ nl in
  let w := World {[ ["20240101_a.sql"] := File bytes ]} [] [] in
  let run := consolidate_migrations ex_clock (Some ex_plain) w in
  let w2 := World {[ ["a" +:+ nl +:+ "b.sql"] := File "select 1;" ]} [] [] in
  let run2 := consolidate_migrations ex_clock (Some ex_plain) w2 in
  (run.1 = Ok tt
   ∧ discover w ex_plain = ["20240101_a.sql"]
   ∧ ∃ art, w_fs run.2 !! OUTPUT_FILE = Some (File art)
       ∧ art =
           "-- CONSOLIDATED MIGRATION FILE" +:+ nl +:+
           "-- This file combines all migrations from 20240101_a.sql through 20240101_a.sql"
             +:+ nl +:+
           "-- Created on 2024-01-05 10:10:11" +:+ nl +:+
           "-- Created for easier management while preserving original migrations"
             +:+ nl +:+
           nl +:+
           sep +:+ nl +:+ "-- 20240101_a.sql" +:+ nl +:+ sep +:+ nl +:+
           "create table a();" +:+ nl +:+
           "create index i on a(x);" +:+ nl +:+
           nl
       ∧ ∀ pre post, art ≠ pre +:+ bytes +:+ post)
  ∧ (run2.1 = Ok tt
     ∧ discover w2 ex_plain = ["a" +:+ nl +:+ "b.sql"]
     ∧ ∃ art, w_fs run2.2 !! OUTPUT_FILE = Some (File art)
         ∧ Str.splitlines art =
             [ "-- CONSOLIDATED MIGRATION FILE";
               "-- This file combines all migrations from a";
               "b.sql through a";
               "b.sql";
               "-- Created on 2024-01-05 10:10:11";
               "-- Created for easier management while preserving original migrations";
               "";
               sep; "-- a"; "b.sql"; sep;
               "select 1;"; "" ]).
Proof.
  cbv zeta. split.
  - split_and!; [by vm_compute..|].
    eexists. split_and!; [by vm_compute|by vm_compute|].
    intros pre post E.
    apply (f_equal (Str.has_char "013"%char)) in E.
    rewrite has_char_infix in E by (by vm_compute).
    vm_compute in E. discriminate.
  - split_and!; [by vm_compute..|].
    eexists. split; by vm_compute.
Qed.

(** C1, amended: when a run over a non-empty discovery has produced its
    artifact, the artifact is the header followed by one block per
    discovered file, in the sorted order of the file names.  The header is
    four comment lines, naming the first and the last file and the time, and
    an empty line.  A block is the delimiter (separator, file name,
    separator: three comment lines when the name holds no newline), then the
    file's text as a text-mode read returns it - the bytes the file had when
    the run started, decoded, with every [\r\n] and every other [\r] turned
    into [\n] - then one newline when that text ends with a newline and two
    newlines otherwise. *)
Theorem consolidated_artifact_layout (o : options) w r w' :
  let files := discover w o in
  let nl := String "010"%char "" in
  let sep := "-- =============================================" in
  let header :=
    "-- CONSOLIDATED MIGRATION FILE" +:+ nl +:+
    "-- This file combines all migrations from " +:+ List.hd "" files +:+
      " through " +:+ List.last files "" +:+ nl +:+
    "-- Created on " +:+ now_header clk +:+ nl +:+
    "-- Created for easier management while preserving original migrations"
      +:+ nl +:+
    nl in
  files ≠ [] →
  consolidate_migrations clk (Some o) w = (r, w') →
  r = Ok tt ∨ (∃ t src d, w_trace w' = w_trace w ++ t ∧ EvMove src d ∈ t) →
  ∃ blocks,
    w_fs w' !! OUTPUT_FILE = Some (File (header +:+ concat_strings blocks))
    ∧ (Str.newline_free (List.hd "" files) = true →
       Str.newline_free (List.last files "") = true →
       Str.newline_free (now_header clk) = true →
       Str.splitlines header =
         [ "-- CONSOLIDATED MIGRATION FILE";
           "-- This file combines all migrations from " +:+ List.hd "" files +:+
             " through " +:+ List.last files "";
           "-- Created on " +:+ now_header clk;
           "-- Created for easier management while preserving original migrations";
           "" ])
    ∧ length blocks = length files
    ∧ Sorted String.le files ∧ NoDup files
    ∧ (∀ i f, files !! i = Some f →
         ∃ b, w_fs w !! [f] = Some (File b) ∧ Str.utf8_valid b = true ∧
           let content := Str.universal_newlines b in
           let delim := sep +:+ nl +:+ "-- " +:+ f +:+ nl +:+ sep +:+ nl in
           blocks !! i =
             Some (delim +:+ content +:+
                   (if Str.endswith content nl then nl else nl +:+ nl))
           ∧ (Str.newline_free f = true →
              Str.splitlines delim = [sep; "-- " +:+ f; sep])).
Proof.
  intros files. cbv zeta. intros Hne Hrun Hprod.
  destruct (produced_reaches_move o w r w' Hne Hrun Hprod) as [Hreg Hout].
  fold files in Hreg, Hout.
  exists (sections (w_fs w) files). split_and!.
  - rewrite Hout. unfold artifact_text. by rewrite header_text_spelled.
  - apply header_splitlines.
  - unfold sections. by rewrite length_map.
  - apply sort_names_sorted.
  - apply discover_from_NoDup, NoDup_listdir.
  - intros i f Hi. rewrite Forall_forall in Hreg.
    destruct (Hreg f (list_elem_of_lookup_2 _ _ _ Hi)) as (b & Hb & Hv).
    exists b. split_and!; [done|done| |apply delimiter_splitlines].
    rewrite (sections_lookup _ _ _ _ _ Hi Hb). f_equal.
    apply section_text_spelled.
Qed.

(** C6, counterexample: two migration files, the first one ending in two
    newlines.  In the artifact the text of the first file is followed by
    two empty lines before the next block, not by exactly one. *)
Lemma section_padding_not_normalizing :
  let nl := String "010"%char "" in
  let sep := "-- =============================================" in
  let w := World (<[ ["20240102_b.sql"] := File "create table b();" ]>
                  {[ ["20240101_a.sql"] :=
                       File ("create table a();" +:+ nl +:+ nl) ]}) [] [] in
  let run := consolidate_migrations ex_clock (Some ex_plain) w in
  run.1 = Ok tt
  ∧ ∃ art, w_fs run.2 !! OUTPUT_FILE = Some (File art)
      ∧ art =
          "-- CONSOLIDATED MIGRATION FILE" +:+ nl +:+
          "-- This file combines all migrations from 20240101_a.sql through 20240102_b.sql"
            +:+ nl +:+
          "-- Created on 2024-01-05 10:10:11" +:+ nl +:+
          "-- Created for easier management while preserving original migrations"
            +:+ nl +:+
          nl +:+
          sep +:+ nl +:+ "-- 20240101_a.sql" +:+ nl +:+ sep +:+ nl +:+
          "create table a();" +:+ nl +:+
          nl +:+
          nl +:+
          sep +:+ nl +:+ "-- 20240102_b.sql" +:+ nl +:+ sep +:+ nl +:+
          "create table b();" +:+ nl +:+
          nl
      ∧ Str.splitlines art =
          [ "-- CONSOLIDATED MIGRATION FILE";
            "-- This file combines all migrations from 20240101_a.sql through 20240102_b.sql";
            "-- Created on 2024-01-05 10:10:11";
            "-- Created for easier management while preserving original migrations";
            "";
            sep; "-- 20240101_a.sql"; sep;
            "create table a();"; ""; "";
            sep; "-- 20240102_b.sql"; sep;
            "create table b();"; "" ].
Proof.
  cbv zeta. split; [by vm_compute|].
  eexists. split_and!; by vm_compute.
Qed.

(** C6, amended: in the artifact of a run, the block of every discovered
    file is the delimiter, the file's text as the text-mode read returned
    it, unchanged, then one newline when that text already ends with a
    newline and two newlines otherwise.  Nothing is trimmed: for a text
    with [k] trailing newlines the block ends with [max 1 k] empty lines,
    and with one more when the text is nothing but newlines (the empty file
    included); so it ends with exactly one empty line exactly when the text
    has a character other than newline and at most one trailing newline. *)
Theorem section_padding_appends (o : options) w r w' :
  let files := discover w o in
  let nl := String "010"%char "" in
  let sep := "-- =============================================" in
  files ≠ [] →
  consolidate_migrations clk (Some o) w = (r, w') →
  r = Ok tt ∨ (∃ t src d, w_trace w' = w_trace w ++ t ∧ EvMove src d ∈ t) →
  ∃ header blocks,
    w_fs w' !! OUTPUT_FILE = Some (File (header +:+ concat_strings blocks))
    ∧ length blocks = length files
    ∧ ∀ i f, files !! i = Some f →
        ∃ b block,
          w_fs w !! [f] = Some (File b) ∧ blocks !! i = Some block ∧
          let content := Str.universal_newlines b in
          let k := Str.trailing_newlines content in
          block = (sep +:+ nl +:+ "-- " +:+ f +:+ nl +:+ sep +:+ nl)
                  +:+ content +:+
                  (if Str.endswith content nl then nl else nl +:+ nl)
          ∧ Str.trailing_blank_lines block =
              k `max` 1 + (if bool_decide (k = String.length content) then 1 else 0)
          ∧ (k ≠ String.length content ∧ k ≤ 1 ↔
             Str.trailing_blank_lines block = 1).
Proof.
  intros files. cbv zeta. intros Hne Hrun Hprod.
  destruct (produced_reaches_move o w r w' Hne Hrun Hprod) as [Hreg Hout].
  fold files in Hreg, Hout.
  exists (header_text clk (List.hd "" files) (List.last files "")),
         (sections (w_fs w) files).
  split_and!; [done|by unfold sections; rewrite length_map|].
  intros i f Hi. rewrite Forall_forall in Hreg.
  destruct (Hreg f (list_elem_of_lookup_2 _ _ _ Hi)) as (b & Hb & Hv).
  exists b, (section_text f (Str.universal_newlines b)).
  split_and!; [done|by apply sections_lookup|apply section_text_spelled|..];
    apply blank_lines_section.
Qed.

End artifact_claim.

(** ** Saving the previous artifact and moving the new one (C3) *)

Section overwrite_claim.

Variable clk : clock.










End overwrite_claim.

(** ** The deletion stage (C2, C8, C10) *)

Section deletion.

Variable clk : clock.

Lemma discover_set_delete w o b : discover w (set_delete b o) = discover w o.
Proof. reflexivity. Qed.

Lemma inputs_nil_of_Forall (T : event → Prop) t :
  (∀ line, ¬ T (EvInput line)) → Forall T t → inputs t = [].
Proof.
  intros HT. induction 1 as [|e t He _ IH]; [done|].
  destruct e; simpl; try done. by destruct (HT line).
Qed.

(** The discovered files are outside everything a run without deletion
    touches. *)
Lemma discovered_not_run_path w o f :
  ¬ (opt_delete o = true ∧ opt_backup o = true) →
  f ∈ discover w o → ¬ run_paths o (discover w o) [f].
Proof.
  intros Hnd Hf [H | [[H | H] | [H | [[Hren [H | H]] | (? & ? & _)]]]];
    try discriminate H; [| | | |tauto].
  - by eapply discovered_not_temp.
  - by eapply discovered_not_output.
  - by eapply discovered_not_under_backups.
  - injection H as H. by eapply discovered_not_init.
Qed.

(** A run that returns has read every discovered file as a regular file. *)
Lemma run_ok_regular o w w' :
  discover w o ≠ [] →
  consolidate_migrations clk (Some o) w = (Ok tt, w') →
  Forall (regular (w_fs w)) (discover w o).
Proof.
  intros Hne. rewrite consolidate_unfold, bool_decide_eq_false_2 by done.
  intros (r1 & w1 & r2 & w2 & r3 & w3 & r4 & w4 & r5 & w5 &
          H1 & H2 & H3 & H4 & H5 & H6)%stages_inv.
  apply after_ok in H6 as [[[] ->] _]. apply after_ok in H5 as [[[] ->] _].
  apply after_ok in H4 as [[[] ->] _].
  apply Forall_readable_regular.
  by destruct (pre_move_ok clk o _ w _ _ _ _ _ (discovered_pre_move w o) H1 H2 H3).
Qed.

(** A run is the run without deletion followed by the deletion stage. *)
Lemma run_split o w r w' r0 w0 :
  discover w o ≠ [] →
  consolidate_migrations clk (Some o) w = (r, w') →
  consolidate_migrations clk (Some (set_delete false o)) w = (r0, w0) →
  after r0 (delete_stage o (discover w o)) w0 = (r, w').
Proof.
  intros Hne. rewrite !consolidate_unfold, discover_set_delete.
  rewrite bool_decide_eq_false_2 by done.
  intros (r1 & w1 & r2 & w2 & r3 & w3 & r4 & w4 & r5 & w5 &
          H1 & H2 & H3 & H4 & H5 & H6)%stages_inv.
  intros (r1' & w1' & r2' & w2' & r3' & w3' & r4' & w4' & r5' & w5' &
          H1' & H2' & H3' & H4' & H5' & H6')%stages_inv.
  assert (backup_stage clk (set_delete false o) (discover w o) w
          = backup_stage clk o (discover w o) w) as E by (by destruct o).
  rewrite E, H1 in H1'. injection H1' as <- <-.
  rewrite H2 in H2'. injection H2' as <- <-.
  rewrite H3 in H3'. injection H3' as <- <-.
  rewrite H4 in H4'. injection H4' as <- <-.
  change (opt_rename (set_delete false o)) with (opt_rename o) in H5'.
  change (opt_timestamp (set_delete false o)) with (opt_timestamp o) in H5'.
  rewrite H5 in H5'. injection H5' as <- <-.
  assert (delete_stage (set_delete false o) (discover w o) = ret tt) as E'
    by (by destruct o).
  rewrite E' in H6'. destruct r5 as [[]|e]; simpl in H6';
    injection H6' as <- <-; done.
Qed.

Lemma delete_stage_run o files w r w' :
  delete_stage o files w = (r, w') →
  (¬ (opt_delete o = true ∧ opt_backup o = true) ∧ r = Ok tt ∧ w' = w) ∨
  (opt_delete o = true ∧ opt_backup o = true ∧
   ((w_stdin w = [] ∧ r = Raise EOFError ∧ w' = w) ∨
    ∃ line rest, w_stdin w = line :: rest ∧
      let w1 := World (w_fs w) rest (w_trace w ++ [EvInput line]) in
      (Str.lower line ≠ "y" ∧ r = Ok tt ∧ w' = w1) ∨
      (Str.lower line = "y" ∧ delete_migrations files w1 = (r, w')))).
Proof.
  unfold delete_stage.
  destruct (opt_delete o); [|intros [= <- <-]; left; split; [intros [??]|]; done].
  destruct (opt_backup o); simpl;
    [|intros [= <- <-]; left; split; [intros [??]|]; done].
  unfold bind, Os.input. destruct (w_stdin w) as [|line rest] eqn:E.
  - intros [= <- <-]. right. split_and!; [done..|]. by left.
  - intros Hrun. right. split_and!; [done..|]. right. exists line, rest.
    split; [done|]. case_bool_decide.
    + by right.
    + injection Hrun as <- <-. by left.
Qed.

(** The loop of [delete_migrations]: it removes the listed files one by
    one, and returns exactly when all of them are regular files. *)
Lemma delete_migrations_run files w r w' :
  NoDup files →
  delete_migrations files w = (r, w') →
  (r = Ok tt ↔ Forall (regular (w_fs w)) files)
  ∧ (r = Ok tt →
       w_trace w' = w_trace w ++ ((λ f, EvRemove [f]) <$> files) ∧
       w_stdin w' = w_stdin w ∧
       ∀ q, (delete_paths files q → w_fs w' !! q = None) ∧
            (¬ delete_paths files q → w_fs w' !! q = w_fs w !! q)).
Proof.
  unfold delete_migrations. revert w.
  induction files as [|f files IH]; intros w Hnd; simpl.
  - intros [= <- <-]. split; [split; [constructor|done]|]. intros _.
    rewrite app_nil_r. split_and!; [done..|]. intros q. split; [|done].
    intros (f & Hf & _). by apply not_elem_of_nil in Hf.
  - apply NoDup_cons in Hnd as [Hf Hnd]. rewrite join_root.
    intros [([] & w1 & H1 & H2) | (e & H1 & ->)]%bind_inv.
    + apply remove_run in H1 as [(c & Hc & _ & ->) | (e & [=] & _)].
      destruct (IH _ Hnd H2) as [Hiff Hok]. simpl in *.
      assert (∀ g, g ∈ files → delete [f] (w_fs w) !! [g] = w_fs w !! [g]) as Hsame.
      { intros g Hg. apply lookup_delete_ne. intros [= ->]. done. }
      split.
      * rewrite Hiff, Forall_cons. split.
        -- intros Hreg. split; [by exists c|].
           rewrite Forall_forall in Hreg |- *. intros g Hg.
           destruct (Hreg g Hg) as [c' Hc']. exists c'. by rewrite <-Hsame.
        -- intros [_ Hreg]. rewrite Forall_forall in Hreg |- *. intros g Hg.
           destruct (Hreg g Hg) as [c' Hc']. exists c'. by rewrite Hsame.
      * intros Hr. destruct (Hok Hr) as (Ht & Hs & Hq).
        split_and!; [by rewrite Ht, <-app_assoc|done|]. intros q.
        destruct (Hq q) as [Hin Hout]. split.
        -- intros (g & [-> | Hg]%elem_of_cons & ->).
           ++ destruct (decide (f ∈ files)) as [?|_]; [done|].
              rewrite Hout; [apply lookup_delete_eq|].
              intros (g & Hg & [= ->]). done.
           ++ apply Hin. by exists g.
        -- intros Hnot. rewrite Hout.
           ++ apply lookup_delete_ne. intros <-. apply Hnot. exists f.
              split; [by left|done].
           ++ intros (g & Hg & ->). apply Hnot. exists g.
              split; [by right|done].
    + apply remove_run in H1 as [(c & _ & [=] & _) | (e' & _ & _ & Hno)].
      split; [|done]. split; [done|]. intros [[c Hc] _]%Forall_cons.
      by destruct (Hno c).
Qed.

(** What a run without deletion leaves alone and logs. *)
Lemma run_without_delete o w r0 w0 :
  consolidate_migrations clk (Some (set_delete false o)) w = (r0, w0) →
  (∀ f, f ∈ discover w o → w_fs w0 !! [f] = w_fs w !! [f])
  ∧ w_stdin w0 = w_stdin w
  ∧ ∃ t0, w_trace w0 = w_trace w ++ t0 ∧
          (∀ line, EvInput line ∉ t0) ∧
          (∀ f, f ∈ discover w o → EvRemove [f] ∉ t0).
Proof.
  intros Hrun.
  destruct (consolidate_within clk _ _ _ _ Hrun) as [F (t0 & T0 & E0 & I0)].
  rewrite discover_set_delete in F, E0.
  assert (∀ line, ¬ run_event (set_delete false o) (discover w o) (EvInput line))
    as Hin by (by intros line [[=] _]).
  split_and!.
  - intros f Hf. apply F.
    apply (discovered_not_run_path w (set_delete false o)); [|done].
    by intros [[=] _].
  - by rewrite I0, (inputs_nil_of_Forall _ _ Hin E0).
  - exists t0. rewrite Forall_forall in E0. split_and!; [done| |].
    + intros line Hl. by apply (Hin line), E0.
    + intros f Hf Hr. destruct (E0 _ Hr) as [[Hren [= ->]] | ([=] & _)].
      by eapply (discovered_not_init w o).
Qed.

(** C2, counterexample: one migration file, delete requested without
    backup.  The run returns and refuses to delete, but it has created the
    consolidated artifact, so the directory has one more entry than before. *)
Lemma refused_delete_still_writes_artifact :
  let o := Options false true false "20240105" in
  let w := World {[ ["20240101_a.sql"] := File "create table a();" ]} [] [] in
  let w' := (consolidate_migrations (Clock "20240105" "" "" "") (Some o) w).2 in
  (consolidate_migrations (Clock "20240105" "" "" "") (Some o) w).1 = Ok tt
  ∧ Fs.listdir (w_fs w) = ["20240101_a.sql"]
  ∧ Fs.listdir (w_fs w') = ["consolidated_migration.sql"; "20240101_a.sql"]
  ∧ w_fs w' ≠ w_fs w.
Proof.
  split_and!; [by vm_compute..|].
  intros E. apply (f_equal (λ m : gmap (list string) node, m !! OUTPUT_FILE)) in E.
  vm_compute in E. discriminate.
Qed.

(** C2, amended: with delete requested and backup not, the consolidation
    (and the rename, if requested) is carried out as usual and the deletion
    is then refused: the run is, outcome and final state, the run of the
    same options without delete, and no confirmation is read.  So the
    directory is not in general left unchanged: when the run returns over a
    non-empty discovery, the artifact's path holds the new artifact.  Unless
    a rename is requested with a timestamp that holds a path separator, no
    discovered file is removed and every discovered file is left as it
    was. *)
Theorem delete_without_backup_refused (o : options) w r w' :
  let files := discover w o in
  let plain := opt_rename o = true → Str.no_separator (opt_timestamp o) = true in
  opt_delete o = true → opt_backup o = false →
  consolidate_migrations clk (Some o) w = (r, w') →
  consolidate_migrations clk (Some (set_delete false o)) w = (r, w')
  ∧ w_stdin w' = w_stdin w
  ∧ (∃ t, w_trace w' = w_trace w ++ t ∧
          (∀ line, EvInput line ∉ t) ∧
          (plain → ∀ f, f ∈ files → EvRemove [f] ∉ t))
  ∧ (plain → ∀ f, f ∈ files → w_fs w' !! [f] = w_fs w !! [f])
  ∧ (files ≠ [] → r = Ok tt →
     w_fs w' !! OUTPUT_FILE = Some (File (artifact_text clk (w_fs w) files))).
Proof.
  intros files plain Hd Hb Hrun.
  pose proof Hrun as Hrun0.
  rewrite (refused_delete_is_no_delete clk o w Hd Hb) in Hrun0.
  destruct (run_without_delete o w r w' Hrun0) as (Hf & Hs & t & Ht & Hin & Hrm).
  split_and!; [done|done| |by intros _| ].
  - exists t. split_and!; [done|done|by intros _].
  - intros Hne Hr.
    by destruct (produced_reaches_move clk o w r w' Hne Hrun (or_introl Hr)).
Qed.

(** The removals of discovered files in the log of a run, and the run whose
    answer is not [y]. *)
Lemma run_deletion_guarded (o : options) w r w' :
  let files := discover w o in
  consolidate_migrations clk (Some o) w = (r, w') →
  ∃ t, w_trace w' = w_trace w ++ t
    ∧ (∀ f, f ∈ files → EvRemove [f] ∈ t →
         opt_delete o = true ∧ opt_backup o = true ∧
         ∃ t1 line t2,
           t = t1 ++ EvInput line :: t2 ∧ Str.lower line = "y" ∧
           head (w_stdin w) = Some line ∧
           (∀ g, g ∈ files → EvRemove [g] ∉ t1) ∧
           (∀ e, e ∈ t2 → ∃ g, g ∈ files ∧ e = EvRemove [g]))
    ∧ (∀ r0 w0,
         consolidate_migrations clk (Some (set_delete false o)) w = (r0, w0) →
         (∀ line, head (w_stdin w) = Some line → Str.lower line ≠ "y") →
         w_fs w' = w_fs w0 ∧
         ∀ f, f ∈ files → w_fs w' !! [f] = w_fs w !! [f]).
Proof.
  intros files Hrun.
  destruct (decide (files = [])) as [Hnil|Hne].
  { rewrite consolidate_unfold in Hrun. fold files in Hrun.
    rewrite bool_decide_eq_true_2 in Hrun by done. injection Hrun as <- <-.
    exists []. rewrite app_nil_r. split_and!; [done| |].
    - intros f _ Hf. by apply not_elem_of_nil in Hf.
    - intros r0 w0. rewrite consolidate_unfold, discover_set_delete.
      fold files. rewrite bool_decide_eq_true_2 by done.
      by intros [= <- <-]. }
  destruct (consolidate_migrations clk (Some (set_delete false o)) w)
    as [r0 w0] eqn:Hrun0.
  pose proof (run_split o w r w' r0 w0 Hne Hrun Hrun0) as Hdel.
  destruct (run_without_delete o w r0 w0 Hrun0)
    as (Hfiles & Hstdin & t0 & Ht0 & Hnoin & Hnorm).
  fold files in Hfiles, Hnorm, Hdel.
  assert (w' = w0 ∨
          (∃ line rest, w_stdin w = line :: rest ∧ Str.lower line ≠ "y" ∧
             w' = World (w_fs w0) rest (w_trace w0 ++ [EvInput line])) ∨
          (opt_delete o = true ∧ opt_backup o = true ∧
           ∃ line rest, w_stdin w = line :: rest ∧ Str.lower line = "y" ∧
             delete_migrations files
               (World (w_fs w0) rest (w_trace w0 ++ [EvInput line])) = (r, w')))
    as Hcases.
  { destruct r0 as [[]|e0]; [|apply after_raise in Hdel as [-> ->]; by left].
    simpl in Hdel. rewrite <-Hstdin.
    destruct (delete_stage_run _ _ _ _ _ Hdel)
      as [(_ & _ & ->) | (Hd & Hb & [(_ & _ & ->) |
            (line & rest & Hl & [(Hny & _ & ->) | (Hy & Hdm)])])].
    - by left.
    - by left.
    - right. left. eauto.
    - right. right. split_and!; [done..|]. eauto. }
  destruct Hcases as [-> | [(line & rest & Hl & Hny & ->) |
                            (Hd & Hb & line & rest & Hl & Hy & Hdm)]].
  - exists t0. split_and!; [done| |].
    + intros f Hf Hr. by destruct (Hnorm f Hf).
    + intros r0' w0' [= <- <-] _. done.
  - exists (t0 ++ [EvInput line]). split_and!.
    + simpl. by rewrite Ht0, <-app_assoc.
    + intros f Hf [Hr | Hr]%elem_of_app; [by destruct (Hnorm f Hf)|].
      by apply list_elem_of_singleton in Hr.
    + intros r0' w0' [= <- <-] _. done.
  - destruct (within_delete_migrations files _ _ _ Hdm)
      as [_ (t2 & Ht2 & Et2 & _)]. simpl in Ht2.
    exists (t0 ++ EvInput line :: t2). split_and!.
    + by rewrite Ht2, Ht0, <-!app_assoc.
    + intros f Hf _. split_and!; [done..|].
      exists t0, line, t2. split_and!; [done|done|by rewrite Hl|done|].
      intros e He. rewrite Forall_forall in Et2. apply (Et2 e He).
    + intros r0' w0' _ Hans. destruct (Hans line); [by rewrite Hl|done].
Qed.

(** What a run logs beyond the same run without delete: nothing, or the
    confirmation line followed, only when it lowercases to [y], by removals
    of discovered files. *)
Lemma run_deletion_log (o : options) w r w' r0 w0 :
  let files := discover w o in
  consolidate_migrations clk (Some o) w = (r, w') →
  consolidate_migrations clk (Some (set_delete false o)) w = (r0, w0) →
  ∃ td, w_trace w' = w_trace w0 ++ td ∧
    (td = [] ∨
     ∃ line t2, td = EvInput line :: t2 ∧ head (w_stdin w) = Some line ∧
       opt_delete o = true ∧ opt_backup o = true ∧
       (Str.lower line ≠ "y" → t2 = []) ∧
       (∀ e, e ∈ t2 → ∃ g, g ∈ files ∧ e = EvRemove [g])).
Proof.
  intros files Hrun Hrun0.
  destruct (decide (files = [])) as [Hnil|Hne].
  { rewrite consolidate_unfold in Hrun, Hrun0.
    rewrite discover_set_delete in Hrun0. fold files in Hrun, Hrun0.
    rewrite bool_decide_eq_true_2 in Hrun, Hrun0 by done.
    injection Hrun as <- <-. injection Hrun0 as <- <-.
    exists []. rewrite app_nil_r. auto. }
  pose proof (run_split o w r w' r0 w0 Hne Hrun Hrun0) as Hdel.
  destruct (run_without_delete o w r0 w0 Hrun0) as (_ & Hstdin & _).
  fold files in Hdel.
  destruct r0 as [[]|e0].
  - simpl in Hdel.
    destruct (delete_stage_run _ _ _ _ _ Hdel)
      as [(_ & _ & ->) | (Hd & Hb & [(_ & _ & ->) |
            (line & rest & Hl & [(Hny & _ & ->) | (Hy & Hdm)])])].
    + exists []. rewrite app_nil_r. auto.
    + exists []. rewrite app_nil_r. auto.
    + exists [EvInput line]. split; [done|]. right. exists line, [].
      rewrite <-Hstdin, Hl. split_and!; [done..|].
      intros e He. by apply not_elem_of_nil in He.
    + destruct (within_delete_migrations files _ _ _ Hdm)
        as [_ (t2 & Ht2 & Et2 & _)]. simpl in Ht2.
      exists (EvInput line :: t2). split; [by rewrite Ht2, <-app_assoc|].
      right. exists line, t2. rewrite <-Hstdin, Hl.
      split_and!; [done..| |].
      * intros Hny. by destruct Hny.
      * intros e He. rewrite Forall_forall in Et2. apply (Et2 e He).
  - apply after_raise in Hdel as [-> ->]. exists []. rewrite app_nil_r. auto.
Qed.

(** C8: beyond what the same run without delete does, a run only reads the
    first line waiting on standard input, when delete and backup are both
    set, and then, only when that line lowercases to [y], removes discovered
    files.  So, unless a rename is requested with a timestamp that holds a
    path separator, a discovered file is removed only after such a line:
    the line is read after every other stage, and the only calls logged
    after it are the removals of discovered files.  With any other answer,
    or none, the file system ends exactly as in the run without delete, and
    (under the same condition on the timestamp) every discovered file is as
    it was. *)
Theorem deletion_needs_confirmation (o : options) w r w' :
  let files := discover w o in
  let plain := opt_rename o = true → Str.no_separator (opt_timestamp o) = true in
  consolidate_migrations clk (Some o) w = (r, w') →
  (∀ r0 w0,
     consolidate_migrations clk (Some (set_delete false o)) w = (r0, w0) →
     ∃ td, w_trace w' = w_trace w0 ++ td ∧
       (td = [] ∨
        ∃ line t2, td = EvInput line :: t2 ∧ head (w_stdin w) = Some line ∧
          opt_delete o = true ∧ opt_backup o = true ∧
          (Str.lower line ≠ "y" → t2 = []) ∧
          (∀ e, e ∈ t2 → ∃ g, g ∈ files ∧ e = EvRemove [g])))
  ∧ ∃ t, w_trace w' = w_trace w ++ t
    ∧ (plain → ∀ f, f ∈ files → EvRemove [f] ∈ t →
         opt_delete o = true ∧ opt_backup o = true ∧
         ∃ t1 line t2,
           t = t1 ++ EvInput line :: t2 ∧ Str.lower line = "y" ∧
           head (w_stdin w) = Some line ∧
           (∀ g, g ∈ files → EvRemove [g] ∉ t1) ∧
           (∀ e, e ∈ t2 → ∃ g, g ∈ files ∧ e = EvRemove [g]))
    ∧ (∀ r0 w0,
         consolidate_migrations clk (Some (set_delete false o)) w = (r0, w0) →
         (∀ line, head (w_stdin w) = Some line → Str.lower line ≠ "y") →
         w_fs w' = w_fs w0 ∧
         (plain → ∀ f, f ∈ files → w_fs w' !! [f] = w_fs w !! [f])).
Proof.
  intros files plain Hrun. split.
  { intros r0 w0 Hrun0. exact (run_deletion_log o w r w' r0 w0 Hrun Hrun0). }
  destruct (run_deletion_guarded o w r w' Hrun) as (t & Ht & Hrm & Hother).
  exists t. split_and!; [done|by intros _|].
  intros r0 w0 Hrun0 Hans.
  destruct (Hother r0 w0 Hrun0 Hans) as [Hfs Hfiles]. split; [done|by intros _].
Qed.

(** C10: take a run with delete and backup set whose earlier stages
    returned, leaving the world [w0], and whose confirmation line lowercases
    to [y].  Then the deletion goes through: the log is extended by the
    confirmation and one removal per discovered file, in order; every
    discovered file, still a regular file in [w0], is gone; and every other
    path is exactly as in [w0] - in particular the consolidated artifact,
    every entry that does not end with [.sql], every entry that starts with
    [consolidated_migration], and, when rename is requested, every entry
    that starts with [{timestamp}_initial_schema]. *)
Theorem deletion_removes_exactly_discovered (o : options) w r w' w0 line rest :
  let files := discover w o in
  files ≠ [] → opt_delete o = true → opt_backup o = true →
  w_stdin w = line :: rest → Str.lower line = "y" →
  consolidate_migrations clk (Some (set_delete false o)) w = (Ok tt, w0) →
  consolidate_migrations clk (Some o) w = (r, w') →
  r = Ok tt
  ∧ w_trace w' = w_trace w0 ++ EvInput line :: ((λ f, EvRemove [f]) <$> files)
  ∧ (∀ f, f ∈ files → regular (w_fs w0) f ∧ w_fs w' !! [f] = None)
  ∧ (∀ q, (∀ f, f ∈ files → q ≠ [f]) → w_fs w' !! q = w_fs w0 !! q)
  ∧ (∀ name,
       Str.endswith name ".sql" = false ∨
       Str.startswith name "consolidated_migration" = true ∨
       (opt_rename o = true ∧
        Str.startswith name (opt_timestamp o +:+ "_initial_schema") = true) →
       w_fs w' !! [name] = w_fs w0 !! [name])
  ∧ w_fs w' !! OUTPUT_FILE = w_fs w0 !! OUTPUT_FILE.
Proof.
  intros files Hne Hd Hb Hl Hy Hrun0 Hrun.
  pose proof (run_split o w r w' _ w0 Hne Hrun Hrun0) as Hdel. simpl in Hdel.
  destruct (run_without_delete o w _ w0 Hrun0) as (Hfiles & Hstdin & _).
  fold files in Hfiles, Hdel.
  assert (Forall (regular (w_fs w0)) files) as Hreg.
  { apply (regular_ext (w_fs w)); [by intros f Hf; rewrite Hfiles|].
    exact (run_ok_regular (set_delete false o) w w0 Hne Hrun0). }
  assert (NoDup files) as Hnd by apply discover_from_NoDup, NoDup_listdir.
  destruct (delete_stage_run _ _ _ _ _ Hdel)
    as [(Hno & _) | (_ & _ & [(He & _) |
          (line' & rest' & Hl' & [(Hny & _) | (_ & Hdm)])])].
  - destruct Hno. done.
  - congruence.
  - congruence.
  - assert (line' = line ∧ rest' = rest) as [-> ->].
    { rewrite Hstdin, Hl in Hl'. by injection Hl' as -> ->. }
    destruct (delete_migrations_run files _ _ _ Hnd Hdm) as [Hiff Hok].
    assert (r = Ok tt) as -> by by apply Hiff.
    destruct (Hok eq_refl) as (Ht & _ & Hq). simpl in Ht, Hq.
    assert (∀ q, (∀ f, f ∈ files → q ≠ [f]) → w_fs w' !! q = w_fs w0 !! q)
      as Hframe.
    { intros q Hq'. apply Hq. intros (f & Hf & ->). by apply (Hq' f). }
    split_and!; [done|by rewrite Ht, <-app_assoc| |done| |].
    + intros f Hf. rewrite Forall_forall in Hreg. split; [by apply Hreg|].
      apply Hq. by exists f.
    + intros name Hname. apply Hframe. intros f Hf [= ->].
      apply elem_of_discover_from in Hf as (_ & Hm & Hi).
      unfold is_migration in Hm.
      apply andb_true_iff in Hm as [Hsql Hbase%negb_true_iff].
      destruct Hname as [H | [H | [Hren H]]].
      * by rewrite H in Hsql.
      * by rewrite H in Hbase.
      * specialize (Hi Hren). unfold is_planned_init in Hi. by rewrite H in Hi.
    + apply Hframe. intros f Hf E. by eapply discovered_not_output.
Qed.

End deletion.

(** * The properties on a concrete directory *)

Section examples.

Lemma ex_discovered (b d : bool) (t : string) stdin :
  discover (World ex_fs stdin []) (Options b d false t) =
    ["20240101_a.sql"; "20240102_b.sql"].
Proof. reflexivity. Qed.

(** Two migrations, no artifact yet, no option set. *)
Lemma consolidated_artifact_layout_witness :
  discover (World ex_fs [] []) ex_plain ≠ [] ∧
  ∃ blocks,
    w_fs (ex_run ex_fs ex_plain []).2 !! OUTPUT_FILE =
      Some (File (("-- CONSOLIDATED MIGRATION FILE" +:+ NL +:+
                   "-- This file combines all migrations from 20240101_a.sql through 20240102_b.sql"
                     +:+ NL +:+
                   "-- Created on 2024-01-05 10:10:11" +:+ NL +:+
                   "-- Created for easier management while preserving original migrations"
                     +:+ NL +:+ NL)
                  +:+ concat_strings blocks)) ∧
    length blocks = 2.
Proof.
  assert (discover (World ex_fs [] []) ex_plain ≠ []) as H1 by (by vm_compute).
  assert (consolidate_migrations ex_clock (Some ex_plain) (World ex_fs [] [])
          = (Ok tt, (ex_run ex_fs ex_plain []).2)) as H2
    by (vm_compute; reflexivity).
  split; [exact H1|].
  destruct (consolidated_artifact_layout ex_clock ex_plain _ _ _ H1 H2
              (or_introl eq_refl)) as (blocks & Hout & _ & Hlen & _).
  exists blocks. split; [exact Hout | exact Hlen].
Defined.

(** The same run: the block of the first file, whose text has no trailing
    newline, ends with exactly one empty line. *)
Lemma section_padding_appends_witness :
  discover (World ex_fs [] []) ex_plain ≠ [] ∧
  ∃ block,
    Str.endswith block ("create table a();" +:+ NL +:+ NL) = true ∧
    Str.trailing_blank_lines block = 1.
Proof.
  assert (discover (World ex_fs [] []) ex_plain ≠ []) as H1 by (by vm_compute).
  assert (consolidate_migrations ex_clock (Some ex_plain) (World ex_fs [] [])
          = (Ok tt, (ex_run ex_fs ex_plain []).2)) as H2
    by (vm_compute; reflexivity).
  split; [exact H1|].
  destruct (section_padding_appends ex_clock ex_plain _ _ _ H1 H2
              (or_introl eq_refl)) as (header & blocks & _ & _ & Hblock).
  destruct (Hblock 0 "20240101_a.sql" eq_refl)
    as (b & block & Hb & _ & Hshape & _ & Hone).
  assert (b = "create table a();") as -> by (vm_compute in Hb; congruence).
  exists block. split.
  - rewrite Hshape. reflexivity.
  - apply Hone. vm_compute. split; [discriminate | apply le_0_n].
Defined.

(** Delete without backup: the waiting [y] is not read and the first
    migration is still there. *)
Lemma delete_without_backup_refused_witness :
  opt_delete ex_delete_only = true ∧ opt_backup ex_delete_only = false ∧
  w_fs (ex_run ex_fs ex_delete_only ["y"]).2 !! ["20240101_a.sql"] =
    Some (File "create table a();") ∧
  w_stdin (ex_run ex_fs ex_delete_only ["y"]).2 = ["y"].
Proof.
  destruct (delete_without_backup_refused ex_clock ex_delete_only
              (World ex_fs ["y"] []) _ _ eq_refl eq_refl
              (surjective_pairing _)) as (_ & Hs & _ & Hf & _).
  split_and!; [reflexivity|reflexivity| |exact Hs].
  unfold ex_run. rewrite Hf; [reflexivity|discriminate|].
  unfold ex_delete_only. rewrite ex_discovered. left.
Defined.


(** In the menu: ask for deletion, try to switch the backup off, proceed. *)
Lemma options_invariant_by_path_witness :
  show_menu ex_clock (World ∅ ["2"; "1"; ""; "4"] []) =
    (Ok (Options true true false "20240105"),
     World ∅ [] (EvInput <$> ["2"; "1"; ""; "4"])) ∧
  safe_options (Options true true false "20240105").
Proof.
  assert (show_menu ex_clock (World ∅ ["2"; "1"; ""; "4"] []) =
            (Ok (Options true true false "20240105"),
             World ∅ [] (EvInput <$> ["2"; "1"; ""; "4"]))) as H
    by (vm_compute; reflexivity).
  split; [exact H|].
  exact (proj1 (options_invariant_by_path ex_clock) _ _ _ H).
Defined.


(** Deletion asked with backup, the answer is [n]. *)
Lemma deletion_needs_confirmation_witness :
  w_fs (ex_run ex_fs ex_backup_delete ["n"]).2 =
    w_fs (ex_run ex_fs (set_delete false ex_backup_delete) ["n"]).2.
Proof.
  destruct (deletion_needs_confirmation ex_clock ex_backup_delete
              (World ex_fs ["n"] []) _ _ (surjective_pairing _))
    as (_ & t & _ & _ & Hother).
  apply (Hother _ _ (surjective_pairing _)).
  intros line [= <-]. vm_compute. discriminate.
Defined.


(** Deletion asked with backup, the answer is [Y]. *)
Lemma deletion_removes_exactly_discovered_witness :
  Str.lower "Y" = "y" ∧
  (ex_run ex_fs ex_backup_delete ["Y"]).1 = Ok tt ∧
  w_fs (ex_run ex_fs ex_backup_delete ["Y"]).2 !! ["20240101_a.sql"] = None.
Proof.
  assert (Str.lower "Y" = "y") as Hy by reflexivity.
  assert (discover (World ex_fs ["Y"] []) ex_backup_delete ≠ []) as Hne
    by (unfold ex_backup_delete; by rewrite ex_discovered).
  assert (consolidate_migrations ex_clock (Some (set_delete false ex_backup_delete))
            (World ex_fs ["Y"] [])
          = (Ok tt, (ex_run ex_fs (set_delete false ex_backup_delete) ["Y"]).2))
    as H0 by (vm_compute; reflexivity).
  destruct (deletion_removes_exactly_discovered ex_clock ex_backup_delete
              (World ex_fs ["Y"] []) _ _ _ "Y" [] Hne eq_refl eq_refl eq_refl
              Hy H0 (surjective_pairing _)) as (Hr & _ & Hgone & _).
  split_and!; [exact Hy|exact Hr|].
  apply Hgone. unfold ex_backup_delete. rewrite ex_discovered. left.
Defined.

End examples.

(** * Further properties of the script *)

Section backup_runs.

Variable clk : clock.

Lemma mkdir_run (p : path) w r w' :
  Os.mkdir p w = (r, w') →
  (r = Ok tt ∧ Fs.exists_ (w_fs w) p = false ∧
   Fs.check_parent (w_fs w) p = None ∧
   w' = World (<[p := Dir]> (w_fs w)) (w_stdin w) (w_trace w ++ [EvMkdir p])) ∨
  (w' = w ∧
   ((r = Raise FileExistsError ∧ Fs.exists_ (w_fs w) p = true) ∨
    (∃ e, r = Raise e ∧ Fs.exists_ (w_fs w) p = false ∧
          Fs.check_parent (w_fs w) p = Some e))).
Proof.
  unfold Os.mkdir, fs_call, Fs.mkdir.
  destruct (Fs.exists_ (w_fs w) p) eqn:E.
  - intros [= <- <-]. right. split; [done|by left].
  - destruct (Fs.check_parent (w_fs w) p) as [e|] eqn:Ep.
    + intros [= <- <-]. right. split; [done|]. right. eauto.
    + intros [= <- <-]. by left.
Qed.

(** [os.makedirs] on the backup directory: the backup root is created
    first when it is missing. *)
Lemma makedirs_subdir_unfold w :
  Os.makedirs (backup_subdir clk) w =
    if Fs.exists_ (w_fs w) BACKUP_DIR then Os.mkdir (backup_subdir clk) w
    else Os.mkdir (backup_subdir clk)
           (World (<[BACKUP_DIR := Dir]> (w_fs w)) (w_stdin w)
                  (w_trace w ++ [EvMkdir BACKUP_DIR])).
Proof.
  unfold Os.makedirs, backup_subdir, BACKUP_DIR, join, MIGRATIONS_DIR. simpl.
  unfold bind, Os.path_exists, Os.pass_FileExistsError. simpl.
  destruct (Fs.exists_ (w_fs w) ["backups"]) eqn:E; simpl; [done|].
  unfold Os.mkdir at 1. unfold fs_call at 1. unfold Fs.mkdir at 1.
  rewrite E. simpl. done.
Qed.

Lemma backup_copy_not_top f g : backup_copy clk f ≠ [g].
Proof. done. Qed.

Lemma backup_copy_inj f g : backup_copy clk f = backup_copy clk g → f = g.
Proof. by intros [= ->]. Qed.

(** One copy of the loop, once the backup directory is ready. *)
Lemma copy_into_subdir f w :
  subdir_ready clk (w_fs w) →
  Os.copy2 [f] (backup_copy clk f) w =
    match w_fs w !! [f] with
    | Some (File c) =>
        (Ok tt, World (<[backup_copy clk f := File c]> (w_fs w)) (w_stdin w)
                      (w_trace w ++ [EvCopy [f] (backup_copy clk f)]))
    | Some Dir => (Raise IsADirectoryError, w)
    | None => (Raise FileNotFoundError, w)
    end.
Proof.
  intros [Hsub Hnd]. specialize (Hnd f).
  assert (Fs.dest (w_fs w) [f] (backup_copy clk f) = backup_copy clk f) as Hdest.
  { unfold Fs.dest, Fs.isdir, Fs.node_at, backup_copy, join. simpl.
    unfold backup_copy, join in Hnd. simpl in Hnd.
    by destruct (w_fs w !! [_; _; _]) as [[c|]|]. }
  unfold Os.copy2, fs_call, Fs.copy2. rewrite Hdest.
  rewrite bool_decide_eq_false_2 by done.
  unfold Fs.read_bytes. destruct (w_fs w !! [f]) as [[c|]|]; [|done..].
  unfold Fs.open_w, Fs.check_parent, Fs.parent, Fs.node_at.
  unfold backup_copy, backup_subdir, join in *. simpl in *.
  rewrite Hsub.
  destruct (w_fs w !! [_; _; _]) as [[c'|]|] eqn:E; [|done|];
    by rewrite write_after_open.
Qed.

Lemma subdir_ready_insert f c m :
  subdir_ready clk m → subdir_ready clk (<[backup_copy clk f := File c]> m).
Proof.
  intros [Hsub Hnd]. split.
  - rewrite lookup_insert_ne; [done|]. unfold backup_copy, join.
    intros E. apply (f_equal length) in E. rewrite length_app in E. simpl in E. lia.
  - intros g. destruct (decide (f = g)) as [->|Hne].
    + by rewrite lookup_insert_eq.
    + rewrite lookup_insert_ne; [apply Hnd|]. by intros ?%backup_copy_inj.
Qed.

(** The copy loop: it returns exactly when every listed name is a regular
    file, and then the backup directory holds a copy of each of them. *)
Lemma backup_loop_run files w r w' :
  subdir_ready clk (w_fs w) →
  for_each files (λ filename, Os.copy2 [filename] (backup_copy clk filename)) w
    = (r, w') →
  (r = Ok tt ↔ Forall (regular (w_fs w)) files)
  ∧ (r = Ok tt →
       subdir_ready clk (w_fs w')
       ∧ (∀ f, f ∈ files →
            ∃ c, w_fs w !! [f] = Some (File c) ∧
                 w_fs w' !! backup_copy clk f = Some (File c))
       ∧ (∀ q, (∀ f, f ∈ files → q ≠ backup_copy clk f) →
               w_fs w' !! q = w_fs w !! q)
       ∧ w_stdin w' = w_stdin w
       ∧ w_trace w' = w_trace w ++ backup_copies clk files).
Proof.
  revert w. induction files as [|f files IH]; intros w Hready; simpl.
  - intros [= <- <-]. split; [split; [constructor|done]|]. intros _.
    unfold backup_copies. simpl. rewrite app_nil_r.
    split_and!; [done| |done..]. intros f Hf. by apply not_elem_of_nil in Hf.
  - unfold bind at 1. rewrite (copy_into_subdir f w Hready).
    destruct (w_fs w !! [f]) as [[c|]|] eqn:Hf.
    + intros Hrun.
      apply IH in Hrun as [Hiff Hok]; [|by apply subdir_ready_insert].
      simpl in Hiff, Hok.
      assert (∀ g, <[backup_copy clk f := File c]> (w_fs w) !! [g] = w_fs w !! [g])
        as Hsame by (intros g; by apply lookup_insert_ne).
      split.
      * rewrite Hiff, Forall_cons. split.
        -- intros Hreg. split; [by exists c|].
           eapply Forall_impl; [exact Hreg|]. intros g [c' Hg]. exists c'.
           by rewrite <-Hsame.
        -- intros [_ Hreg]. eapply Forall_impl; [exact Hreg|].
           intros g [c' Hg]. exists c'. by rewrite Hsame.
      * intros Hr. destruct (Hok Hr) as (Hready' & Hcopies & Hframe & Hin & Ht).
        split_and!; [done| | |done|].
        -- intros g [-> | Hg]%elem_of_cons.
           ++ exists c. split; [done|].
              destruct (decide (f ∈ files)) as [Hin'|Hout].
              ** destruct (Hcopies f Hin') as (c' & Hc' & Hb).
                 rewrite Hsame, Hf in Hc'. by injection Hc' as <-.
              ** rewrite Hframe; [apply lookup_insert_eq|].
                 intros h Hh ?%backup_copy_inj. by subst.
           ++ destruct (Hcopies g Hg) as (c' & Hc' & Hb). exists c'.
              by rewrite <-Hsame.
        -- intros q Hq. rewrite Hframe.
           ++ apply lookup_insert_ne. intros <-. apply (Hq f); [left|done].
           ++ intros g Hg. apply Hq. by right.
        -- rewrite Ht. unfold backup_copies. simpl. by rewrite <-app_assoc.
    + intros [= <- <-]. split; [|done]. split; [done|].
      intros [[c Hc] _]%Forall_cons. congruence.
    + intros [= <- <-]. split; [|done]. split; [done|].
      intros [[c Hc] _]%Forall_cons. congruence.
Qed.

(** In a well-formed file system nothing lies below a path that is not
    there. *)
Lemma wf_child_absent m (p : path) x :
  Fs.wf m → p ≠ [] → m !! p = None → m !! (p ++ [x]) = None.
Proof.
  intros Hwf Hp Hnone. destruct (m !! (p ++ [x])) as [n|] eqn:E; [|done].
  destruct (Hwf _ _ E) as [_ Hdir]. unfold Fs.parent in Hdir.
  rewrite removelast_last in Hdir. unfold Fs.isdir, Fs.node_at in Hdir.
  destruct p; [done|]. by rewrite Hnone in Hdir.
Qed.

Lemma backup_migrations_unfold files w :
  backup_migrations clk files w =
    (Os.makedirs (backup_subdir clk) ;;
     for_each files (λ filename, Os.copy2 [filename] (backup_copy clk filename)) ;;
     ret (backup_subdir clk)) w.
Proof. reflexivity. Qed.

Lemma parent_backup_subdir : Fs.parent (backup_subdir clk) = BACKUP_DIR.
Proof. reflexivity. Qed.

(** When [os.makedirs] returns, the backup directory is new. *)
Lemma makedirs_subdir_ok w w' :
  Os.makedirs (backup_subdir clk) w = (Ok tt, w') →
  w_fs w !! backup_subdir clk = None
  ∧ w_fs w' !! BACKUP_DIR = Some Dir
  ∧ w_fs w' !! backup_subdir clk = Some Dir
  ∧ (∀ q, q ≠ BACKUP_DIR → q ≠ backup_subdir clk → w_fs w' !! q = w_fs w !! q)
  ∧ w_stdin w' = w_stdin w
  ∧ ∃ t, w_trace w' = w_trace w ++ t ++ [EvMkdir (backup_subdir clk)] ∧
         ((t = [] ∧ w_fs w !! BACKUP_DIR = Some Dir) ∨
          (t = [EvMkdir BACKUP_DIR] ∧ w_fs w !! BACKUP_DIR = None)).
Proof.
  rewrite makedirs_subdir_unfold, (exists_lookup _ BACKUP_DIR) by done.
  case_bool_decide as Hroot.
  - intros [(_ & Hex & Hpar & ->) | (_ & [[[=] _] | (e & [=] & _)])]%mkdir_run.
    rewrite exists_lookup in Hex by done.
    apply bool_decide_eq_false in Hex. apply eq_None_not_Some in Hex.
    unfold Fs.check_parent in Hpar. rewrite parent_backup_subdir in Hpar.
    unfold Fs.node_at in Hpar. simpl in Hpar.
    assert (w_fs w !! BACKUP_DIR = Some Dir) as Hdir.
    { by destruct (w_fs w !! BACKUP_DIR) as [[c|]|]. }
    simpl. split_and!; [done| |apply lookup_insert_eq| |done|].
    + by rewrite lookup_insert_ne.
    + intros q _ Hq. by rewrite lookup_insert_ne.
    + exists []. split; [done|]. by left.
  - apply eq_None_not_Some in Hroot.
    intros [(_ & Hex & Hpar & ->) | (_ & [[[=] _] | (e & [=] & _)])]%mkdir_run.
    simpl in *. rewrite exists_lookup in Hex by done.
    apply bool_decide_eq_false in Hex. apply eq_None_not_Some in Hex.
    rewrite lookup_insert_ne in Hex by done.
    split_and!; [done| |apply lookup_insert_eq| |done|].
    + rewrite lookup_insert_ne by done. apply lookup_insert_eq.
    + intros q Hq1 Hq2. by rewrite !lookup_insert_ne.
    + exists [EvMkdir BACKUP_DIR]. split; [by rewrite <-app_assoc|]. by right.
Qed.

(** The two ways [os.makedirs] refuses: the backup directory of this
    second is already there, or the backup root is a regular file. *)
Lemma makedirs_subdir_exists w :
  is_Some (w_fs w !! backup_subdir clk) → is_Some (w_fs w !! BACKUP_DIR) →
  Os.makedirs (backup_subdir clk) w = (Raise FileExistsError, w).
Proof.
  intros Hsub Hroot.
  rewrite makedirs_subdir_unfold, (exists_lookup _ BACKUP_DIR) by done.
  rewrite bool_decide_eq_true_2 by done.
  unfold Os.mkdir, fs_call, Fs.mkdir. rewrite exists_lookup by done.
  by rewrite bool_decide_eq_true_2.
Qed.

Lemma makedirs_subdir_under_file w c :
  w_fs w !! BACKUP_DIR = Some (File c) → w_fs w !! backup_subdir clk = None →
  Os.makedirs (backup_subdir clk) w = (Raise NotADirectoryError, w).
Proof.
  intros Hroot Hsub.
  rewrite makedirs_subdir_unfold, (exists_lookup _ BACKUP_DIR) by done.
  rewrite bool_decide_eq_true_2 by (by rewrite Hroot).
  unfold Os.mkdir, fs_call, Fs.mkdir. rewrite exists_lookup by done.
  rewrite bool_decide_eq_false_2 by (rewrite Hsub; by intros [? ?]).
  unfold Fs.check_parent. rewrite parent_backup_subdir.
  unfold Fs.node_at, BACKUP_DIR, join in *. simpl in *. by rewrite Hroot.
Qed.

(** What [backup_migrations] has done when it returns. *)
Lemma backup_migrations_ok files w sub w' :
  (w_fs w !! backup_subdir clk = None →
   ∀ g, w_fs w !! backup_copy clk g ≠ Some Dir) →
  backup_migrations clk files w = (Ok sub, w') →
  sub = backup_subdir clk
  ∧ w_fs w !! backup_subdir clk = None
  ∧ w_fs w' !! BACKUP_DIR = Some Dir
  ∧ w_fs w' !! backup_subdir clk = Some Dir
  ∧ (∀ f, f ∈ files →
       ∃ c, w_fs w !! [f] = Some (File c) ∧
            w_fs w' !! backup_copy clk f = Some (File c))
  ∧ (∀ q, q ≠ BACKUP_DIR → q ≠ backup_subdir clk →
          (∀ f, f ∈ files → q ≠ backup_copy clk f) →
          w_fs w' !! q = w_fs w !! q)
  ∧ w_stdin w' = w_stdin w
  ∧ ∃ t, w_trace w' =
           w_trace w ++ t ++ [EvMkdir (backup_subdir clk)] ++ backup_copies clk files ∧
         ((t = [] ∧ w_fs w !! BACKUP_DIR = Some Dir) ∨
          (t = [EvMkdir BACKUP_DIR] ∧ w_fs w !! BACKUP_DIR = None)).
Proof.
  intros Hchildren. rewrite backup_migrations_unfold.
  intros [([] & w1 & H1 & H2) | (e & _ & [=])]%bind_inv.
  apply bind_inv in H2 as [([] & w2 & H2 & [= <- <-]) | (e & _ & [=])].
  destruct (makedirs_subdir_ok _ _ H1)
    as (Hnew & Hroot & Hsub & Hframe1 & Hin1 & t & Ht & Hcase).
  assert (subdir_ready clk (w_fs w1)) as Hready.
  { split; [done|]. intros g. rewrite Hframe1; [by apply Hchildren| done |].
    unfold backup_copy, join. intros E. apply (f_equal length) in E.
    rewrite length_app in E. simpl in E. lia. }
  destruct (backup_loop_run _ _ _ _ Hready H2) as [_ Hok].
  destruct (Hok eq_refl) as (_ & Hcopies & Hframe2 & Hin2 & Ht2).
  split_and!; [done|done| | | | |congruence|].
  - rewrite Hframe2; [done|]. intros f _. done.
  - rewrite Hframe2; [done|]. intros f _. unfold backup_copy, join.
    intros E. apply (f_equal length) in E. rewrite length_app in E. simpl in E. lia.
  - intros f Hf. destruct (Hcopies f Hf) as (c & Hc & Hb). exists c.
    split; [|done]. rewrite <-Hframe1; [done| |done].
    intros E. rewrite E in Hc. congruence.
  - intros q Hq1 Hq2 Hq3. by rewrite Hframe2, Hframe1.
  - exists t. split; [|done]. by rewrite Ht2, Ht, <-!app_assoc.
Qed.

(** [backup_migrations] returns whenever the backup directory is new, the
    backup root is not a regular file and the listed names are regular
    files. *)
Lemma backup_migrations_succeeds files w :
  w_fs w !! backup_subdir clk = None →
  (∀ g, w_fs w !! backup_copy clk g = None) →
  (∀ c, w_fs w !! BACKUP_DIR ≠ Some (File c)) →
  Forall (regular (w_fs w)) files →
  ∃ w', backup_migrations clk files w = (Ok (backup_subdir clk), w').
Proof.
  intros Hnew Hchildren Hroot Hreg. rewrite backup_migrations_unfold.
  assert (∃ w1, Os.makedirs (backup_subdir clk) w = (Ok tt, w1) ∧
                subdir_ready clk (w_fs w1) ∧
                ∀ f, f ∈ files → w_fs w1 !! [f] = w_fs w !! [f])
    as (w1 & H1 & Hready & Hsame).
  { rewrite makedirs_subdir_unfold, (exists_lookup _ BACKUP_DIR) by done.
    assert (∀ f, f ∈ files → [f] ≠ BACKUP_DIR → [f] ≠ backup_subdir clk) as Hn2
      by done.
    case_bool_decide as Hex.
    - destruct Hex as [n Hn]. destruct n as [c|]; [by destruct (Hroot c)|].
      eexists. split.
      + unfold Os.mkdir, fs_call, Fs.mkdir. rewrite exists_lookup by done.
        rewrite bool_decide_eq_false_2 by (rewrite Hnew; by intros [? ?]).
        unfold Fs.check_parent. rewrite parent_backup_subdir.
        unfold Fs.node_at, BACKUP_DIR, join in *. simpl in *. by rewrite Hn.
      + simpl. split; [split|].
        * apply lookup_insert_eq.
        * intros g. rewrite lookup_insert_ne; [by rewrite Hchildren|].
          unfold backup_copy, join. intros E. apply (f_equal length) in E.
          rewrite length_app in E. simpl in E. lia.
        * intros f Hf. by rewrite lookup_insert_ne.
    - apply eq_None_not_Some in Hex. eexists. split.
      + unfold Os.mkdir, fs_call, Fs.mkdir. simpl. rewrite exists_lookup by done.
        rewrite lookup_insert_ne by done.
        rewrite bool_decide_eq_false_2 by (rewrite Hnew; by intros [? ?]).
        unfold Fs.check_parent. rewrite parent_backup_subdir.
        unfold Fs.node_at, BACKUP_DIR, join in *. simpl in *.
        by rewrite lookup_insert_eq.
      + simpl. split; [split|].
        * apply lookup_insert_eq.
        * intros g. rewrite !lookup_insert_ne; [by rewrite Hchildren|done|].
          unfold backup_copy, join. intros E. apply (f_equal length) in E.
          rewrite length_app in E. simpl in E. lia.
        * intros f Hf. rewrite !lookup_insert_ne; [done| |done].
          intros E. rewrite Forall_forall in Hreg.
          destruct (Hreg f Hf) as [c Hc]. rewrite <-E in Hc.
          by destruct (Hroot c). }
  unfold bind. rewrite H1.
  destruct (for_each files
              (λ filename, Os.copy2 [filename] (backup_copy clk filename)) w1)
    as [r2 w2] eqn:H2.
  destruct (backup_loop_run _ _ _ _ Hready H2) as [Hiff _].
  assert (r2 = Ok tt) as ->.
  { apply Hiff. rewrite Forall_forall in Hreg |- *. intros f Hf.
    destruct (Hreg f Hf) as [c Hc]. exists c. by rewrite Hsame. }
  by exists w2.
Qed.

(** X3: called on a well-formed file system with names of directory
    entries (no path separator in them), [backup_migrations] returns only
    the new directory [backups/migrations_backup_<timestamp>]; that
    directory was not there before, every listed file is a regular file that
    is left as it was and has a copy with the same content in the directory;
    nothing else changes except that the backup root is created when it was
    missing; the log shows the directories made and one copy per listed
    file, in order. *)
Theorem backup_migrations_copies_all files w sub w' :
  Fs.wf (w_fs w) →
  Forall (λ f, Str.no_separator f = true) files →
  backup_migrations clk files w = (Ok sub, w') →
  sub = join BACKUP_DIR ("migrations_backup_" +:+ now_backup clk)
  ∧ w_fs w !! sub = None
  ∧ w_fs w' !! sub = Some Dir
  ∧ (∀ f, f ∈ files →
       ∃ c, w_fs w !! join MIGRATIONS_DIR f = Some (File c) ∧
            w_fs w' !! join MIGRATIONS_DIR f = Some (File c) ∧
            w_fs w' !! join sub f = Some (File c))
  ∧ (∀ q, q ≠ BACKUP_DIR → q ≠ sub → (∀ f, f ∈ files → q ≠ join sub f) →
          w_fs w' !! q = w_fs w !! q)
  ∧ w_stdin w' = w_stdin w
  ∧ ∃ t, (t = [] ∨ t = [EvMkdir BACKUP_DIR]) ∧
         w_trace w' =
           w_trace w ++ t ++ EvMkdir sub ::
             ((λ f, EvCopy (join MIGRATIONS_DIR f) (join sub f)) <$> files).
Proof.
  intros Hwf _ Hrun.
  assert (w_fs w !! backup_subdir clk = None →
          ∀ g, w_fs w !! backup_copy clk g ≠ Some Dir) as Hchildren.
  { intros Hnone g. unfold backup_copy, join.
    by rewrite (wf_child_absent _ _ _ Hwf). }
  destruct (backup_migrations_ok _ _ _ _ Hchildren Hrun)
    as (-> & Hnew & Hroot & Hsub & Hcopies & Hframe & Hin & t & Ht & Hcase).
  split_and!; [done..| | |done|].
  - intros f Hf. destruct (Hcopies f Hf) as (c & Hc & Hb). exists c.
    rewrite join_root. split_and!; [done| |done].
    rewrite Hframe; [done| |done|done].
    intros E. rewrite E in Hc. destruct Hcase as [[_ ?] | [_ ?]]; congruence.
  - done.
  - exists t. split; [destruct Hcase as [[-> _] | [-> _]]; auto|]. done.
Qed.

End backup_runs.

Section backup_stage_runs.

Variable clk : clock.

(** The two outcomes of [create_backup_dir]. *)
Lemma create_backup_dir_cases w :
  ∃ w1, create_backup_dir w = (Ok tt, w1)
    ∧ is_Some (w_fs w1 !! BACKUP_DIR)
    ∧ (is_Some (w_fs w !! BACKUP_DIR) → w1 = w)
    ∧ (w_fs w !! BACKUP_DIR = None →
         w_fs w1 !! BACKUP_DIR = Some Dir ∧
         w_trace w1 = w_trace w ++ [EvMkdir BACKUP_DIR])
    ∧ (∀ q, q ≠ BACKUP_DIR → w_fs w1 !! q = w_fs w !! q)
    ∧ w_stdin w1 = w_stdin w
    ∧ create_backup_dir w1 = (Ok tt, w1).
Proof.
  eexists. split; [apply create_backup_dir_run|].
  rewrite (exists_lookup _ BACKUP_DIR) by done. case_bool_decide as Hex.
  - split_and!; [done|done| |done|done|].
    + intros Hn. rewrite Hn in Hex. by destruct Hex.
    + rewrite create_backup_dir_run, (exists_lookup _ BACKUP_DIR) by done.
      by rewrite bool_decide_eq_true_2.
  - simpl. split_and!.
    + by rewrite lookup_insert_eq.
    + done.
    + intros _. split; [apply lookup_insert_eq|done].
    + intros q Hq. by rewrite lookup_insert_ne.
    + done.
    + rewrite create_backup_dir_run, (exists_lookup _ BACKUP_DIR) by done.
      simpl. rewrite bool_decide_eq_true_2; [done|].
      by rewrite lookup_insert_eq.
Qed.

(** X2: [create_backup_dir] never fails and is idempotent: afterwards the
    backup root exists; when it existed already (as a directory or as
    anything else) nothing is changed or logged; otherwise it is created as
    a directory; no other path is touched. *)
Theorem create_backup_dir_idempotent w :
  ∃ w1, create_backup_dir w = (Ok tt, w1)
    ∧ is_Some (w_fs w1 !! BACKUP_DIR)
    ∧ (is_Some (w_fs w !! BACKUP_DIR) → w1 = w)
    ∧ (w_fs w !! BACKUP_DIR = None →
         w_fs w1 !! BACKUP_DIR = Some Dir ∧
         w_trace w1 = w_trace w ++ [EvMkdir BACKUP_DIR])
    ∧ (∀ q, q ≠ BACKUP_DIR → w_fs w1 !! q = w_fs w !! q)
    ∧ w_stdin w1 = w_stdin w
    ∧ create_backup_dir w1 = (Ok tt, w1).
Proof. apply create_backup_dir_cases. Qed.

Lemma stages_backup_raise o files w e w1 :
  backup_stage clk o files w = (Raise e, w1) →
  stages clk o files w = (Raise e, w1).
Proof. intros H. unfold stages. by rewrite (bind_raise _ _ _ _ _ H). Qed.

Lemma backup_stage_makedirs_raise o files w w0 e :
  opt_backup o = true →
  create_backup_dir w = (Ok tt, w0) →
  Os.makedirs (backup_subdir clk) w0 = (Raise e, w0) →
  backup_stage clk o files w = (Raise e, w0).
Proof.
  intros Hbk H0 Hmk. unfold backup_stage. rewrite Hbk. simpl.
  rewrite (bind_ok _ _ _ _ _ H0).
  apply bind_raise. rewrite backup_migrations_unfold. by apply bind_raise.
Qed.

(** X4: with backup requested, a run stops before it has copied or written
    anything when the backup cannot be set up.  If the directory
    [backups/migrations_backup_<timestamp>] is already there (a second run
    within the same second), the run raises [FileExistsError]; if the
    backup root is a regular file, it raises [NotADirectoryError].  The file
    system is as before (only a missing backup root may have been
    created). *)
Theorem backup_collision_stops_run (o : options) w :
  opt_backup o = true → discover w o ≠ [] →
  (is_Some (w_fs w !! join BACKUP_DIR ("migrations_backup_" +:+ now_backup clk)) →
     ∃ w', consolidate_migrations clk (Some o) w = (Raise FileExistsError, w')
       ∧ (∀ q, q ≠ BACKUP_DIR → w_fs w' !! q = w_fs w !! q)
       ∧ w_stdin w' = w_stdin w
       ∧ (is_Some (w_fs w !! BACKUP_DIR) → w' = w))
  ∧ (∀ c, w_fs w !! BACKUP_DIR = Some (File c) →
       w_fs w !! join BACKUP_DIR ("migrations_backup_" +:+ now_backup clk) = None →
       consolidate_migrations clk (Some o) w = (Raise NotADirectoryError, w)).
Proof.
  intros Hbk Hne. rewrite consolidate_unfold, bool_decide_eq_false_2 by done.
  fold (backup_subdir_name clk). fold (backup_subdir clk).
  destruct (create_backup_dir_cases w)
    as (w0 & H0 & Hroot0 & Hsame0 & _ & Hframe0 & Hin0 & _).
  split.
  - intros Hsub. exists w0. split_and!; [|done..].
    apply stages_backup_raise.
    apply backup_stage_makedirs_raise; [done..|].
    apply makedirs_subdir_exists; [|done]. by rewrite Hframe0.
  - intros c Hroot Hsub.
    assert (w0 = w) as -> by (apply Hsame0; by rewrite Hroot).
    apply stages_backup_raise.
    apply backup_stage_makedirs_raise; [done..|].
    by apply (makedirs_subdir_under_file _ _ c).
Qed.

(** The stages between the backup and the deletion. *)
Lemma within_create_backup_dir_root :
  within (λ q, q = BACKUP_DIR) (λ _, True) create_backup_dir.
Proof.
  unfold create_backup_dir.
  apply within_bind; [apply within_path_exists|]. intros b.
  apply within_when. intros _ w r w'. rewrite makedirs_backup_dir.
  by apply within_mkdir.
Qed.

Lemma mid_within o files (r1 r2 r3 r4 r5 : result unit) w1 w2 w3 w4 w5 :
  after r1 (write_temp_file clk files) w1 = (r2, w2) →
  after r2 (save_old_artifact clk) w2 = (r3, w3) →
  after r3 (Os.move TEMP_FILE OUTPUT_FILE) w3 = (r4, w4) →
  after r4 (when (opt_rename o)
              (rename_to_init clk (Some (opt_timestamp o)))) w4 = (r5, w5) →
  unchanged_outside (mid_paths clk o) w1 w5.
Proof.
  intros H2 H3 H4 H5.
  assert (within (mid_paths clk o) (λ _, True)
            (after r1 (write_temp_file clk files))) as W2.
  { apply after_within. eapply within_mono; [| |apply within_write_temp_file];
      unfold mid_paths; auto. }
  assert (within (mid_paths clk o) (λ _, True)
            (after r2 (save_old_artifact clk))) as W3.
  { apply after_within. unfold save_old_artifact.
    apply within_bind; [apply within_path_exists|]. intros b.
    apply within_when. intros _. apply within_bind; [|intros _].
    - eapply within_mono; [| |apply within_create_backup_dir_root];
        unfold mid_paths; auto.
    - apply within_copy2. intros d Hd. unfold mid_paths. auto. }
  assert (within (mid_paths clk o) (λ _, True)
            (after r3 (Os.move TEMP_FILE OUTPUT_FILE))) as W4.
  { apply after_within, within_move; unfold mid_paths; auto 6. }
  assert (within (mid_paths clk o) (λ _, True)
            (after r4 (when (opt_rename o)
                         (rename_to_init clk (Some (opt_timestamp o)))))) as W5.
  { apply after_within, within_when. intros Hren.
    eapply within_mono; [| |apply within_rename_to_init];
      unfold mid_paths; auto 6. }
  destruct (W2 _ _ _ H2), (W3 _ _ _ H3), (W4 _ _ _ H4), (W5 _ _ _ H5).
  eauto using unchanged_trans.
Qed.

Lemma backup_copy_not_mid w o f :
  f ∈ discover w o → ¬ mid_paths clk o (backup_copy clk f).
Proof.
  intros Hf [H | [H | [[H | H] | [[H | H] | [Hren [[H | H] | [H | H]]]]]]];
    try discriminate H.
  injection H as _ H. by apply (discovered_not_init w o f).
Qed.

Lemma discovered_not_mid w o f : f ∈ discover w o → ¬ mid_paths clk o [f].
Proof.
  intros Hf [H | [H | [[H | H] | [[H | H] | [Hren [[H | H] | [H | H]]]]]]];
    try discriminate H.
  - by apply (discovered_not_temp w o f).
  - apply (discovered_not_under_backups w o f Hf). rewrite H.
    apply under_backups_dir.
  - by apply (discovered_not_output w o f).
  - injection H as H. by apply (discovered_not_init w o f).
Qed.

(** Whatever [delete_migrations] does to a path, it leaves it as it was or
    removes it. *)
Lemma delete_migrations_lookup files w r w' q :
  delete_migrations files w = (r, w') →
  w_fs w' !! q = w_fs w !! q ∨ (w_fs w' !! q = None ∧ delete_paths files q).
Proof.
  unfold delete_migrations. revert w.
  induction files as [|f files IH]; intros w; simpl.
  - intros [= <- <-]. by left.
  - rewrite join_root.
    intros [([] & w1 & H1 & H2) | (e & H1 & ->)]%bind_inv.
    + apply remove_run in H1 as [(c & Hc & _ & ->) | (e & [=] & _)].
      destruct (IH _ H2) as [Hsame | [Hnone (g & Hg & ->)]]; simpl in *.
      * destruct (decide (q = [f])) as [->|Hq].
        -- right. rewrite Hsame, lookup_delete_eq. split; [done|].
           exists f. split; [left|done].
        -- left. by rewrite Hsame, lookup_delete_ne.
      * right. split; [done|]. exists g. split; [by right|done].
    + apply remove_run in H1 as [(c & _ & [=] & _) | (e' & _ & -> & _)].
      by left.
Qed.

Lemma delete_stage_lookup o files w r w' q :
  delete_stage o files w = (r, w') →
  w_fs w' !! q = w_fs w !! q ∨
  (w_fs w' !! q = None ∧ delete_paths files q ∧
   opt_delete o = true ∧ opt_backup o = true).
Proof.
  intros [(_ & _ & ->) | (Hd & Hb & [(_ & _ & ->) |
            (line & rest & Hl & [(_ & _ & ->) | (_ & Hdm)])])]%delete_stage_run;
    [by left..|].
  destruct (delete_migrations_lookup _ _ _ _ q Hdm) as [? | [? ?]]; auto.
Qed.

(** When the backup stage of a run with backup returns, every listed file
    has its copy in the backup directory. *)
Lemma backup_stage_ok o files w w1 :
  Fs.wf (w_fs w) → opt_backup o = true →
  backup_stage clk o files w = (Ok tt, w1) →
  ∀ f, f ∈ files →
    ∃ c, w_fs w !! [f] = Some (File c) ∧
         w_fs w1 !! backup_copy clk f = Some (File c).
Proof.
  intros Hwf Hbk. unfold backup_stage. rewrite Hbk. simpl.
  destruct (create_backup_dir_cases w)
    as (w0 & H0 & Hroot0 & _ & _ & Hframe0 & _).
  rewrite (bind_ok _ _ _ _ _ H0).
  intros [(sub & w1' & H1 & [= <-]) | (e & _ & [=])]%bind_inv.
  assert (w_fs w0 !! backup_subdir clk = None →
          ∀ g, w_fs w0 !! backup_copy clk g ≠ Some Dir) as Hchildren.
  { intros Hnone g. rewrite Hframe0 in Hnone |- * by done.
    unfold backup_copy, join. by rewrite (wf_child_absent _ _ _ Hwf). }
  destruct (backup_migrations_ok _ _ _ _ _ Hchildren H1)
    as (_ & _ & _ & _ & Hcopies & _ & _ & t & _ & Hcase).
  intros f Hf. destruct (Hcopies f Hf) as (c & Hc & Hb). exists c.
  split; [|done]. rewrite <-Hframe0; [done|].
  intros E. rewrite E in Hc. destruct Hcase as [[_ ?] | [_ ?]]; congruence.
Qed.

(** The log of a backup stage that returned shows one copy per file. *)
Lemma backup_stage_log o files w w1 :
  Fs.wf (w_fs w) → opt_backup o = true →
  backup_stage clk o files w = (Ok tt, w1) →
  ∃ t, w_trace w1 = w_trace w ++ t ∧
       ∀ f, f ∈ files → EvCopy [f] (backup_copy clk f) ∈ t.
Proof.
  intros Hwf Hbk. unfold backup_stage. rewrite Hbk. simpl.
  destruct (create_backup_dir_cases w)
    as (w0 & H0 & _ & Hsame0 & Hmade0 & Hframe0 & _).
  rewrite (bind_ok _ _ _ _ _ H0).
  intros [(sub & w1' & H1 & [= <-]) | (e & _ & [=])]%bind_inv.
  assert (w_fs w0 !! backup_subdir clk = None →
          ∀ g, w_fs w0 !! backup_copy clk g ≠ Some Dir) as Hchildren.
  { intros Hnone g. rewrite Hframe0 in Hnone |- * by done.
    unfold backup_copy, join. by rewrite (wf_child_absent _ _ _ Hwf). }
  destruct (backup_migrations_ok _ _ _ _ _ Hchildren H1)
    as (_ & _ & _ & _ & _ & _ & _ & t & Ht & _).
  assert (∃ t0, w_trace w0 = w_trace w ++ t0) as [t0 Ht0].
  { rewrite create_backup_dir_run in H0. injection H0 as <-.
    destruct (Fs.exists_ _ _); simpl; [exists []; by rewrite app_nil_r|eauto]. }
  exists (t0 ++ t ++ [EvMkdir (backup_subdir clk)] ++ backup_copies clk files).
  split; [by rewrite Ht, Ht0, <-!app_assoc|].
  intros f Hf. rewrite !elem_of_app. do 3 right.
  unfold backup_copies. apply list_elem_of_fmap. by exists f.
Qed.

(** X22: no migration file is removed before all of them are backed up and
    the new artifact is in place.  Whenever the log of a run (on a
    well-formed file system, the timestamp of a rename holding no path
    separator) shows the removal of a discovered file, that removal comes
    after the move of the temporary file onto the artifact, and before that
    move the log shows the copy of every discovered file into the backup
    directory. *)
Theorem no_removal_before_backup_and_move (o : options) w r w' t f :
  Fs.wf (w_fs w) →
  (opt_rename o = true → Str.no_separator (opt_timestamp o) = true) →
  consolidate_migrations clk (Some o) w = (r, w') →
  w_trace w' = w_trace w ++ t →
  f ∈ discover w o → EvRemove [f] ∈ t →
  ∃ t1 t2, t = t1 ++ EvMove TEMP_FILE OUTPUT_FILE :: t2
    ∧ EvRemove [f] ∈ t2
    ∧ (∀ g, g ∈ discover w o → EvRemove [g] ∉ t1)
    ∧ (∀ g, g ∈ discover w o →
         EvCopy [g] (join (join BACKUP_DIR
                             ("migrations_backup_" +:+ now_backup clk)) g) ∈ t1).
Proof.
  intros Hwf _. rewrite consolidate_unfold. case_bool_decide as Hne.
  { intros _ _ Hf. rewrite Hne in Hf. by apply not_elem_of_nil in Hf. }
  intros (r1 & w1 & r2 & w2 & r3 & w3 & r4 & w4 & r5 & w5 &
          H1 & H2 & H3 & H4 & H5 & H6)%stages_inv Ht Hf Hrm.
  destruct (pre_move_within clk o _ _ _ _ _ _ _ _ H1 H2 H3)
    as [_ (tpre & Tpre & Epre & _)].
  assert (∀ p, EvRemove p ∉ tpre) as Hpre.
  { intros p Hp. rewrite Forall_forall in Epre.
    by destruct (Epre _ Hp) as [[] | []]. }
  destruct r3 as [[]|e3].
  2:{ apply after_raise in H4 as [-> ->]. apply after_raise in H5 as [-> ->].
      apply after_raise in H6 as [-> ->]. rewrite Tpre in Ht.
      apply app_inv_head in Ht as ->. by destruct (Hpre [f]). }
  destruct (pre_move_ok clk o _ w _ _ _ _ _ (discovered_pre_move w o) H1 H2 H3)
    as (_ & Htemp & Hout & Hnd & _).
  simpl in H4. rewrite (move_temp_run _ _ Htemp) in H4 by (by rewrite Hout).
  injection H4 as <- <-.
  destruct (post_move_within clk o _ _ _ _ _ _ _ H5 H6)
    as [_ (tpost & Tpost & Epost & _)]. simpl in Tpost.
  rewrite Tpost, Tpre, <-!app_assoc in Ht. apply app_inv_head in Ht as <-.
  simpl. exists tpre, tpost.
  assert (EvRemove [f] ∈ tpost) as Hpost.
  { apply elem_of_app in Hrm as [Hrm | Hrm]; [by destruct (Hpre [f])|].
    by apply elem_of_cons in Hrm as [[=] | Hrm]. }
  split_and!; [done|done|intros g _; apply Hpre|].
  assert (opt_backup o = true) as Hbk.
  { rewrite Forall_forall in Epost.
    destruct (Epost _ Hpost) as [[Hren [= E]] | (_ & ? & _)]; [|done].
    by destruct (discovered_not_init w o f Hren Hf). }
  apply after_ok in H3 as [[[] ->] H3]. apply after_ok in H2 as [[[] ->] H2].
  destruct (backup_stage_log o _ _ _ Hwf Hbk H1) as (t1 & T1 & Hcopies).
  destruct (within_write_temp_file clk _ _ _ _ H2) as [_ (t2 & T2 & _)].
  destruct (within_save_old_artifact clk _ _ _ H3) as [_ (t3 & T3 & _)].
  assert (tpre = t1 ++ t2 ++ t3) as ->.
  { rewrite T3, T2, T1, <-!app_assoc in Tpre. by apply app_inv_head in Tpre. }
  intros g Hg. apply elem_of_app. left. by apply Hcopies.
Qed.

(** X5: no run loses the content of a discovered migration file.  Starting
    from a well-formed file system, whatever the options (the timestamp of a
    rename holding no path separator), the answers typed and the outcome, a
    discovered file is at the end either exactly as it was, or removed with
    delete and backup both requested and its content stored in
    [backups/migrations_backup_<timestamp>/<name>].  A run with backup that
    returns has stored every discovered file's content there. *)
Theorem discovered_files_survive (o : options) w r w' :
  Fs.wf (w_fs w) →
  (opt_rename o = true → Str.no_separator (opt_timestamp o) = true) →
  consolidate_migrations clk (Some o) w = (r, w') →
  ∀ f c, f ∈ discover w o → w_fs w !! [f] = Some (File c) →
    (w_fs w' !! [f] = Some (File c) ∨
     (w_fs w' !! [f] = None ∧ opt_delete o = true ∧ opt_backup o = true ∧
      w_fs w' !! join (join BACKUP_DIR ("migrations_backup_" +:+ now_backup clk)) f
        = Some (File c)))
    ∧ (opt_backup o = true → r = Ok tt →
       w_fs w' !! join (join BACKUP_DIR ("migrations_backup_" +:+ now_backup clk)) f
         = Some (File c)).
Proof.
  intros Hwf _. rewrite consolidate_unfold. case_bool_decide as Hne.
  { intros _ f c Hf. rewrite Hne in Hf. by apply not_elem_of_nil in Hf. }
  intros (r1 & w1 & r2 & w2 & r3 & w3 & r4 & w4 & r5 & w5 &
          H1 & H2 & H3 & H4 & H5 & H6)%stages_inv f c Hf Hc.
  fold (backup_subdir_name clk). fold (backup_subdir clk).
  fold (backup_copy clk f).
  destruct (within_backup_stage clk o _ _ _ _ H1) as [F1 _].
  pose proof (mid_within o _ _ _ _ _ _ _ _ _ _ _ H2 H3 H4 H5) as Fmid.
  assert (w_fs w5 !! [f] = Some (File c)) as Hf5.
  { rewrite (Fmid _ (discovered_not_mid w o f Hf)), F1; [done|].
    by apply (discovered_not_under_backups w o f). }
  assert (w_fs w' !! backup_copy clk f = w_fs w5 !! backup_copy clk f) as Hb6.
  { destruct r5 as [[]|e5]; [|by apply after_raise in H6 as [_ ->]].
    destruct (delete_stage_lookup _ _ _ _ _ (backup_copy clk f) H6)
      as [? | (_ & (g & _ & [=]) & _)]. done. }
  assert (opt_backup o = true → r1 = Ok tt →
          w_fs w' !! backup_copy clk f = Some (File c)) as Hsaved.
  { intros Hbk ->. rewrite Hb6, (Fmid _ (backup_copy_not_mid w o f Hf)).
    destruct (backup_stage_ok o _ _ _ Hwf Hbk H1 f Hf) as (c' & Hc' & Hb).
    congruence. }
  split.
  - destruct r5 as [[]|e5]; [|apply after_raise in H6 as [_ ->]; by left].
    destruct (delete_stage_lookup _ _ _ _ _ [f] H6)
      as [Hsame | (Hnone & _ & Hd & Hbk)]; [left; congruence|].
    right. split_and!; [done..|]. apply Hsaved; [done|].
    apply after_ok in H5 as [[[] ->] _]. apply after_ok in H4 as [[[] ->] _].
    apply after_ok in H3 as [[[] ->] _]. by apply after_ok in H2 as [[[] ->] _].
  - intros Hbk ->. apply Hsaved; [done|].
    apply after_ok in H6 as [[[] ->] _].
    apply after_ok in H5 as [[[] ->] _]. apply after_ok in H4 as [[[] ->] _].
    apply after_ok in H3 as [[[] ->] _]. by apply after_ok in H2 as [[[] ->] _].
Qed.

End backup_stage_runs.

Section run_facts.

Variable clk : clock.

Lemma consolidate_default (options : option options) w :
  consolidate_migrations clk options w =
    consolidate_migrations clk (Some (default (default_options clk) options)) w.
Proof. by destruct options. Qed.

Lemma move_logged (r3 : result unit) w3 w4 :
  after r3 (Os.move TEMP_FILE OUTPUT_FILE) w3 = (Ok tt, w4) →
  ∃ d, w_trace w4 = w_trace w3 ++ [EvMove TEMP_FILE d].
Proof.
  intros [_ H]%after_ok. unfold Os.move in H.
  apply fs_call_inv in H as [(m' & _ & _ & ->) | (e & _ & [=] & _)]. eauto.
Qed.

(** A run over a non-empty discovery that returns has logged its move. *)
Lemma run_ok_logs_move o w w' :
  discover w o ≠ [] →
  consolidate_migrations clk (Some o) w = (Ok tt, w') →
  ∃ t1 d t2, w_trace w' = w_trace w ++ t1 ++ EvMove TEMP_FILE d :: t2.
Proof.
  intros Hne. rewrite consolidate_unfold, bool_decide_eq_false_2 by done.
  intros (r1 & w1 & r2 & w2 & r3 & w3 & r4 & w4 & r5 & w5 &
          H1 & H2 & H3 & H4 & H5 & H6)%stages_inv.
  destruct (pre_move_within clk o _ _ _ _ _ _ _ _ H1 H2 H3)
    as [_ (tpre & Tpre & _)].
  destruct (post_move_within clk o _ _ _ _ _ _ _ H5 H6)
    as [_ (tpost & Tpost & _)].
  apply after_ok in H6 as [[[] ->] _]. apply after_ok in H5 as [[[] ->] _].
  destruct (move_logged _ _ _ H4) as [d Hd].
  exists tpre, d, tpost. rewrite Tpost, Hd, Tpre. by rewrite <-!app_assoc.
Qed.

(** X1: a run returns without having changed or logged anything exactly
    when discovery finds no migration file, whatever options were given,
    the defaults of a call without options included. *)
Theorem no_migrations_no_effect (options : option options) w :
  consolidate_migrations clk options w = (Ok tt, w) ↔
  discover w (default (default_options clk) options) = [].
Proof.
  rewrite consolidate_default.
  set (o := default (default_options clk) options). split.
  - intros Hrun. destruct (decide (discover w o = [])) as [|Hne]; [done|].
    destruct (run_ok_logs_move o w w Hne Hrun) as (t1 & d & t2 & Ht).
    apply (f_equal length) in Ht. rewrite !length_app in Ht. simpl in Ht. lia.
  - intros Hnil. by rewrite consolidate_unfold, bool_decide_eq_true_2.
Qed.

Lemma backup_file_not_init timestamp :
  "consolidated_migration.sql.bak" ≠ init_filename timestamp.
Proof.
  intros H.
  assert (Str.endswith "consolidated_migration.sql.bak" "_initial_schema.sql" = true)
    as Hs by (rewrite H; apply endswith_append).
  vm_compute in Hs. discriminate.
Qed.

(** The entries of the migrations directory a run can touch. *)
Lemma run_frame o w r w' name (rest : list string) :
  consolidate_migrations clk (Some o) w = (r, w') →
  name ≠ "backups" → name ≠ "consolidated_migration.sql" →
  name ≠ "consolidated_migration.sql.tmp" →
  (opt_rename o = true → name ≠ init_filename (opt_timestamp o)) →
  (opt_delete o = true → opt_backup o = true → rest = [] →
   name ∉ discover w o) →
  w_fs w' !! (name :: rest) = w_fs w !! (name :: rest).
Proof.
  intros Hrun Hb Ho Ht Hi Hd.
  destruct (consolidate_within clk o w r w' Hrun) as [F _]. apply F.
  intros [H | [[H | H] | [[rest' H] | [[Hren [H | H]] | (Hdel & Hbk & g & Hg & H)]]]];
    injection H; intros; subst; try done.
  - by apply (Hi Hren).
  - by apply (Hi Hren).
  - by apply (Hd Hdel Hbk eq_refl).
Qed.

(** X10: a run (the timestamp of a rename holding no path separator)
    touches nothing but its own files.  Every path of the migrations
    directory whose first component is not [backups], not the artifact, not
    the temporary file, not (with rename) the init file, and that is not a
    discovered file of a run with delete and backup, is at the end as it
    was, whatever the outcome.  In particular
    [consolidated_migration.sql.bak], the [BACKUP_FILE] of the
    configuration block, is never touched. *)
Theorem run_leaves_other_entries (o : options) w r w' :
  (opt_rename o = true → Str.no_separator (opt_timestamp o) = true) →
  consolidate_migrations clk (Some o) w = (r, w') →
  (∀ name rest,
     name ≠ "backups" → name ≠ "consolidated_migration.sql" →
     name ≠ "consolidated_migration.sql.tmp" →
     (opt_rename o = true → name ≠ init_filename (opt_timestamp o)) →
     (opt_delete o = true → opt_backup o = true → rest = [] →
      name ∉ discover w o) →
     w_fs w' !! (name :: rest) = w_fs w !! (name :: rest))
  ∧ w_fs w' !! BACKUP_FILE = w_fs w !! BACKUP_FILE.
Proof.
  intros _ Hrun. split.
  - intros name rest. exact (run_frame o w r w' name rest Hrun).
  - apply (run_frame o w r w' "consolidated_migration.sql.bak" [] Hrun); try done.
    + intros _. apply backup_file_not_init.
    + intros _ _ _ (_ & Hm & _)%elem_of_discover_from. by vm_compute in Hm.
Qed.

Lemma temp_not_post_move_path w o : ¬ post_move_paths o (discover w o) TEMP_FILE.
Proof.
  intros [[_ [[H | H] | [H | H]]] | (_ & _ & f & Hf & H)]; try discriminate H.
  - by apply (init_not_temp (opt_timestamp o)).
  - by apply (discovered_not_temp w o f).
Qed.

(** X11: a run that returns leaves no temporary file behind, also when a
    stale [consolidated_migration.sql.tmp] was there before the run (the
    timestamp of a rename holding no path separator). *)
Theorem no_temp_left_on_success (o : options) w w' :
  discover w o ≠ [] →
  (opt_rename o = true → Str.no_separator (opt_timestamp o) = true) →
  consolidate_migrations clk (Some o) w = (Ok tt, w') →
  w_fs w' !! TEMP_FILE = None.
Proof.
  intros Hne _. rewrite consolidate_unfold, bool_decide_eq_false_2 by done.
  intros (r1 & w1 & r2 & w2 & r3 & w3 & r4 & w4 & r5 & w5 &
          H1 & H2 & H3 & H4 & H5 & H6)%stages_inv.
  destruct (post_move_within clk o _ _ _ _ _ _ _ H5 H6) as [F _].
  apply after_ok in H6 as [[[] ->] _]. apply after_ok in H5 as [[[] ->] _].
  apply after_ok in H4 as [[[] ->] H4].
  destruct (pre_move_ok clk o _ w _ _ _ _ _ (discovered_pre_move w o) H1 H2 H3)
    as (_ & Htemp & Hout & Hnd & _).
  rewrite (move_temp_run _ _ Htemp) in H4 by (by rewrite Hout).
  injection H4 as <-.
  rewrite (F _ (temp_not_post_move_path w o)). simpl.
  rewrite lookup_insert_ne by done. apply lookup_delete_eq.
Qed.

(** X14: with rename requested and a timestamp that holds no path
    separator, a run that returns leaves two files with the same content:
    the consolidated artifact stays where it is and the init file is a copy
    of it. *)
Theorem init_file_is_artifact_copy (o : options) w w' :
  discover w o ≠ [] → opt_rename o = true →
  Str.no_separator (opt_timestamp o) = true →
  consolidate_migrations clk (Some o) w = (Ok tt, w') →
  w_fs w' !! OUTPUT_FILE =
    Some (File (artifact_text clk (w_fs w) (discover w o)))
  ∧ w_fs w' !! join MIGRATIONS_DIR (opt_timestamp o +:+ "_initial_schema.sql") =
    Some (File (artifact_text clk (w_fs w) (discover w o))).
Proof.
  intros Hne Hren _. rewrite consolidate_unfold, bool_decide_eq_false_2 by done.
  intros (r1 & w1 & r2 & w2 & r3 & w3 & r4 & w4 & r5 & w5 &
          H1 & H2 & H3 & H4 & H5 & H6)%stages_inv.
  destruct (post_move_within clk o _ _ _ _ _ _ _ H5 H6) as [F _].
  apply after_ok in H6 as [[[] ->] H6]. apply after_ok in H5 as [[[] ->] H5].
  apply after_ok in H4 as [[[] ->] H4].
  destruct (pre_move_ok clk o _ w _ _ _ _ _ (discovered_pre_move w o) H1 H2 H3)
    as (_ & Htemp & Hout & Hnd & _).
  rewrite (move_temp_run _ _ Htemp) in H4 by (by rewrite Hout).
  injection H4 as <-.
  split.
  { rewrite (F _ (output_not_post_move_path w o)). simpl.
    apply lookup_insert_eq. }
  rewrite join_root. fold (init_filename (opt_timestamp o)).
  rewrite Hren in H5. simpl in H5.
  assert (∃ a, w_fs w5 !! [init_filename (opt_timestamp o)] = Some (File a) ∧
               <[OUTPUT_FILE := File (artifact_text clk (w_fs w) (discover w o))]>
                 (delete TEMP_FILE (w_fs w3)) !! OUTPUT_FILE = Some (File a))
    as (a & Hinit & Ha).
  { pose proof (rename_to_init_run clk _ _ _ _ H5) as Hcases. simpl in Hcases.
    destruct (_ !! [init_filename (opt_timestamp o)]) as [n|] in Hcases.
    - destruct Hcases as [[[e [=]] _] | (c & -> & [[[e [=]] _] | (a & Ha & _ & ->)])].
      exists a. split; [|done]. simpl. apply lookup_insert_eq.
    - destruct Hcases as [[[e [=]] _] | (a & Ha & _ & ->)].
      exists a. split; [|done]. simpl. apply lookup_insert_eq. }
  rewrite lookup_insert_eq in Ha. injection Ha as <-.
  assert (within (λ q, opt_delete o = true ∧ opt_backup o = true ∧
                       delete_paths (discover w o) q) (λ _, True)
            (delete_stage o (discover w o))) as W6.
  { eapply within_mono; [| |apply within_delete_stage]; done. }
  destruct (W6 _ _ _ H6) as [F6 _]. rewrite F6; [done|].
  intros (_ & _ & f & Hf & [= E]).
  by apply (discovered_not_init w o f Hren Hf).
Qed.

Lemma sorted_names_unique (l1 l2 : list string) :
  Sorted String.le l1 → Sorted String.le l2 → NoDup l1 → NoDup l2 →
  (∀ f, f ∈ l1 ↔ f ∈ l2) → l1 = l2.
Proof.
  intros S1 S2 N1 N2 H. apply (Sorted_unique String.le); [done..|].
  by apply NoDup_Permutation.
Qed.

(** What a later discovery with the same options finds: the files found
    before that are still there. *)
Lemma discover_after_run o w r w' f :
  consolidate_migrations clk (Some o) w = (r, w') →
  f ∈ discover w' o ↔ f ∈ discover w o ∧ is_Some (w_fs w' !! [f]).
Proof.
  intros Hrun. unfold discover.
  rewrite !elem_of_discover_from, !elem_of_listdir. split.
  - intros (Hsome & Hm & Hi). split_and!; [|done..].
    destruct (w_fs w !! [f]) as [n|] eqn:Hw; [done|].
    rewrite (run_frame o w r w' f [] Hrun) in Hsome.
    + by rewrite Hw in Hsome.
    + by apply is_migration_not_backups.
    + by apply is_migration_not_output.
    + by apply is_migration_not_temp.
    + intros Hren. by apply not_planned_init_not_init, Hi.
    + intros _ _ _ (Hin & _)%elem_of_discover_from.
      apply elem_of_listdir in Hin. rewrite Hw in Hin. by destruct Hin.
  - intros [(_ & Hm & Hi) Hsome]. done.
Qed.

(** X12: a run (the timestamp of a rename holding no path separator) never
    creates anything that a later run with the same options would take for a
    migration.  The discovery made after a run finds the files found before
    that are still there; unless a deletion was allowed it returns the very
    same list, every file of it holds the same content, and so a second run
    writes the same sections. *)
Theorem rerun_discovers_same_files (o : options) w r w' :
  (opt_rename o = true → Str.no_separator (opt_timestamp o) = true) →
  consolidate_migrations clk (Some o) w = (r, w') →
  (∀ f, f ∈ discover w' o ↔ f ∈ discover w o ∧ is_Some (w_fs w' !! [f]))
  ∧ (opt_delete o = false ∨ opt_backup o = false →
     discover w' o = discover w o
     ∧ (∀ f, f ∈ discover w o → w_fs w' !! [f] = w_fs w !! [f])
     ∧ sections (w_fs w') (discover w' o) = sections (w_fs w) (discover w o)).
Proof.
  intros _ Hrun. split; [intros f; by apply (discover_after_run o w r w')|].
  intros Hnodel.
  assert (∀ f, f ∈ discover w o → w_fs w' !! [f] = w_fs w !! [f]) as Hsame.
  { intros f Hf. destruct (consolidate_within clk o w r w' Hrun) as [F _].
    apply F, discovered_not_run_path; [|done].
    intros [? ?]. destruct Hnodel; congruence. }
  assert (discover w' o = discover w o) as Heq.
  { apply sorted_names_unique;
      [apply sort_names_sorted..
      |apply discover_from_NoDup, NoDup_listdir
      |apply discover_from_NoDup, NoDup_listdir|].
    intros f. rewrite (discover_after_run o w r w' f Hrun). split; [by intros []|].
    intros Hf. split; [done|]. rewrite (Hsame f Hf).
    apply elem_of_discover_from in Hf as (Hin & _). by apply elem_of_listdir. }
  split_and!; [done..|]. rewrite Heq. unfold sections.
  apply list_eq_Forall2, Forall2_fmap, Forall_Forall2_diag, Forall_forall.
  intros f Hf. unfold file_text. by rewrite (Hsame f Hf).
Qed.

(** A confirmed deletion that returns has removed every discovered file. *)
Lemma confirmed_run_removes o w w' line rest :
  opt_delete o = true → opt_backup o = true →
  w_stdin w = line :: rest → Str.lower line = "y" →
  consolidate_migrations clk (Some o) w = (Ok tt, w') →
  ∀ f, f ∈ discover w o → w_fs w' !! [f] = None.
Proof.
  intros Hd Hb Hl Hy Hrun f Hf.
  assert (discover w o ≠ []) as Hne.
  { intros E. rewrite E in Hf. by apply not_elem_of_nil in Hf. }
  destruct (consolidate_migrations clk (Some (set_delete false o)) w)
    as [r0 w0] eqn:Hrun0.
  pose proof (run_split clk o w _ w' r0 w0 Hne Hrun Hrun0) as Hdel.
  destruct (run_without_delete clk o w r0 w0 Hrun0) as (_ & Hstdin & _).
  apply after_ok in Hdel as [_ Hdel].
  destruct (delete_stage_run _ _ _ _ _ Hdel)
    as [(Hno & _) | (_ & _ & [(He & _) |
          (line' & rest' & Hl' & [(Hny & _) | (_ & Hdm)])])].
  - by destruct Hno.
  - congruence.
  - rewrite Hstdin, Hl in Hl'. injection Hl' as <- <-. done.
  - assert (NoDup (discover w o)) as Hnd
      by apply discover_from_NoDup, NoDup_listdir.
    destruct (delete_migrations_run _ _ _ _ Hnd Hdm) as [_ Hok].
    destruct (Hok eq_refl) as (_ & _ & Hq). apply Hq. by exists f.
Qed.

(** X13: after a run that deleted the migrations on a confirmed request, a
    second run with the same options (at any time) finds no migration file
    and does nothing: the artifact and, with rename (its timestamp holding
    no path separator), the init file that the first run wrote are not
    taken for migrations. *)
Theorem rerun_after_deletion_finds_nothing (o : options) w w' line rest :
  (opt_rename o = true → Str.no_separator (opt_timestamp o) = true) →
  opt_delete o = true → opt_backup o = true →
  w_stdin w = line :: rest → Str.lower line = "y" →
  consolidate_migrations clk (Some o) w = (Ok tt, w') →
  discover w' o = []
  ∧ ∀ clk', consolidate_migrations clk' (Some o) w' = (Ok tt, w').
Proof.
  intros _ Hd Hb Hl Hy Hrun.
  assert (discover w' o = []) as Hnil.
  { destruct (discover w' o) as [|f l] eqn:E; [done|]. exfalso.
    assert (f ∈ discover w' o) as Hf by (rewrite E; left).
    apply (discover_after_run o w _ w' f Hrun) in Hf as [Hf [n Hn]].
    by rewrite (confirmed_run_removes o w w' line rest Hd Hb Hl Hy Hrun f Hf) in Hn. }
  split; [done|]. intros clk'.
  by rewrite consolidate_unfold, bool_decide_eq_true_2.
Qed.

(** X9: the only line a run reads from standard input is the confirmation
    of the deletion: every run reads at most one line, and none at all
    unless delete and backup were both requested.  So the program started
    from the command line without [-i] never waits for input unless both
    [-d] and [-b] were given. *)
Theorem run_reads_only_confirmation :
  (∀ (o : options) w r w',
     consolidate_migrations clk (Some o) w = (r, w') →
     w_stdin w' = w_stdin w ∨
     (opt_delete o = true ∧ opt_backup o = true ∧
      ∃ line, w_stdin w = line :: w_stdin w'))
  ∧ (∀ a w r w',
       wants_menu a = false → arg_delete a = false ∨ arg_backup a = false →
       main clk a w = (r, w') →
       w_stdin w' = w_stdin w ∧
       ∃ t, w_trace w' = w_trace w ++ t ∧ ∀ line, EvInput line ∉ t).
Proof.
  split.
  - intros o w r w' Hrun.
    destruct (decide (discover w o = [])) as [Hnil|Hne].
    { rewrite consolidate_unfold, bool_decide_eq_true_2 in Hrun by done.
      injection Hrun as <- <-. by left. }
    destruct (consolidate_migrations clk (Some (set_delete false o)) w)
      as [r0 w0] eqn:Hrun0.
    pose proof (run_split clk o w r w' r0 w0 Hne Hrun Hrun0) as Hdel.
    destruct (run_without_delete clk o w r0 w0 Hrun0) as (_ & Hstdin & _).
    rewrite <-Hstdin.
    destruct r0 as [[]|e0]; [|apply after_raise in Hdel as [_ ->]; by left].
    simpl in Hdel.
    destruct (delete_stage_run _ _ _ _ _ Hdel)
      as [(_ & _ & ->) | (Hd & Hb & [(_ & _ & ->) |
            (line & rest & Hl & [(_ & _ & ->) | (_ & Hdm)])])];
      [by left|by left|right; eauto|].
    right. split_and!; [done..|]. exists line. rewrite Hl. f_equal.
    destruct (within_delete_migrations (discover w o) _ _ _ Hdm)
      as [_ (t & _ & Et & It)]. simpl in It.
    rewrite It, (inputs_nil_of_Forall (delete_event (discover w o))); [done| |done].
    intros l (f & _ & [=]).
  - intros a w r w' Hcli Hnd. unfold main, build_options. rewrite Hcli.
    rewrite (bind_ok _ _ _ _ _ (eq_refl : ret _ w = (Ok _, w))).
    intros Hmain.
    destruct (consolidate_within clk _ _ _ _ Hmain) as [_ (t & Ht & Et & It)].
    assert (∀ line, ¬ run_event (options_of_args clk a)
                      (discover w (options_of_args clk a)) (EvInput line))
      as Hno by (intros line [Hd Hb]; simpl in Hd, Hb; destruct Hnd; congruence).
    split.
    + by rewrite It, (inputs_nil_of_Forall _ _ Hno Et).
    + exists t. split; [done|]. intros line Hin.
      rewrite Forall_forall in Et. by apply (Hno line), Et.
Qed.

End run_facts.

Section menu_facts.

Variable clk : clock.

(** The loop of the menu returns options, or raises [SystemExit] on choice
    5, or runs out of input; the lines it leaves are a suffix of those it
    was given. *)
Lemma menu_loop_suffix n :
  ∀ lines opts r rest,
    length lines ≤ n → menu_loop lines opts = (r, rest) →
    (∃ consumed, lines = consumed ++ rest) ∧
    ((∃ o, r = Ok o) ∨ r = Raise (SystemExit "Operation cancelled by user") ∨
     (r = Raise EOFError ∧ rest = [])).
Proof.
  induction n as [|n IH]; intros [|line lines] opts r rest Hlen;
    simpl in *; try lia.
  - intros [= <- <-]. split; [by exists []|auto].
  - intros [= <- <-]. split; [by exists []|auto].
  - assert (∀ opts' r rest, menu_loop lines opts' = (r, rest) →
              (∃ consumed, line :: lines = consumed ++ rest) ∧
              ((∃ o, r = Ok o) ∨
               r = Raise (SystemExit "Operation cancelled by user") ∨
               (r = Raise EOFError ∧ rest = []))) as Hrec.
    { intros opts' r' rest' H.
      destruct (IH lines opts' r' rest') as [[c ->] ?]; [lia|done|].
      split; [by exists (line :: c)|done]. }
    assert (∀ opts' r rest,
              match lines with
              | [] => (Raise EOFError, [])
              | _ :: rest' => menu_loop rest' opts'
              end = (r, rest) →
              (∃ consumed, line :: lines = consumed ++ rest) ∧
              ((∃ o, r = Ok o) ∨
               r = Raise (SystemExit "Operation cancelled by user") ∨
               (r = Raise EOFError ∧ rest = []))) as Hrec2.
    { intros opts' r' rest' H. destruct lines as [|l2 lines'].
      - injection H as <- <-. split; [by exists [line]|auto].
      - simpl in Hlen.
        destruct (IH lines' opts' r' rest') as [[c ->] ?]; [lia|done|].
        split; [by exists (line :: l2 :: c)|done]. }
    repeat case_bool_decide.
    + intros [= <- <-]. split; [by exists [line]|auto].
    + intros [= <- <-]. split; [by exists [line]|eauto].
    + destruct (_ && _); [apply Hrec2 | apply Hrec].
    + destruct (_ && _); [apply Hrec2 | apply Hrec].
    + destruct (opt_rename _); simpl; [apply Hrec|].
      destruct lines as [|l2 lines'].
      * intros [= <- <-]. split; [by exists [line]|auto].
      * intros H'. simpl in Hlen.
        apply IH in H' as [[c ->] ?]; [|lia].
        split; [by exists (line :: l2 :: c)|done].
    + apply Hrec.
Qed.

(** The timestamp of the options the menu returns: whatever holds of the
    default and of every non-blank stripped input line holds of it. *)
Lemma menu_loop_timestamp (P : string → Prop) n :
  ∀ lines opts o' rest,
    length lines ≤ n →
    (∀ line, line ∈ lines → Str.strip line ≠ "" → P (Str.strip line)) →
    P (opt_timestamp opts) →
    menu_loop lines opts = (Ok o', rest) → P (opt_timestamp o').
Proof.
  induction n as [|n IH]; intros [|line lines] opts o' rest Hlen Hlines Hopts;
    simpl in *; try done; [lia|].
  assert (∀ l, l ∈ lines → Str.strip l ≠ "" → P (Str.strip l)) as Hlines'
    by (intros l Hl; apply Hlines; by right).
  assert (∀ opts', P (opt_timestamp opts') →
            menu_loop lines opts' = (Ok o', rest) → P (opt_timestamp o')) as Hrec
    by (intros opts' HP Hrun; apply (IH lines opts' o' rest); [lia|done..]).
  assert (∀ opts', P (opt_timestamp opts') →
            match lines with
            | [] => (Raise EOFError, [])
            | _ :: rest' => menu_loop rest' opts'
            end = (Ok o', rest) → P (opt_timestamp o')) as Hrec2.
  { intros opts' HP. destruct lines as [|l2 lines']; [done|].
    simpl in Hlen. intros Hrun. apply (IH lines' opts' o' rest); [lia| |done..].
    intros l Hl. apply Hlines'. by right. }
  repeat case_bool_decide.
  - done.
  - by intros [= <- <-].
  - destruct (_ && _); [by apply Hrec2 | by apply Hrec].
  - destruct (_ && _); [by apply Hrec2 | by apply Hrec].
  - destruct (opt_rename _); simpl; [by apply Hrec|].
    destruct lines as [|l2 lines']; [done|]. simpl in Hlen.
    intros Hrun. eapply (IH lines' _ o' rest); [lia| | |exact Hrun].
    + intros l Hl. apply Hlines'. by right.
    + destruct (Str.truthy (Str.strip l2)) eqn:Ht; [|done]. simpl.
      apply Hlines'; [left|]. intros E. by rewrite E in Ht.
  - by apply Hrec.
Qed.

Lemma menu_loop_skips junk lines (opts : options) :
  Forall (λ l, is_choice l = false) junk →
  menu_loop (junk ++ lines) opts = menu_loop lines opts.
Proof.
  induction 1 as [|l junk Hl _ IH]; [done|]. simpl.
  apply bool_decide_eq_false in Hl.
  rewrite !bool_decide_eq_false_2; [done|intros E; apply Hl; rewrite E..].
  - do 2 right. left.
  - do 1 right. left.
  - left.
  - do 3 right. left.
  - do 4 right. left.
Qed.

Lemma show_menu_run w r w' :
  show_menu clk w = (r, w') →
  ∃ consumed, menu_loop (w_stdin w) (default_options clk) = (r, w_stdin w') ∧
    w_stdin w = consumed ++ w_stdin w' ∧
    w' = World (w_fs w) (w_stdin w') (w_trace w ++ (EvInput <$> consumed)).
Proof.
  unfold show_menu.
  destruct (menu_loop (w_stdin w) (default_options clk)) as [r0 rest] eqn:E.
  intros [= <- <-]. simpl.
  destruct (menu_loop_suffix _ _ _ _ _ (Nat.le_refl _) E) as [[c Hc] _].
  exists c. split_and!; [done..|].
  rewrite Hc at 1 2. rewrite length_app, Nat.add_sub.
  by rewrite take_app_length.
Qed.

(** X6: the interactive menu only reads standard input: it leaves the file
    system as it is and logs exactly the lines it consumed, a prefix of the
    input.  It returns options, or raises [SystemExit] (choice 5), or
    [EOFError] when the input ends; choice 5 given as the first recognised
    line cancels at once.  When the menu raises, [main] raises the same
    exception without having called [consolidate_migrations]: no file is
    touched. *)
Theorem menu_reads_input_only w r w' :
  show_menu clk w = (r, w') →
  w_fs w' = w_fs w
  ∧ (∃ consumed, w_stdin w = consumed ++ w_stdin w' ∧
                 w_trace w' = w_trace w ++ (EvInput <$> consumed))
  ∧ ((∃ o, r = Ok o) ∨ r = Raise (SystemExit "Operation cancelled by user") ∨
     (r = Raise EOFError ∧ w_stdin w' = []))
  ∧ (∀ junk line rest,
       w_stdin w = junk ++ line :: rest →
       Forall (λ l, is_choice l = false) junk → Str.strip line = "5" →
       r = Raise (SystemExit "Operation cancelled by user") ∧ w_stdin w' = rest)
  ∧ (∀ a e, wants_menu a = true → r = Raise e →
       main clk a w = (Raise e, w') ∧ w_fs w' = w_fs w).
Proof.
  intros Hrun. destruct (show_menu_run _ _ _ Hrun) as (c & Hloop & Hc & Hw').
  destruct (menu_loop_suffix _ _ _ _ _ (Nat.le_refl _) Hloop) as [_ Hkind].
  assert (w_fs w' = w_fs w) as Hfs by (by rewrite Hw').
  split_and!.
  - done.
  - exists c. split; [done|]. by rewrite Hw'.
  - done.
  - intros junk line rest Hin Hjunk Hline.
    rewrite Hin, menu_loop_skips in Hloop by done. simpl in Hloop.
    rewrite Hline in Hloop. simpl in Hloop. by injection Hloop as <- <-.
  - intros a e Ha ->. split; [|done]. unfold main, build_options. rewrite Ha.
    by apply bind_raise.
Qed.

(** X7: the timestamp in the options the menu returns is today's date or a
    line typed by the user, stripped of surrounding blanks and not empty: a
    blank answer to the timestamp prompt keeps the value held so far. *)
Theorem menu_timestamp_origin w o w' :
  show_menu clk w = (Ok o, w') →
  opt_timestamp o = now_Ymd clk ∨
  ∃ line, line ∈ w_stdin w ∧ Str.strip line ≠ "" ∧
          opt_timestamp o = Str.strip line.
Proof.
  intros (c & Hloop & _)%show_menu_run.
  apply (menu_loop_timestamp
           (λ t, t = now_Ymd clk ∨
                 ∃ line, line ∈ w_stdin w ∧ Str.strip line ≠ "" ∧ t = Str.strip line)
           _ _ _ _ _ (Nat.le_refl _)) in Hloop; [done| |by left].
  intros line Hin Hne. right. by exists line.
Qed.

(** X8: on both paths that build the options, the menu and the command
    line, the timestamp is never the empty string (as long as the date
    that [strftime] formats is not): an empty [-t] argument and a blank
    menu answer both fall back to today's date. *)
Theorem built_timestamp_nonempty a w o w' :
  now_Ymd clk ≠ "" →
  build_options clk a w = (Ok o, w') → opt_timestamp o ≠ "".
Proof.
  intros Hclk. unfold build_options. destruct (wants_menu a).
  - intros (c & Hloop & _)%show_menu_run.
    by apply (menu_loop_timestamp (λ t, t ≠ "") _ _ _ _ _ (Nat.le_refl _))
      in Hloop.
  - intros [= <- <-]. unfold options_of_args. simpl.
    destruct (arg_timestamp a) as [[|c t]|]; simpl; done.
Qed.

(** X17: the menu skips every line that is not one of its five choices,
    and choice 4 given before any toggle proceeds with the defaults - backup
    set, delete and rename unset, today's date as timestamp - which are the
    defaults of [consolidate_migrations] called without options. *)
Theorem menu_proceed_runs_defaults a w junk line rest :
  wants_menu a = true → w_stdin w = junk ++ line :: rest →
  Forall (λ l, is_choice l = false) junk → Str.strip line = "4" →
  let w1 := World (w_fs w) rest (w_trace w ++ (EvInput <$> junk ++ [line])) in
  main clk a w =
    consolidate_migrations clk (Some (Options true false false (now_Ymd clk))) w1
  ∧ main clk a w = consolidate_migrations clk None w1.
Proof.
  intros Ha Hin Hjunk Hline w1.
  assert (show_menu clk w = (Ok (default_options clk), w1)) as Hmenu.
  { unfold show_menu. rewrite Hin, menu_loop_skips by done. simpl.
    rewrite Hline. simpl. unfold w1. do 3 f_equal.
    replace (junk ++ line :: rest) with ((junk ++ [line]) ++ rest)
      by (by rewrite <-app_assoc).
    rewrite length_app, Nat.add_sub. by rewrite take_app_length. }
  assert (main clk a w = consolidate_migrations clk (Some (default_options clk)) w1)
    as ->; [|done].
  unfold main, build_options. rewrite Ha. by rewrite (bind_ok _ _ _ _ _ Hmenu).
Qed.

End menu_facts.

Section deletion_facts.

Lemma lower_ascii_y (c : ascii) :
  Str.lower_ascii c = "y"%char → c = "y"%char ∨ c = "Y"%char.
Proof.
  destruct c as [b0 b1 b2 b3 b4 b5 b6 b7].
  destruct b0, b1, b2, b3, b4, b5, b6, b7; vm_compute; intros H;
    first [discriminate H | by left | by right].
Qed.

Lemma lower_eq_y (s : string) : Str.lower s = "y" ↔ s = "y" ∨ s = "Y".
Proof.
  split.
  - destruct s as [|c [|c' s']]; simpl; intros [= H].
    by destruct (lower_ascii_y c H) as [-> | ->]; [left|right].
  - by intros [-> | ->].
Qed.

(** X15: the confirmation is taken literally: with delete and backup set,
    the deletion stage removes the files exactly when the line read is [y]
    or [Y]; every other answer - [yes], [ y], an empty line - cancels the
    deletion and the stage returns having only read the line. *)
Theorem only_y_confirms_deletion (o : options) files w line rest :
  opt_delete o = true → opt_backup o = true → w_stdin w = line :: rest →
  (line = "y" ∨ line = "Y" →
     delete_stage o files w =
       delete_migrations files
         (World (w_fs w) rest (w_trace w ++ [EvInput line])))
  ∧ (line ≠ "y" → line ≠ "Y" →
     delete_stage o files w =
       (Ok tt, World (w_fs w) rest (w_trace w ++ [EvInput line]))).
Proof.
  intros Hd Hb Hl. unfold delete_stage. rewrite Hd, Hb. simpl.
  unfold bind, Os.input. rewrite Hl. split.
  - intros Hy%lower_eq_y. by rewrite bool_decide_eq_true_2.
  - intros H1 H2. rewrite bool_decide_eq_false_2; [done|].
    intros [? | ?]%lower_eq_y; done.
Qed.

Lemma for_each_app {A} (l1 l2 : list A) (body : A → M unit) w :
  for_each (l1 ++ l2) body w = (for_each l1 body ;; for_each l2 body) w.
Proof.
  revert w. induction l1 as [|x l1 IH]; intros w; simpl; [done|].
  unfold bind. destruct (body x w) as [[[]|e] w1]; [|done].
  by rewrite IH.
Qed.

(** X16: [delete_migrations] is not atomic.  Given names of directory
    entries (no path separator in them), it removes the listed files in
    order and stops at the first name that is not (or no longer) a regular
    file - a missing file, a directory, or a name listed twice - raising
    [FileNotFoundError] or [IsADirectoryError]; the files listed before it
    are gone, everything else is as it was. *)
Theorem delete_migrations_stops_at_first_failure
    (removed : list string) f (todo : list string) w :
  Forall (λ g, Str.no_separator g = true) (removed ++ f :: todo) →
  NoDup removed → Forall (regular (w_fs w)) removed →
  f ∈ removed ∨ ¬ regular (w_fs w) f →
  ∃ e w', delete_migrations (removed ++ f :: todo) w = (Raise e, w')
    ∧ (e = FileNotFoundError ∨ e = IsADirectoryError)
    ∧ (∀ g, g ∈ removed → w_fs w' !! [g] = None)
    ∧ (∀ q, (∀ g, g ∈ removed → q ≠ [g]) → w_fs w' !! q = w_fs w !! q)
    ∧ w_stdin w' = w_stdin w
    ∧ w_trace w' = w_trace w ++ ((λ g, EvRemove [g]) <$> removed).
Proof.
  intros _ Hnd Hreg Hf.
  destruct (delete_migrations removed w) as [r1 w1] eqn:H1.
  destruct (delete_migrations_run _ _ _ _ Hnd H1) as [Hiff Hok].
  assert (r1 = Ok tt) as -> by by apply Hiff.
  destruct (Hok eq_refl) as (Ht & Hin & Hq).
  assert (∀ c, w_fs w1 !! [f] ≠ Some (File c)) as Hnot.
  { intros c Hc. destruct Hf as [Hf | Hf].
    - destruct (Hq [f]) as [Hgone _]. rewrite Hgone in Hc; [done|]. by exists f.
    - destruct (decide (f ∈ removed)) as [Hin'|Hout].
      + destruct (Hq [f]) as [Hgone _]. rewrite Hgone in Hc; [done|]. by exists f.
      + destruct (Hq [f]) as [_ Hkeep]. rewrite Hkeep in Hc.
        * apply Hf. by exists c.
        * intros (g & Hg & [= ->]). done. }
  assert (∃ e, Os.remove [f] w1 = (Raise e, w1) ∧
               (e = FileNotFoundError ∨ e = IsADirectoryError)) as (e & He & Hkind).
  { unfold Os.remove, fs_call, Fs.remove.
    destruct (w_fs w1 !! [f]) as [[c|]|] eqn:E; [by destruct (Hnot c)|eauto..]. }
  exists e, w1. split_and!; [|done| | |done..].
  - unfold delete_migrations in *. rewrite for_each_app.
    rewrite (bind_ok _ _ _ _ _ H1). simpl. rewrite join_root.
    by apply bind_raise.
  - intros g Hg. apply Hq. by exists g.
  - intros q Hq'. apply Hq. intros (g & Hg & ->). by apply (Hq' g).
Qed.

End deletion_facts.

Section success.

Variable clk : clock.

Lemma old_backup_not_subdir : old_backup_path clk ≠ backup_subdir clk.
Proof. intros H. discriminate H. Qed.

Lemma create_backup_dir_makes_dir w :
  (∀ c, w_fs w !! BACKUP_DIR ≠ Some (File c)) →
  ∃ w0, create_backup_dir w = (Ok tt, w0)
    ∧ w_fs w0 !! BACKUP_DIR = Some Dir
    ∧ ∀ q, q ≠ BACKUP_DIR → w_fs w0 !! q = w_fs w !! q.
Proof.
  intros Hroot. eexists. split; [apply create_backup_dir_run|].
  rewrite (exists_lookup _ BACKUP_DIR) by done. case_bool_decide as Hex.
  - split; [|done]. destruct Hex as [[c|] Hn]; [by destruct (Hroot c)|done].
  - simpl. split; [apply lookup_insert_eq|].
    intros q Hq. by rewrite lookup_insert_ne.
Qed.

(** The backup stage returns when nothing is in its way. *)
Lemma backup_stage_succeeds o files w :
  Fs.wf (w_fs w) →
  (opt_backup o = true → w_fs w !! backup_subdir clk = None) →
  (∀ c, w_fs w !! BACKUP_DIR ≠ Some (File c)) →
  w_fs w !! old_backup_path clk = None →
  Forall (regular (w_fs w)) files →
  ∃ w1, backup_stage clk o files w = (Ok tt, w1)
    ∧ (∀ c, w_fs w1 !! BACKUP_DIR ≠ Some (File c))
    ∧ w_fs w1 !! old_backup_path clk = None.
Proof.
  intros Hwf Hnew Hroot Hold Hreg. unfold backup_stage.
  destruct (opt_backup o); simpl; [|by exists w].
  destruct (create_backup_dir_makes_dir w Hroot) as (w0 & H0 & Hroot0 & Hframe0).
  rewrite (bind_ok _ _ _ _ _ H0).
  destruct (backup_migrations_succeeds clk files w0) as [w1 H1].
  - rewrite Hframe0 by done. by apply Hnew.
  - intros g. rewrite Hframe0 by done. unfold backup_copy, join.
    rewrite (wf_child_absent _ _ _ Hwf); [done..|]. by apply Hnew.
  - intros c. by rewrite Hroot0.
  - rewrite Forall_forall in Hreg |- *. intros f Hf.
    destruct (Hreg f Hf) as [c Hc]. exists c. rewrite Hframe0; [done|].
    intros E. rewrite E in Hc. by destruct (Hroot c).
  - exists w1. rewrite (bind_ok _ _ _ _ _ H1). split; [done|].
    assert (w_fs w0 !! backup_subdir clk = None →
            ∀ g, w_fs w0 !! backup_copy clk g ≠ Some Dir) as Hchildren.
    { intros Hnone g. rewrite Hframe0 in Hnone |- * by done.
      unfold backup_copy, join. by rewrite (wf_child_absent _ _ _ Hwf). }
    destruct (backup_migrations_ok clk _ _ _ _ Hchildren H1)
      as (_ & _ & Hroot1 & _ & _ & Hframe1 & _).
    split; [intros c; by rewrite Hroot1|].
    rewrite Hframe1, Hframe0; [done..| |].
    + apply old_backup_not_subdir.
    + intros f _ E. discriminate E.
Qed.

(** Saving the previous artifact succeeds when its place in the backup
    root is free. *)
Lemma save_old_artifact_succeeds w :
  (∀ c, w_fs w !! BACKUP_DIR ≠ Some (File c)) →
  w_fs w !! old_backup_path clk = None →
  w_fs w !! OUTPUT_FILE ≠ Some Dir →
  ∃ w', save_old_artifact clk w = (Ok tt, w').
Proof.
  intros Hroot Hold Hout.
  destruct (save_old_artifact clk w) as [r w'] eqn:Hrun.
  exists w'. f_equal.
  unfold save_old_artifact in Hrun.
  apply bind_inv in Hrun as [(b & w0 & [= <- <-] & H2) | (e & [=] & _)].
  rewrite exists_lookup in H2 by done.
  case_bool_decide as Hex; simpl in H2; [|by injection H2 as <- _].
  destruct Hex as [n Hn]. destruct n as [c|]; [|done].
  destruct (create_backup_dir_makes_dir w Hroot) as (w0 & H0 & Hroot0 & Hframe0).
  rewrite (bind_ok _ _ _ _ _ H0) in H2.
  fold (old_backup_path clk) in H2.
  assert (Fs.copy2 OUTPUT_FILE (old_backup_path clk) (w_fs w0)
          = inr (<[old_backup_path clk := File c]> (w_fs w0))) as Hcopy.
  { assert (w_fs w0 !! old_backup_path clk = None) as Hold0
      by (by rewrite Hframe0).
    assert (Fs.dest (w_fs w0) OUTPUT_FILE (old_backup_path clk)
            = old_backup_path clk) as Hdest.
    { unfold Fs.dest, Fs.isdir, Fs.node_at, old_backup_path, join in *.
      simpl in *. by rewrite Hold0. }
    unfold Fs.copy2. rewrite Hdest. rewrite bool_decide_eq_false_2 by done.
    unfold Fs.read_bytes. rewrite Hframe0, Hn by done.
    unfold Fs.open_w, Fs.check_parent, Fs.parent, Fs.node_at.
    unfold old_backup_path, BACKUP_DIR, join in *. simpl in *.
    by rewrite Hroot0, Hold0, write_after_open. }
  unfold Os.copy2, fs_call in H2. rewrite Hcopy in H2. by injection H2 as <- _.
Qed.

(** Copying the artifact to an init file that is not there yet. *)
Lemma rename_fresh_succeeds timestamp w a :
  w_fs w !! [init_filename timestamp] = None →
  w_fs w !! OUTPUT_FILE = Some (File a) →
  ∃ w', rename_to_init clk (Some timestamp) w = (Ok tt, w').
Proof.
  intros Hinit Hout.
  destruct (rename_to_init clk (Some timestamp) w) as [r w'] eqn:Hrun.
  exists w'. f_equal.
  unfold rename_to_init in Hrun. simpl in Hrun. rewrite join_root in Hrun.
  unfold bind at 1 in Hrun. unfold bind at 1 in Hrun.
  unfold Os.path_exists in Hrun. rewrite exists_lookup in Hrun by done.
  rewrite bool_decide_eq_false_2 in Hrun by (rewrite Hinit; by intros [? ?]).
  simpl in Hrun.
  assert (Fs.copy2 OUTPUT_FILE [init_filename timestamp] (w_fs w)
          = inr (<[[init_filename timestamp] := File a]> (w_fs w))) as Hcopy.
  { assert (Fs.dest (w_fs w) OUTPUT_FILE [init_filename timestamp]
            = [init_filename timestamp]) as Hdest.
    { unfold Fs.dest, Fs.isdir, Fs.node_at. by rewrite Hinit. }
    unfold Fs.copy2. rewrite Hdest.
    rewrite bool_decide_eq_false_2
      by (apply not_eq_sym, init_not_output).
    unfold Fs.read_bytes. rewrite Hout.
    unfold Fs.open_w, Fs.check_parent, Fs.parent, Fs.node_at. simpl.
    by rewrite Hinit, write_after_open. }
  unfold Os.copy2, fs_call in Hrun. rewrite Hcopy in Hrun.
  by injection Hrun as <- _.
Qed.

(** Everything up to the deletion stage returns when nothing is in the
    way. *)
Lemma run_without_delete_succeeds (o : options) w :
  Fs.wf (w_fs w) →
  Forall (readable (w_fs w)) (discover w o) →
  (∀ c, w_fs w !! BACKUP_DIR ≠ Some (File c)) →
  (opt_backup o = true → w_fs w !! backup_subdir clk = None) →
  w_fs w !! old_backup_path clk = None →
  w_fs w !! TEMP_FILE ≠ Some Dir →
  w_fs w !! OUTPUT_FILE ≠ Some Dir →
  (opt_rename o = true → w_fs w !! [init_filename (opt_timestamp o)] = None) →
  ∃ w0, consolidate_migrations clk (Some (set_delete false o)) w = (Ok tt, w0).
Proof.
  intros Hwf Hreg Hroot Hnew Hold Htemp Hout Hinit.
  destruct (consolidate_migrations clk (Some (set_delete false o)) w)
    as [r w'] eqn:Hrun.
  exists w'. f_equal.
  rewrite consolidate_unfold, discover_set_delete in Hrun.
  case_bool_decide as Hne; [by injection Hrun as <- _|].
  apply stages_inv in Hrun
    as (r1 & w1 & r2 & w2 & r3 & w3 & r4 & w4 & r5 & w5 &
        H1 & H2 & H3 & H4 & H5 & H6).
  change (opt_rename (set_delete false o)) with (opt_rename o) in H5.
  change (opt_timestamp (set_delete false o)) with (opt_timestamp o) in H5.
  (* the backup *)
  destruct (backup_stage_succeeds (set_delete false o) (discover w o) w
              Hwf Hnew Hroot Hold (Forall_readable_regular _ _ Hreg))
    as (w1' & H1' & Hroot1 & Hold1).
  rewrite H1 in H1'. injection H1' as -> <-.
  destruct (within_backup_stage clk _ _ _ _ _ H1) as [F1 _].
  (* the temporary file *)
  simpl in H2.
  assert (∀ f, f ∈ discover w o → [f] ≠ TEMP_FILE) as Hnt
    by (intros f Hf; by eapply discovered_not_temp).
  assert (¬ under_backups TEMP_FILE) as Htb by (by intros [rest [=]]).
  destruct (write_temp_file_run clk _ _ _ _ Hnt H2)
    as [(Hdir & _) | [(_ & -> & _ & Htemp2) | (_ & _ & Hnreg & _)]].
  { rewrite (F1 _ Htb) in Hdir. done. }
  2:{ destruct Hnreg. eapply readable_ext; [|exact Hreg].
      intros f Hf. symmetry. apply F1.
      by apply (discovered_not_under_backups w o f). }
  (* the previous artifact *)
  simpl in H3.
  assert (∀ q, q ≠ TEMP_FILE → w_fs w2 !! q = w_fs w1 !! q) as F2
    by (intros q Hq; by rewrite Htemp2, lookup_insert_ne).
  destruct (save_old_artifact_succeeds w2) as [w3' H3'].
  { intros c. rewrite F2 by done. apply Hroot1. }
  { by rewrite F2. }
  { rewrite F2 by done. by rewrite (F1 _ output_not_under_backups). }
  rewrite H3 in H3'. injection H3' as -> <-.
  destruct (within_save_old_artifact clk _ _ _ H3) as [F3 _].
  (* the move *)
  simpl in H4.
  rewrite (move_temp_run w3 (artifact_text clk (w_fs w1) (discover w o))) in H4.
  2:{ by rewrite (F3 _ Htb), Htemp2, lookup_insert_eq. }
  2:{ rewrite (F3 _ output_not_under_backups), F2 by done.
      by rewrite (F1 _ output_not_under_backups). }
  injection H4 as <- <-.
  (* the rename *)
  simpl in H5.
  assert (r5 = Ok tt) as ->.
  { destruct (opt_rename o) eqn:Hren; simpl in H5; [|by injection H5 as <- _].
    match type of H5 with
    | rename_to_init _ _ ?W = _ =>
        destruct (rename_fresh_succeeds (opt_timestamp o) W
                    (artifact_text clk (w_fs w1) (discover w o))) as [w5' H5']
    end.
    - simpl. rewrite lookup_insert_ne, lookup_delete_ne.
      + rewrite (F3 _ (init_not_under_backups _)), F2.
        * rewrite (F1 _ (init_not_under_backups _)). by apply Hinit.
        * apply init_not_temp.
      + apply not_eq_sym, init_not_temp.
      + apply not_eq_sym, init_not_output.
    - simpl. apply lookup_insert_eq.
    - rewrite H5 in H5'. by injection H5' as -> _. }
  simpl in H6. by injection H6 as <- _.
Qed.

(** X18: a run returns whenever nothing is in its way.  On a well-formed
    file system where the discovered entries are regular files that decode
    and whose names are encoded text, the backup root is absent or a
    directory, the two timestamped backup names are free, the temporary file
    and the artifact are not directories, the timestamp of a rename is
    encoded text without a path separator and its init file is not there
    yet, and a line is waiting when a deletion has to be confirmed,
    [consolidate_migrations] returns without raising. *)
Theorem run_succeeds_when_unobstructed (o : options) w :
  Fs.wf (w_fs w) →
  Forall (readable (w_fs w)) (discover w o) →
  Forall (λ f, Str.utf8_valid f = true) (discover w o) →
  (∀ c, w_fs w !! BACKUP_DIR ≠ Some (File c)) →
  (opt_backup o = true →
   w_fs w !! join BACKUP_DIR ("migrations_backup_" +:+ now_backup clk) = None) →
  w_fs w !! join BACKUP_DIR
              ("consolidated_migration_" +:+ now_artifact clk +:+ ".sql") = None →
  w_fs w !! TEMP_FILE ≠ Some Dir →
  w_fs w !! OUTPUT_FILE ≠ Some Dir →
  (opt_rename o = true →
   Str.no_separator (opt_timestamp o) = true ∧
   Str.utf8_valid (opt_timestamp o) = true ∧
   w_fs w !! join MIGRATIONS_DIR (opt_timestamp o +:+ "_initial_schema.sql") = None) →
  (opt_delete o = true → opt_backup o = true → w_stdin w ≠ []) →
  ∃ w', consolidate_migrations clk (Some o) w = (Ok tt, w').
Proof.
  intros Hwf Hreg _ Hroot Hnew Hold Htemp Hout Hinit' Hin.
  assert (opt_rename o = true →
          w_fs w !! [init_filename (opt_timestamp o)] = None) as Hinit
    by (intros Hren; by destruct (Hinit' Hren) as (_ & _ & ?)).
  destruct (run_without_delete_succeeds o w Hwf Hreg Hroot Hnew Hold Htemp
              Hout Hinit) as [w0 Hrun0].
  destruct (consolidate_migrations clk (Some o) w) as [r w'] eqn:Hrun.
  exists w'. f_equal.
  destruct (decide (discover w o = [])) as [Hnil|Hne].
  { rewrite consolidate_unfold, bool_decide_eq_true_2 in Hrun by done.
    by injection Hrun as <- _. }
  pose proof (run_split clk o w r w' _ w0 Hne Hrun Hrun0) as Hdel.
  destruct (run_without_delete clk o w _ w0 Hrun0) as (Hfiles & Hstdin & _).
  simpl in Hdel.
  destruct (delete_stage_run _ _ _ _ _ Hdel)
    as [(_ & -> & _) | (Hd & Hb & [(He & _) |
          (line & rest & Hl & [(_ & -> & _) | (_ & Hdm)])])]; [done| |done|].
  - rewrite Hstdin in He. by destruct (Hin Hd Hb).
  - assert (NoDup (discover w o)) as Hnd
      by apply discover_from_NoDup, NoDup_listdir.
    destruct (delete_migrations_run _ _ _ _ Hnd Hdm) as [Hiff _].
    apply Hiff. simpl.
    eapply regular_ext; [|exact (Forall_readable_regular _ _ Hreg)].
    intros f Hf. by rewrite Hfiles.
Qed.

End success.

Section well_formed.

Variable clk : clock.

Implicit Types (I : fs → Prop) (p : path).









(** Well-formedness and the updates of the file system. *)
Lemma parent_ne p : p ≠ [] → Fs.parent p ≠ p.
Proof.
  destruct p as [|x l _] using rev_ind; [done|]. intros _. unfold Fs.parent.
  rewrite removelast_last. intros E. apply (f_equal length) in E.
  rewrite length_app in E. simpl in E. lia.
Qed.


























End well_formed.

Section failures.

Variable clk : clock.

(** X20: a discovered entry that cannot be read as text (a directory whose
    name ends with [.sql], or a file whose bytes are not valid UTF-8) makes
    the run raise before the artifact is replaced: nothing outside the
    temporary file and the backup root has changed, no line has been read,
    and no file has been moved or removed. *)
Theorem unreadable_entry_stops_run (o : options) w r w' :
  ¬ Forall (readable (w_fs w)) (discover w o) →
  consolidate_migrations clk (Some o) w = (r, w') →
  (∃ e, r = Raise e)
  ∧ (∀ q, q ≠ TEMP_FILE → ¬ under_backups q → w_fs w' !! q = w_fs w !! q)
  ∧ w_stdin w' = w_stdin w
  ∧ ∃ t, w_trace w' = w_trace w ++ t ∧
         ∀ ev, ev ∈ t →
           match ev with
           | EvMove _ _ | EvRemove _ | EvInput _ => False
           | _ => True
           end.
Proof.
  intros Hnreg. rewrite consolidate_unfold. case_bool_decide as Hne.
  { destruct Hnreg. rewrite Hne. constructor. }
  intros (r1 & w1 & r2 & w2 & r3 & w3 & r4 & w4 & r5 & w5 &
          H1 & H2 & H3 & H4 & H5 & H6)%stages_inv.
  destruct r3 as [[]|e3].
  { by destruct (pre_move_ok clk o _ w _ _ _ _ _ (discovered_pre_move w o)
                   H1 H2 H3) as (Hreg & _). }
  destruct (pre_move_within clk o _ _ _ _ _ _ _ _ H1 H2 H3)
    as [F (t & Ht & Et & It)].
  apply after_raise in H4 as [-> ->]. apply after_raise in H5 as [-> ->].
  apply after_raise in H6 as [-> ->].
  split_and!; [eauto| | |].
  - intros q Hq1 Hq2. apply F. by intros [? | ?].
  - rewrite It, (inputs_nil_of_Forall pre_move_event); [done| |done].
    by intros line [[] | []].
  - exists t. split; [done|]. intros ev Hev. rewrite Forall_forall in Et.
    destruct (Et _ Hev) as [He | He]; by destruct ev.
Qed.

Lemma raises_only_ret E {A} (a : A) : raises_only E (ret a).
Proof. by intros w e w' [=]. Qed.

Lemma raises_only_bind E {A B} (m : M A) (k : A → M B) :
  raises_only E m → (∀ a, raises_only E (k a)) → raises_only E (bind m k).
Proof.
  intros Hm Hk w e w' [(a & w1 & _ & H2) | (e' & H1 & [= <-])]%bind_inv.
  - by eapply Hk.
  - by eapply Hm.
Qed.

Lemma raises_only_when E (b : bool) (m : M unit) :
  raises_only E m → raises_only E (when b m).
Proof. destruct b; simpl; [done | intros _; apply raises_only_ret]. Qed.

Lemma raises_only_for_each E {A} (l : list A) (body : A → M unit) :
  (∀ x, x ∈ l → raises_only E (body x)) → raises_only E (for_each l body).
Proof.
  induction l as [|x l IH]; intros Hbody; simpl; [apply raises_only_ret|].
  apply raises_only_bind; [apply Hbody; left|].
  intros _. apply IH. intros y Hy. apply Hbody. by right.
Qed.

Lemma raises_only_fs_call E (ev : event) (f : fs → exn + fs) :
  (∀ m e, f m = inl e → E e) → raises_only E (fs_call ev f).
Proof.
  intros Hf w e w' [(m' & _ & [=] & _) | (e' & He & [= <-] & _)]%fs_call_inv.
  by eapply Hf.
Qed.

Lemma os_error_check_parent m (p : path) e :
  Fs.check_parent m p = Some e → os_error e.
Proof.
  destruct (check_parent_cases m p) as [-> | [-> | ->]]; intros [= <-];
    unfold os_error; auto 10.
Qed.

Lemma os_error_open_w (p : path) m e : Fs.open_w p m = inl e → os_error e.
Proof.
  unfold Fs.open_w. destruct (Fs.check_parent m p) as [e'|] eqn:Hp.
  - intros [= <-]. by eapply os_error_check_parent.
  - destruct (m !! p) as [[c|]|]; intros [= <-]. unfold os_error. auto 10.
Qed.

Lemma os_error_mkdir (p : path) : raises_only os_error (Os.mkdir p).
Proof.
  apply raises_only_fs_call. intros m e. unfold Fs.mkdir.
  destruct (Fs.exists_ m p); [intros [= <-]; unfold os_error; auto 10|].
  destruct (Fs.check_parent m p) as [e'|] eqn:Hp; intros [= <-].
  by eapply os_error_check_parent.
Qed.

Lemma os_error_remove (p : path) : raises_only os_error (Os.remove p).
Proof.
  apply raises_only_fs_call. intros m e. unfold Fs.remove.
  destruct (m !! p) as [[c|]|]; intros [= <-]; unfold os_error; auto 10.
Qed.

(** [shutil.copy2] raises [SameFileError] only when asked to copy a file
    onto itself. *)
Lemma os_error_copy2 src dst :
  (∀ d, copy_targets src dst d → src ≠ d) →
  raises_only os_error (Os.copy2 src dst).
Proof.
  intros Hne w e w'. unfold Os.copy2. apply raises_only_fs_call.
  intros m e'. unfold Fs.copy2.
  rewrite bool_decide_eq_false_2 by apply Hne, dest_target.
  unfold Fs.read_bytes. destruct (m !! src) as [[c|]|];
    [|intros [= <-]; unfold os_error; auto 10..].
  destruct (Fs.open_w _ m) as [e''|] eqn:Ho; intros [= <-].
  by eapply os_error_open_w.
Qed.

Lemma os_error_makedirs_rev rp : raises_only os_error (Os.makedirs_rev rp).
Proof.
  induction rp as [|name rhead IH]; simpl.
  { intros w e w' [= <- _]. unfold os_error. auto 10. }
  apply raises_only_bind; [|intros _; apply os_error_mkdir].
  apply raises_only_bind; [by intros w e w' [=]|]. intros b.
  apply raises_only_when. intros w e w'. unfold Os.pass_FileExistsError.
  destruct (Os.makedirs_rev rhead w) as [[[]|e'] w1] eqn:Hm; [done|].
  destruct e'; intros [= <- _]; by eapply IH.
Qed.

Lemma os_error_create_backup_dir : raises_only os_error create_backup_dir.
Proof. intros w e w'. by rewrite create_backup_dir_run. Qed.

Lemma os_error_backup_stage o files :
  raises_only os_error (backup_stage clk o files).
Proof.
  unfold backup_stage. apply raises_only_when.
  apply raises_only_bind; [apply os_error_create_backup_dir|]. intros _.
  apply raises_only_bind; [|intros _; apply raises_only_ret].
  unfold backup_migrations.
  apply raises_only_bind; [apply os_error_makedirs_rev|]. intros _.
  apply raises_only_bind; [|intros _; apply raises_only_ret].
  apply raises_only_for_each. intros f _. apply os_error_copy2.
  intros d [-> | ->]; done.
Qed.

Lemma os_error_write_temp_file files :
  raises_only os_error (write_temp_file clk files).
Proof.
  unfold write_temp_file. apply raises_only_bind.
  { apply raises_only_fs_call. intros m e. apply os_error_open_w. }
  intros _. apply raises_only_bind; [|intros _].
  - apply raises_only_for_each. intros line _.
    apply raises_only_fs_call. by intros m e.
  - apply raises_only_for_each. intros f _. unfold write_section.
    repeat first
      [ apply raises_only_fs_call; by intros m e
      | apply raises_only_when
      | apply raises_only_bind; [|intros ?] ].
    intros w e w'. unfold Os.read, Fs.read, Fs.read_bytes.
    destruct (w_fs w !! _) as [[c|]|]; [destruct (Str.utf8_valid c)|..];
      intros [= <- _]; unfold os_error; auto 10.
Qed.

Lemma os_error_save_old_artifact :
  raises_only os_error (save_old_artifact clk).
Proof.
  unfold save_old_artifact. apply raises_only_bind; [by intros w e w' [=]|].
  intros b. apply raises_only_when.
  apply raises_only_bind; [apply os_error_create_backup_dir|]. intros _.
  apply os_error_copy2. intros d [-> | ->]; done.
Qed.

Lemma os_error_rename_to_init timestamp :
  raises_only os_error (rename_to_init clk (Some timestamp)).
Proof.
  unfold rename_to_init. simpl. rewrite join_root.
  apply raises_only_bind; [|intros _].
  - apply raises_only_bind; [by intros w e w' [=]|]. intros b.
    apply raises_only_when, raises_only_bind; [|intros _; apply os_error_remove].
    apply os_error_copy2. intros d [-> | ->]; done.
  - apply os_error_copy2. intros d [-> | ->]; [|done].
    apply not_eq_sym, init_not_output.
Qed.

Lemma os_error_delete_stage o files : raises_only os_error (delete_stage o files).
Proof.
  unfold delete_stage. destruct (opt_delete o); [|apply raises_only_ret].
  destruct (opt_backup o); simpl; [|apply raises_only_ret].
  apply raises_only_bind.
  - intros w e w'. unfold Os.input.
    destruct (w_stdin w); intros [= <- _]. unfold os_error. auto 10.
  - intros line. case_bool_decide; [|apply raises_only_ret].
    apply raises_only_for_each. intros f _. apply os_error_remove.
Qed.

Lemma after_raises_only E {A} (r0 : result A) (m : M unit) w e w' :
  (∀ e0, r0 = Raise e0 → E e0) → raises_only E m →
  after r0 m w = (Raise e, w') → E e.
Proof.
  intros Hr0 Hm. destruct r0 as [a|e0]; simpl.
  - apply Hm.
  - unfold raise. intros [= <- _]. by apply Hr0.
Qed.

(** X21: on the file system modelled, with discovered names that are
    encoded text and the timestamp of a rename encoded text without a path
    separator, the exceptions that can come out of [consolidate_migrations]
    are those of its file-system calls, of the decoding of a source file and
    of [input]: [FileNotFoundError], [FileExistsError], [IsADirectoryError],
    [NotADirectoryError], [UnicodeDecodeError] and [EOFError].  It never
    raises [SystemExit] (only the menu does), never
    asks [shutil.copy2] to copy a file onto itself ([SameFileError]), and
    its one [shutil.move] cannot fail: when it is reached the temporary file
    has just been written and the artifact's path is not a directory. *)
Theorem run_raises_only_os_errors (o : options) w e w' :
  Forall (λ f, Str.utf8_valid f = true) (discover w o) →
  (opt_rename o = true →
   Str.no_separator (opt_timestamp o) = true ∧
   Str.utf8_valid (opt_timestamp o) = true) →
  consolidate_migrations clk (Some o) w = (Raise e, w') →
  e = FileNotFoundError ∨ e = FileExistsError ∨ e = IsADirectoryError ∨
  e = NotADirectoryError ∨ e = UnicodeDecodeError ∨ e = EOFError.
Proof.
  intros _ _. rewrite consolidate_unfold. case_bool_decide; [done|].
  intros (r1 & w1 & r2 & w2 & r3 & w3 & r4 & w4 & r5 & w5 &
          H1 & H2 & H3 & H4 & H5 & H6)%stages_inv.
  assert (∀ e0, r1 = Raise e0 → os_error e0) as N1.
  { intros e0 ->. by eapply os_error_backup_stage. }
  assert (∀ e0, r2 = Raise e0 → os_error e0) as N2.
  { intros e0 ->. eapply after_raises_only;
      [exact N1|apply os_error_write_temp_file|exact H2]. }
  assert (∀ e0, r3 = Raise e0 → os_error e0) as N3.
  { intros e0 ->. eapply after_raises_only;
      [exact N2|apply os_error_save_old_artifact|exact H3]. }
  assert (∀ e0, r4 = Raise e0 → os_error e0) as N4.
  { intros e0 ->. destruct r3 as [[]|e3].
    - destruct (pre_move_ok clk o _ w _ _ _ _ _ (discovered_pre_move w o) H1 H2 H3)
        as (_ & Htemp & Hout & Hnd & _).
      simpl in H4. rewrite (move_temp_run _ _ Htemp) in H4 by (by rewrite Hout).
      done.
    - apply after_raise in H4 as [[= <-] _]. by apply N3. }
  assert (∀ e0, r5 = Raise e0 → os_error e0) as N5.
  { intros e0 ->. eapply after_raises_only; [exact N4| |exact H5].
    apply raises_only_when, os_error_rename_to_init. }
  eapply (after_raises_only os_error); [exact N5| |exact H6].
  apply os_error_delete_stage.
Qed.

End failures.

(** * The further properties on concrete directories *)

Section more_examples.

Lemma ex_fs_wf : Fs.wf ex_fs.
Proof. apply (bool_decide_unpack (Fs.wf ex_fs)). vm_compute. exact I. Qed.

(** Backing up the two migrations of the example directory. *)
Lemma backup_migrations_copies_all_witness :
  Fs.wf ex_fs ∧
  ∃ c, ex_fs !! ["20240101_a.sql"] = Some (File c) ∧
       w_fs (backup_migrations ex_clock ["20240101_a.sql"; "20240102_b.sql"]
               (World ex_fs [] [])).2
         !! ["backups"; "migrations_backup_20240105_101010"; "20240101_a.sql"]
       = Some (File c).
Proof.
  assert (backup_migrations ex_clock ["20240101_a.sql"; "20240102_b.sql"]
            (World ex_fs [] [])
          = (Ok (backup_subdir ex_clock),
             (backup_migrations ex_clock ["20240101_a.sql"; "20240102_b.sql"]
                (World ex_fs [] [])).2)) as Hrun
    by (vm_compute; reflexivity).
  assert (Forall (λ f, Str.no_separator f = true)
            ["20240101_a.sql"; "20240102_b.sql"]) as Hnames
    by (repeat constructor).
  split; [exact ex_fs_wf|].
  destruct (backup_migrations_copies_all ex_clock _ (World ex_fs [] []) _ _
              ex_fs_wf Hnames Hrun)
    as (_ & _ & _ & Hcopies & _).
  destruct (Hcopies "20240101_a.sql") as (c & Hc & _ & Hb); [left|].
  exists c. split; [exact Hc | exact Hb].
Defined.

(** A second run within the same second. *)
Lemma backup_collision_stops_run_witness :
  ∃ w', consolidate_migrations ex_clock (Some ex_backup)
          (World ex_backed_up_fs [] []) = (Raise FileExistsError, w').
Proof.
  assert (discover (World ex_backed_up_fs [] []) ex_backup ≠ []) as Hne
    by (by vm_compute).
  destruct (backup_collision_stops_run ex_clock ex_backup
              (World ex_backed_up_fs [] []) eq_refl Hne) as [Hex _].
  destruct Hex as (w' & Hrun & _).
  - exists Dir. vm_compute. reflexivity.
  - by exists w'.
Defined.

(** Deletion confirmed: the first migration is gone and its text is in the
    backup directory. *)
Lemma discovered_files_survive_witness :
  w_fs (ex_run ex_fs ex_backup_delete ["y"]).2 !! ["20240101_a.sql"]
    = Some (File "create table a();") ∨
  (w_fs (ex_run ex_fs ex_backup_delete ["y"]).2 !! ["20240101_a.sql"] = None ∧
   opt_delete ex_backup_delete = true ∧ opt_backup ex_backup_delete = true ∧
   w_fs (ex_run ex_fs ex_backup_delete ["y"]).2
     !! join (join BACKUP_DIR ("migrations_backup_" +:+ now_backup ex_clock))
             "20240101_a.sql"
   = Some (File "create table a();")).
Proof.
  refine (proj1 (discovered_files_survive ex_clock ex_backup_delete
                   (World ex_fs ["y"] []) _ _ ex_fs_wf _ (surjective_pairing _)
                   "20240101_a.sql" "create table a();" _ _)).
  - intros _. reflexivity.
  - unfold ex_backup_delete. rewrite ex_discovered. left.
  - reflexivity.
Defined.

(** Choice 5 at once. *)
Lemma menu_reads_input_only_witness :
  w_fs (show_menu ex_clock (World ex_fs ["5"] [])).2 = ex_fs.
Proof.
  exact (proj1 (menu_reads_input_only ex_clock (World ex_fs ["5"] []) _ _
                  (surjective_pairing _))).
Defined.

(** Rename switched on with a timestamp typed between blanks. *)
Lemma menu_timestamp_origin_witness :
  show_menu ex_clock (World ∅ ["3"; " 20240103 "; "4"] []) =
    (Ok (Options true false true "20240103"),
     World ∅ [] (EvInput <$> ["3"; " 20240103 "; "4"])) ∧
  ("20240103" = now_Ymd ex_clock ∨
   ∃ line, line ∈ ["3"; " 20240103 "; "4"] ∧ Str.strip line ≠ "" ∧
           "20240103" = Str.strip line).
Proof.
  assert (show_menu ex_clock (World ∅ ["3"; " 20240103 "; "4"] []) =
            (Ok (Options true false true "20240103"),
             World ∅ [] (EvInput <$> ["3"; " 20240103 "; "4"]))) as H
    by (vm_compute; reflexivity).
  split; [exact H|].
  exact (menu_timestamp_origin ex_clock _ _ _ H).
Defined.

(** The command line [-r -t ""]. *)
Lemma built_timestamp_nonempty_witness :
  now_Ymd ex_clock ≠ "" ∧
  opt_timestamp (options_of_args ex_clock (Args false false true (Some "") false))
    ≠ "".
Proof.
  assert (now_Ymd ex_clock ≠ "") as H by done.
  split; [exact H|].
  exact (built_timestamp_nonempty ex_clock
           (Args false false true (Some "") false) (World ∅ [] []) _ _ H eq_refl).
Defined.

(** A file that is no migration, in a run that deletes the migrations. *)
Lemma run_leaves_other_entries_witness :
  w_fs (ex_run ex_notes_fs ex_backup_delete ["y"]).2 !! ["notes.txt"] =
    Some (File "todo").
Proof.
  transitivity (w_fs (World ex_notes_fs ["y"] []) !! ["notes.txt"]);
    [|reflexivity].
  apply (proj1 (run_leaves_other_entries ex_clock ex_backup_delete
                  (World ex_notes_fs ["y"] []) _ _ (λ _, eq_refl)
                  (surjective_pairing _)));
    [done|done|done|by intros [=]|].
  intros _ _ _ (_ & Hm & _)%elem_of_discover_from. by vm_compute in Hm.
Defined.

(** A stale temporary file is there before the run. *)
Lemma no_temp_left_on_success_witness :
  ex_stale_fs !! TEMP_FILE = Some (File "stale") ∧
  w_fs (ex_run ex_stale_fs ex_plain []).2 !! TEMP_FILE = None.
Proof.
  split; [reflexivity|].
  apply (no_temp_left_on_success ex_clock ex_plain (World ex_stale_fs [] [])).
  - by vm_compute.
  - intros H. discriminate H.
  - vm_compute. reflexivity.
Defined.

(** After a run without deletion the discovery is the same. *)
Lemma rerun_discovers_same_files_witness :
  discover (ex_run ex_fs ex_plain []).2 ex_plain =
    discover (World ex_fs [] []) ex_plain.
Proof.
  refine (proj1 (proj2 (rerun_discovers_same_files ex_clock ex_plain
                          (World ex_fs [] []) _ _ _ (surjective_pairing _))
                  (or_introl eq_refl))).
  intros H. discriminate H.
Defined.

(** After a confirmed deletion nothing is left to discover. *)
Lemma rerun_after_deletion_finds_nothing_witness :
  Str.lower "y" = "y" ∧
  discover (ex_run ex_fs ex_backup_delete ["y"]).2 ex_backup_delete = [].
Proof.
  assert (consolidate_migrations ex_clock (Some ex_backup_delete)
            (World ex_fs ["y"] [])
          = (Ok tt, (ex_run ex_fs ex_backup_delete ["y"]).2)) as Hrun
    by (vm_compute; reflexivity).
  split; [reflexivity|].
  exact (proj1 (rerun_after_deletion_finds_nothing ex_clock ex_backup_delete
                  (World ex_fs ["y"] []) _ "y" [] (λ _, eq_refl) eq_refl eq_refl
                  eq_refl eq_refl Hrun)).
Defined.

(** Rename requested in the example directory. *)
Lemma init_file_is_artifact_copy_witness :
  w_fs (ex_run ex_fs ex_rename []).2 !! ["20240103_initial_schema.sql"] =
    w_fs (ex_run ex_fs ex_rename []).2 !! OUTPUT_FILE.
Proof.
  destruct (init_file_is_artifact_copy ex_clock ex_rename (World ex_fs [] [])
              (ex_run ex_fs ex_rename []).2) as [H1 H2].
  - by vm_compute.
  - reflexivity.
  - reflexivity.
  - vm_compute. reflexivity.
  - etrans; [exact H2 | symmetry; exact H1].
Defined.

(** The answer [yes] does not confirm. *)
Lemma only_y_confirms_deletion_witness :
  delete_stage ex_backup_delete ["20240101_a.sql"] (World ex_fs ["yes"] []) =
    (Ok tt, World ex_fs [] [EvInput "yes"]).
Proof.
  apply (proj2 (only_y_confirms_deletion ex_backup_delete ["20240101_a.sql"]
                  (World ex_fs ["yes"] []) "yes" [] eq_refl eq_refl eq_refl));
    done.
Defined.

(** A list whose second name is missing. *)
Lemma delete_migrations_stops_at_first_failure_witness :
  ∃ e w',
    delete_migrations ["20240101_a.sql"; "missing.sql"; "20240102_b.sql"]
      (World ex_fs [] []) = (Raise e, w') ∧
    w_fs w' !! ["20240101_a.sql"] = None ∧
    w_fs w' !! ["20240102_b.sql"] = Some (File "create table b();").
Proof.
  destruct (delete_migrations_stops_at_first_failure
              ["20240101_a.sql"] "missing.sql" ["20240102_b.sql"]
              (World ex_fs [] []))
    as (e & w' & Hrun & _ & Hgone & Hframe & _).
  - repeat constructor.
  - apply NoDup_singleton.
  - apply Forall_singleton. by exists "create table a();".
  - right. intros [c Hc]. vm_compute in Hc. discriminate.
  - exists e, w'. split_and!; [exact Hrun | apply Hgone; left |].
    rewrite Hframe; [reflexivity|].
    intros g ->%list_elem_of_singleton. done.
Defined.

(** No flag, a line of noise, then choice 4. *)
Lemma menu_proceed_runs_defaults_witness :
  main ex_clock (Args false false false None false) (World ex_fs ["x"; "4"] []) =
    consolidate_migrations ex_clock None
      (World ex_fs [] [EvInput "x"; EvInput "4"]).
Proof.
  assert (Forall (λ l, is_choice l = false) ["x"]) as Hjunk
    by (apply Forall_singleton; vm_compute; reflexivity).
  exact (proj2 (menu_proceed_runs_defaults ex_clock
                  (Args false false false None false)
                  (World ex_fs ["x"; "4"] []) ["x"] "4" []
                  eq_refl eq_refl Hjunk eq_refl)).
Defined.

(** Every option set, in the example directory. *)
Lemma run_succeeds_when_unobstructed_witness :
  ∃ w', consolidate_migrations ex_clock (Some ex_all) (World ex_fs ["y"] []) =
          (Ok tt, w').
Proof.
  apply (run_succeeds_when_unobstructed ex_clock ex_all (World ex_fs ["y"] [])).
  - exact ex_fs_wf.
  - assert (discover (World ex_fs ["y"] []) ex_all =
              ["20240101_a.sql"; "20240102_b.sql"]) as ->
      by (vm_compute; reflexivity).
    repeat constructor; eexists; split; reflexivity.
  - assert (discover (World ex_fs ["y"] []) ex_all =
              ["20240101_a.sql"; "20240102_b.sql"]) as ->
      by (vm_compute; reflexivity).
    repeat constructor.
  - intros c H. vm_compute in H. discriminate.
  - intros _. vm_compute. reflexivity.
  - vm_compute. reflexivity.
  - intros H. vm_compute in H. discriminate.
  - intros H. vm_compute in H. discriminate.
  - intros _. split_and!; vm_compute; reflexivity.
  - intros _ _ H. discriminate H.
Defined.

(** A confirmed deletion: the removals come after the move. *)
Lemma no_removal_before_backup_and_move_witness :
  ∃ t1 t2,
    w_trace (ex_run ex_fs ex_backup_delete ["y"]).2 =
      t1 ++ EvMove TEMP_FILE OUTPUT_FILE :: t2 ∧
    EvRemove ["20240101_a.sql"] ∈ t2.
Proof.
  assert ("20240101_a.sql" ∈ discover (World ex_fs ["y"] []) ex_backup_delete)
    as Hf by (unfold ex_backup_delete; rewrite ex_discovered; left).
  assert (opt_rename ex_backup_delete = true →
          Str.no_separator (opt_timestamp ex_backup_delete) = true) as Hplain
    by (intros _; reflexivity).
  set (t := w_trace (ex_run ex_fs ex_backup_delete ["y"]).2).
  assert (EvRemove ["20240101_a.sql"] ∈ t) as Hrm.
  { apply (bool_decide_unpack _). vm_compute. exact I. }
  destruct (no_removal_before_backup_and_move ex_clock ex_backup_delete
              (World ex_fs ["y"] []) (ex_run ex_fs ex_backup_delete ["y"]).1
              (ex_run ex_fs ex_backup_delete ["y"]).2 t "20240101_a.sql"
              ex_fs_wf Hplain (surjective_pairing _) (eq_refl t) Hf Hrm)
    as (t1 & t2 & Ht & Hin & _).
  exists t1, t2. split; [exact Ht | exact Hin].
Defined.

(** A directory named like a migration. *)
Lemma unreadable_entry_stops_run_witness :
  ∃ e, (ex_run ex_dir_entry_fs ex_plain []).1 = Raise e.
Proof.
  assert (¬ Forall (readable (w_fs (World ex_dir_entry_fs [] [])))
              (discover (World ex_dir_entry_fs [] []) ex_plain)) as Hnreg.
  { intros HF. rewrite Forall_forall in HF.
    destruct (HF "20240103_c.sql") as (c & Hc & _).
    - apply elem_of_discover_from. split_and!; [|reflexivity|by intros [=]].
      apply elem_of_listdir. exists Dir. reflexivity.
    - vm_compute in Hc. discriminate. }
  exact (proj1 (unreadable_entry_stops_run ex_clock ex_plain
                  (World ex_dir_entry_fs [] []) _ _ Hnreg (surjective_pairing _))).
Defined.

(** The same directory: the exception is [IsADirectoryError]. *)
Lemma run_raises_only_os_errors_witness :
  IsADirectoryError = FileNotFoundError ∨ IsADirectoryError = FileExistsError ∨
  IsADirectoryError = IsADirectoryError ∨ IsADirectoryError = NotADirectoryError ∨
  IsADirectoryError = UnicodeDecodeError ∨ IsADirectoryError = EOFError.
Proof.
  apply (run_raises_only_os_errors ex_clock ex_plain (World ex_dir_entry_fs [] [])
           IsADirectoryError (ex_run ex_dir_entry_fs ex_plain []).2).
  - assert (discover (World ex_dir_entry_fs [] []) ex_plain =
              ["20240101_a.sql"; "20240102_b.sql"; "20240103_c.sql"]) as ->
      by (vm_compute; reflexivity).
    repeat constructor.
  - intros H. discriminate H.
  - vm_compute. reflexivity.
Defined.

End more_examples.
